(** * GameBoost AI: the command bridge, the preset table and the Turbo sequence

    A shallow embedding of the parts of the repository that carry behaviour:
    - [public/electron/main.js]    the host process (run-powershell, read-file);
    - [public/electron/preload.js] the bridge exposed to the sandboxed page;
    - [src/engine/presets.ts]      the preset table and the name normaliser;
    - [src/engine/optimizer/windows.ts] (the fan-speed placeholder);
    - [src/engine/turbo.ts]        the Turbo sequence and its persistence;
    - [temp-project-restore/src/engine/turbo.ts] the earlier, fully simulated
      Turbo sequence.

    JavaScript values are untyped, so the places where the code tests a type
    ([typeof], truthiness, [||]) are modelled over a small universe of values.
    Strings are sequences of code units below 256 (the Latin-1 range), where
    [String.prototype.toLowerCase] works unit by unit; numbers are exact
    rationals extended with NaN and the two infinities, so comparisons with
    the integer constants of the code are exact. Where [src/engine/turbo.ts]
    multiplies, divides or subtracts fractions and hands the result on
    ([Math.random()] scaled and floored, the multiplier of the fading
    boost), the result is the exact one rounded to the nearest binary64
    value. The earlier engine only tests its draws, against 0.1 and, scaled
    by 40, against the threshold of the temperature guard; these tests are
    kept on exact values, and come out the same on doubles. *)

From Stdlib Require Import ZArith QArith Qround Qpower String Ascii List Bool.
From Stdlib Require Import Lia Lqa.
From Stdlib Require Import DecimalString DecimalFacts DecimalPos DecimalN DecimalZ.
From stdpp Require Import gmap strings.

Set Warnings "-register-all".

Local Open Scope string_scope.
Local Open Scope Z_scope.

(* stdpp keeps [simpl] from unfolding string concatenation; the messages
   and the JSON texts below are computed with it. *)
Local Arguments String.append : simpl nomatch.

(** ** The JavaScript runtime: values, strings, plain objects *)
Module Js.

(** A number: a finite value, or one of the three special doubles. *)
Inductive Num : Type :=
| Fin (q : Q)
| NaN
| Infinity (negative : bool).

Definition ofZ (z : Z) : Num := Fin (inject_Z z).

(** [a < b] and [a > b] on numbers; every comparison with NaN is false. *)
Definition lt (a b : Num) : bool :=
  match a, b with
  | NaN, _ | _, NaN => false
  | Fin x, Fin y => if Qlt_le_dec x y then true else false
  | Fin _, Infinity neg => negb neg
  | Infinity neg, Fin _ => neg
  | Infinity n1, Infinity n2 => n1 && negb n2
  end.

Definition gt (a b : Num) : bool := lt b a.

Inductive Value : Type :=
| Undefined
| Null
| Boolean (b : bool)
| Number (n : Num)
| Str (s : string)
| Object (props : list (string * Value))
| Array (items : list Value)
| Native (name : string) (callable : bool).
    (* a built-in object such as the [Object] constructor or
       [Object.prototype]; opaque, always truthy *)

Inductive TypeTag : Type :=
| TUndefined | TObject | TBoolean | TNumber | TString | TFunction.

Definition typeof (v : Value) : TypeTag :=
  match v with
  | Undefined => TUndefined
  | Null => TObject
  | Boolean _ => TBoolean
  | Number _ => TNumber
  | Str _ => TString
  | Object _ | Array _ => TObject
  | Native _ callable => if callable then TFunction else TObject
  end.

Definition is_string (v : Value) : bool :=
  match v with Str _ => true | _ => false end.

Definition is_number (v : Value) : bool :=
  match v with Number _ => true | _ => false end.

(** ToBoolean. *)
Definition truthy (v : Value) : bool :=
  match v with
  | Undefined | Null => false
  | Boolean b => b
  | Number (Fin q) => negb (Qeq_bool q 0)
  | Number NaN => false
  | Number (Infinity _) => true
  | Str s => negb (String.eqb s "")
  | Object _ | Array _ | Native _ _ => true
  end.

(** [a || b]. *)
Definition or (a b : Value) : Value := if truthy a then a else b.

(** *** Strings *)

Definition unit_of (c : ascii) : N := N_of_ascii c.

(** [toLowerCase] on one code unit of the Latin-1 range: A-Z and the
    accented capitals U+00C0..U+00DE (without the multiplication sign
    U+00D7) move up by 32; every other unit is unchanged. *)
Definition lowerUnit (c : ascii) : ascii :=
  let n := unit_of c in
  if ((65 <=? n) && (n <=? 90) ||
      (192 <=? n) && (n <=? 222) && negb (n =? 215))%N
  then ascii_of_N (n + 32) else c.

Fixpoint toLowerCase (s : string) : string :=
  match s with
  | EmptyString => EmptyString
  | String c s' => String (lowerUnit c) (toLowerCase s')
  end.

(** [s.includes(sub)]. *)
Fixpoint includes (s sub : string) : bool :=
  String.prefix sub s ||
  match s with
  | EmptyString => false
  | String _ s' => includes s' sub
  end.

(** The class [\s] restricted to the Latin-1 range: TAB, LF, VT, FF, CR,
    SPACE and NBSP. *)
Definition isWhiteSpace (c : ascii) : bool :=
  let n := unit_of c in
  ((9 <=? n) && (n <=? 13) || (n =? 32) || (n =? 160))%N.

(** [s.replace(/[...]/g, '')] for a character class given as a predicate
    (a [+] after the class removes the same units). *)
Fixpoint removeAll (cls : ascii -> bool) (s : string) : string :=
  match s with
  | EmptyString => EmptyString
  | String c s' =>
      if cls c then removeAll cls s' else String c (removeAll cls s')
  end.

(** [s] contains [d] up to the case of letters: some stretch of [s] has
    the same lower-case form as [d]. *)
Definition containsIgnoringCase (s d : string) : Prop :=
  exists pre mid post,
    s = pre +:+ mid +:+ post /\ toLowerCase mid = toLowerCase d.

(** [a <= b] on numbers. *)
Definition le (a b : Num) : bool :=
  match a, b with
  | NaN, _ | _, NaN => false
  | Fin x, Fin y => Qle_bool x y
  | Fin _, Infinity neg => negb neg
  | Infinity neg, Fin _ => neg
  | Infinity n1, Infinity n2 => n1 || negb n2
  end.

(** A one-unit string, for the accented letters of the messages. *)
Definition latin1 (n : N) : string := String (ascii_of_N n) EmptyString.

(** *** Plain objects used as tables

    An object literal has its own properties and, behind them, those of
    [Object.prototype]: [table[key]] finds an inherited property when the
    object has no own property of that name. *)

Definition objectPrototypeKeys : list string :=
  [ "constructor"; "__proto__"; "hasOwnProperty"; "isPrototypeOf";
    "propertyIsEnumerable"; "toLocaleString"; "toString"; "valueOf";
    "__defineGetter__"; "__defineSetter__";
    "__lookupGetter__"; "__lookupSetter__" ].

Definition inherited (key : string) : option Value :=
  if String.eqb key "constructor" then Some (Native "Object" true)
  else if String.eqb key "__proto__" then Some (Native "Object.prototype" false)
  else if existsb (String.eqb key) objectPrototypeKeys
       then Some (Native key true)
       else None.

(** Own property of a literal; where a key is written twice the later
    entry wins. *)
Definition ownProperty {A : Type} (tbl : list (string * A)) (key : string)
  : option A :=
  fold_left (fun acc kv => if String.eqb (fst kv) key then Some (snd kv) else acc)
            tbl None.

(** [table[key]] for a table whose own values are injected by [inj]. *)
Definition lookup {A : Type} (inj : A -> Value) (tbl : list (string * A))
           (key : string) : Value :=
  match ownProperty tbl key with
  | Some a => inj a
  | None =>
      match inherited key with
      | Some v => v
      | None => Undefined
      end
  end.

(** [v.key] on an arbitrary value; [None] is the TypeError that reading
    a property of [undefined] or [null] raises. *)
Definition get (v : Value) (key : string) : option Value :=
  match v with
  | Undefined | Null => None
  | Object props => Some (lookup (fun x => x) props key)
  | Native _ _ =>
      Some (match inherited key with Some x => x | None => Undefined end)
  | _ => Some Undefined
  end.

End Js.

(** ** Binary64 arithmetic

    The runtime's numbers are IEEE 754 doubles: a product, a quotient or a
    difference is the exact result rounded to the nearest double, ties to
    the even significand. The values rounded below stay far beneath 2^1024,
    where the runtime would answer with an infinity; that overflow is not
    part of [round]. *)
Module Double.

(** The integer nearest to [y], ties to the even one. *)
Definition nearestEven (y : Q) : Z :=
  let f := Qfloor y in
  match (y - inject_Z f ?= 1 # 2)%Q with
  | Lt => f
  | Gt => f + 1
  | Eq => if Z.even f then f else f + 1
  end.

(** [floor(log2 q)] for a positive [q]. *)
Definition exponent (q : Q) : Z :=
  let e := Z.log2 (Qnum q) - Z.log2 (Zpos (Qden q)) in
  if Qle_bool (2 ^ e) q then e else e - 1.

(** Round to nearest, ties to even, with 53 significant bits and the
    exponents of binary64 from -1022 upwards (below them the subnormal
    grid of step 2^-1074). *)
Definition roundPos (q : Q) : Q :=
  if Qle_bool q 0 then 0%Q
  else
    let k := Z.max (exponent q) (-1022) - 52 in
    (inject_Z (nearestEven (q / 2 ^ k)) * 2 ^ k)%Q.

Definition round (q : Q) : Q :=
  if Qle_bool 0 q then roundPos q else (- roundPos (- q))%Q.

(** [a * b], [a / b] and [a - b] on doubles. *)
Definition mul (a b : Q) : Q := round (a * b).
Definition div (a b : Q) : Q := round (a / b).
Definition sub (a b : Q) : Q := round (a - b).

End Double.

Arguments Double.round : simpl never.
Arguments Double.mul : simpl never.
Arguments Double.div : simpl never.
Arguments Double.sub : simpl never.

(** ** The runtime's [JSON] object

    [JSON.parse] as a recursive-descent reader of the JSON grammar. The
    grammar has [\u] escapes for every code unit, while the strings of this
    development stop at U+00FF, so the reader comes in two modes: the strict
    one, [parse], gives the value of a text and has none ([None]) for a text
    that is not of the grammar or that has an escape above U+00FF; the wide
    one reads such an escape as well and is used as the recogniser of the
    grammar, [wellFormed]: the texts it refuses are those on which the
    runtime raises a [SyntaxError]. A number literal denotes its exact
    rational. The writer is [JSON.stringify] at the one shape the engine
    stores: an object with an integer and a string. *)
Module JSON.

Definition code (c : ascii) : N := N_of_ascii c.
Definition chr (n : N) : ascii := ascii_of_N n.

Definition isWs (c : ascii) : bool :=
  match code c with
  | 9 | 10 | 13 | 32 => true
  | _ => false
  end%N.

Fixpoint skipWs (s : string) : string :=
  match s with
  | EmptyString => s
  | String c s' => if isWs c then skipWs s' else s
  end.

Definition digit (c : ascii) : option (Decimal.uint -> Decimal.uint) :=
  match code c with
  | 48 => Some Decimal.D0 | 49 => Some Decimal.D1 | 50 => Some Decimal.D2
  | 51 => Some Decimal.D3 | 52 => Some Decimal.D4 | 53 => Some Decimal.D5
  | 54 => Some Decimal.D6 | 55 => Some Decimal.D7 | 56 => Some Decimal.D8
  | 57 => Some Decimal.D9
  | _ => None
  end%N.

(** The longest run of decimal digits at the head of [s], and the rest. *)
Fixpoint readDigits (s : string) : Decimal.uint * string :=
  match s with
  | EmptyString => (Decimal.Nil, s)
  | String c s' =>
      match digit c with
      | Some d => let (ds, r) := readDigits s' in (d ds, r)
      | None => (Decimal.Nil, s)
      end
  end.

(** The grammar allows a leading [0] only as the whole integer part. *)
Definition leadingZero (d : Decimal.uint) : bool :=
  match d with
  | Decimal.D0 Decimal.Nil => false
  | Decimal.D0 _ => true
  | _ => false
  end.

Definition readFraction (s : string) : option (Decimal.uint * string) :=
  match s with
  | String c s' =>
      if (code c =? 46)%N then
        match readDigits s' with
        | (Decimal.Nil, _) => None
        | (f, r) => Some (f, r)
        end
      else Some (Decimal.Nil, s)
  | EmptyString => Some (Decimal.Nil, s)
  end.

Definition readExponent (s : string) : option (option Z * string) :=
  match s with
  | String c s' =>
      if ((code c =? 101) || (code c =? 69))%N then
        let '(neg, s'') :=
          match s' with
          | String sg t =>
              if (code sg =? 45)%N then (true, t)
              else if (code sg =? 43)%N then (false, t)
              else (false, s')
          | EmptyString => (false, s')
          end in
        match readDigits s'' with
        | (Decimal.Nil, _) => None
        | (d, r) =>
            let e := Z.of_N (N.of_uint d) in
            Some (Some (if neg then - e else e), r)
        end
      else Some (None, s)
  | EmptyString => Some (None, s)
  end.

(** The rational a literal with a fraction or an exponent denotes. *)
Definition decimalValue (i f : Decimal.uint) (e : Z) : Q :=
  let scale := Z.to_pos (10 ^ Z.of_nat (Decimal.nb_digits f)) in
  let m := (Z.of_N (N.of_uint i) * Zpos scale + Z.of_N (N.of_uint f)) # scale in
  if 0 <=? e then (m * inject_Z (10 ^ e))%Q else (m / inject_Z (10 ^ (- e)))%Q.

Definition readUnsigned (s : string) : option (Q * string) :=
  match readDigits s with
  | (Decimal.Nil, _) => None
  | (i, r) =>
      if leadingZero i then None else
      match readFraction r with
      | None => None
      | Some (f, r1) =>
          match readExponent r1 with
          | None => None
          | Some (e, r2) =>
              Some (match f, e with
                    | Decimal.Nil, None => inject_Z (Z.of_N (N.of_uint i))
                    | _, _ => decimalValue i f (match e with Some z => z | None => 0 end)
                    end, r2)
          end
      end
  end.

Definition readNumber (s : string) : option (Q * string) :=
  match s with
  | String c s' =>
      if (code c =? 45)%N then
        match readUnsigned s' with
        | Some (q, r) => Some (Qopp q, r)
        | None => None
        end
      else readUnsigned s
  | EmptyString => None
  end.

Definition hexDigit (c : ascii) : option N :=
  let n := code c in
  if ((48 <=? n) && (n <=? 57))%N then Some (n - 48)%N
  else if ((97 <=? n) && (n <=? 102))%N then Some (n - 87)%N
  else if ((65 <=? n) && (n <=? 70))%N then Some (n - 55)%N
  else None.

Definition hex4 (a b c d : ascii) : option N :=
  match hexDigit a, hexDigit b, hexDigit c, hexDigit d with
  | Some x, Some y, Some z, Some w => Some (((x * 16 + y) * 16 + z) * 16 + w)%N
  | _, _, _, _ => None
  end.

Definition consTo (c : ascii) (r : option (string * string))
  : option (string * string) :=
  match r with
  | Some (str, rest) => Some (String c str, rest)
  | None => None
  end.

(** The unit a [\u] escape denotes; above U+00FF the wide mode reads it as
    a question mark, the strict mode has no string for it. *)
Definition escapedUnit (wide : bool) (u : N) : option ascii :=
  if (u <? 256)%N then Some (chr u)
  else if wide then Some (chr 63) else None.

(** The body of a string literal, after its opening quote. *)
Fixpoint readString (wide : bool) (s : string) : option (string * string) :=
  match s with
  | EmptyString => None
  | String c s' =>
      if (code c =? 34)%N then Some (EmptyString, s')
      else if (code c =? 92)%N then
        match s' with
        | String e s'' =>
            match code e with
            | 34 => consTo (chr 34) (readString wide s'')
            | 92 => consTo (chr 92) (readString wide s'')
            | 47 => consTo (chr 47) (readString wide s'')
            | 98 => consTo (chr 8) (readString wide s'')
            | 102 => consTo (chr 12) (readString wide s'')
            | 110 => consTo (chr 10) (readString wide s'')
            | 114 => consTo (chr 13) (readString wide s'')
            | 116 => consTo (chr 9) (readString wide s'')
            | 117 =>
                match s'' with
                | String h1 (String h2 (String h3 (String h4 s3))) =>
                    match hex4 h1 h2 h3 h4 with
                    | Some u =>
                        match escapedUnit wide u with
                        | Some a => consTo a (readString wide s3)
                        | None => None
                        end
                    | None => None
                    end
                | _ => None
                end
            | _ => None
            end%N
        | EmptyString => None
        end
      else if (code c <? 32)%N then None
      else consTo c (readString wide s')
  end.

Definition literal (word : string) (v : Js.Value) (s : string)
  : option (Js.Value * string) :=
  if String.prefix word s
  then Some (v, String.substring (String.length word)
                                 (String.length s - String.length word) s)
  else None.

Fixpoint parseValue (wide : bool) (fuel : nat) (s : string) {struct fuel}
  : option (Js.Value * string) :=
  match fuel with
  | O => None
  | S fuel' =>
      match skipWs s with
      | EmptyString => None
      | String c rest as t =>
          match code c with
          | 123 => parseMembers wide fuel' (skipWs rest) true nil
          | 91 => parseElements wide fuel' (skipWs rest) true nil
          | 34 =>
              match readString wide rest with
              | Some (str, r) => Some (Js.Str str, r)
              | None => None
              end
          | 116 => literal "true" (Js.Boolean true) t
          | 102 => literal "false" (Js.Boolean false) t
          | 110 => literal "null" Js.Null t
          | _ =>
              match readNumber t with
              | Some (q, r) => Some (Js.Number (Js.Fin q), r)
              | None => None
              end
          end%N
      end
  end
with parseMembers (wide : bool) (fuel : nat) (s : string) (first : bool)
                  (acc : list (string * Js.Value)) {struct fuel}
  : option (Js.Value * string) :=
  match fuel with
  | O => None
  | S fuel' =>
      match s with
      | EmptyString => None
      | String c rest =>
          if first && (code c =? 125)%N then Some (Js.Object (rev acc), rest)
          else if (code c =? 34)%N then
            match readString wide rest with
            | None => None
            | Some (k, r1) =>
                match skipWs r1 with
                | EmptyString => None
                | String colon r2 =>
                    if (code colon =? 58)%N then
                      match parseValue wide fuel' r2 with
                      | None => None
                      | Some (v, r3) =>
                          match skipWs r3 with
                          | EmptyString => None
                          | String d r4 =>
                              if (code d =? 44)%N then
                                parseMembers wide fuel' (skipWs r4) false
                                             ((k, v) :: acc)
                              else if (code d =? 125)%N then
                                Some (Js.Object (rev ((k, v) :: acc)), r4)
                              else None
                          end
                      end
                    else None
                end
            end
          else None
      end
  end
with parseElements (wide : bool) (fuel : nat) (s : string) (first : bool)
                   (acc : list Js.Value) {struct fuel}
  : option (Js.Value * string) :=
  match fuel with
  | O => None
  | S fuel' =>
      match s with
      | EmptyString => None
      | String c rest =>
          if first && (code c =? 93)%N then Some (Js.Array (rev acc), rest)
          else
            match parseValue wide fuel' s with
            | None => None
            | Some (v, r1) =>
                match skipWs r1 with
                | EmptyString => None
                | String d r2 =>
                    if (code d =? 44)%N then
                      parseElements wide fuel' (skipWs r2) false (v :: acc)
                    else if (code d =? 93)%N then
                      Some (Js.Array (rev (v :: acc)), r2)
                    else None
                end
            end
      end
  end.

(** A whole text: one value, then nothing but white space. The fuel is
    one more than the length of the text, and no text needs more. *)
Definition parseText (wide : bool) (text : string) : option Js.Value :=
  match parseValue wide (S (String.length text)) text with
  | Some (v, r) =>
      match skipWs r with
      | EmptyString => Some v
      | String _ _ => None
      end
  | None => None
  end.

(** [JSON.parse(text)], where it has a value in this development. *)
Definition parse (text : string) : option Js.Value := parseText false text.

(** Whether [text] is of the JSON grammar: where it is not, [JSON.parse]
    raises a [SyntaxError]. *)
Definition wellFormed (text : string) : bool :=
  match parseText true text with
  | Some _ => true
  | None => false
  end.

(** An integer as [JSON.stringify] writes it: decimal digits, a minus sign
    in front of a negative one. Time values stay below 10^21, where the
    runtime switches to exponent notation. *)
Definition printInt (z : Z) : string :=
  DecimalString.NilEmpty.string_of_int (Z.to_int z).

Definition hexChar (n : N) : ascii :=
  if (n <? 10)%N then chr (48 + n) else chr (87 + n).

(** One code unit inside a quoted string. *)
Definition escapeUnit (c : ascii) : string :=
  let n := code c in
  let esc (e : N) := String (chr 92) (String (chr e) EmptyString) in
  match n with
  | 34 => esc 34
  | 92 => esc 92
  | 8 => esc 98
  | 12 => esc 102
  | 10 => esc 110
  | 13 => esc 114
  | 9 => esc 116
  | _ =>
      if (n <? 32)%N
      then String (chr 92) (String (chr 117) (String (chr 48) (String (chr 48)
             (String (hexChar (n / 16)) (String (hexChar (n mod 16)) EmptyString)))))
      else String c EmptyString
  end%N.

Fixpoint escape (s : string) : string :=
  match s with
  | EmptyString => EmptyString
  | String c s' => escapeUnit c +:+ escape s'
  end.

Definition quote (s : string) : string :=
  String (chr 34) (escape s +:+ String (chr 34) EmptyString).

(** [JSON.stringify({ lastTurboAt, lastTurboProfile })]. *)
Definition stringifyTurboData (lastTurboAt : Z) (lastTurboProfile : string)
  : string :=
  "{" +:+ quote "lastTurboAt" +:+ ":" +:+ printInt lastTurboAt +:+ ","
      +:+ quote "lastTurboProfile" +:+ ":" +:+ quote lastTurboProfile +:+ "}".

(** The object that text denotes. *)
Definition turboDataValue (lastTurboAt : Z) (lastTurboProfile : string)
  : Js.Value :=
  Js.Object [ ("lastTurboAt", Js.Number (Js.ofZ lastTurboAt));
              ("lastTurboProfile", Js.Str lastTurboProfile) ].

End JSON.

(** ** [src/engine/presets.ts] *)
Module Presets.

Record PresetConfig : Type := {
  cpuPriority : string;
  ramCleanup : string;
  backgroundApps : string;
  fanSpeed : Z;
  powerMode : string;
  gpuBoost : string
}.

Definition presets : list (string * PresetConfig) :=
  [ ("esports",
     {| cpuPriority := "realtime"; ramCleanup := "aggressive";
        backgroundApps := "kill-aggressive"; fanSpeed := 90;
        powerMode := "performance"; gpuBoost := "max" |});
    ("battleroyale",
     {| cpuPriority := "high"; ramCleanup := "balanced";
        backgroundApps := "smart"; fanSpeed := 75;
        powerMode := "performance"; gpuBoost := "high" |});
    ("aaa",
     {| cpuPriority := "normal"; ramCleanup := "light";
        backgroundApps := "minimal"; fanSpeed := 65;
        powerMode := "balanced"; gpuBoost := "quality" |});
    ("battlefield6",
     {| cpuPriority := "realtime-multicore"; ramCleanup := "aggressive";
        backgroundApps := "kill-aggressive"; fanSpeed := 100;
        powerMode := "performance"; gpuBoost := "max-vram-buffer" |});
    ("streamgame",
     {| cpuPriority := "split"; ramCleanup := "balanced";
        backgroundApps := "smart"; fanSpeed := 80;
        powerMode := "performance"; gpuBoost := "balanced" |});
    ("silent",
     {| cpuPriority := "low"; ramCleanup := "minimal";
        backgroundApps := "none"; fanSpeed := 30;
        powerMode := "eco"; gpuBoost := "low" |});
    ("arcriders",
     {| cpuPriority := "high"; ramCleanup := "balanced";
        backgroundApps := "smart"; fanSpeed := 85;
        powerMode := "performance"; gpuBoost := "balanced" |});
    ("warzone",
     {| cpuPriority := "realtime"; ramCleanup := "aggressive";
        backgroundApps := "kill-aggressive"; fanSpeed := 95;
        powerMode := "performance"; gpuBoost := "max" |}) ].

(** The keys of the table, in the order of the literal. *)
Definition presetKeys : list string := map fst presets.

Definition isPresetKey (k : string) : bool :=
  existsb (String.eqb k) presetKeys.

(** A preset as the object the code reads fields from. *)
Definition toValue (p : PresetConfig) : Js.Value :=
  Js.Object
    [ ("cpuPriority", Js.Str (cpuPriority p));
      ("ramCleanup", Js.Str (ramCleanup p));
      ("backgroundApps", Js.Str (backgroundApps p));
      ("fanSpeed", Js.Number (Js.ofZ (fanSpeed p)));
      ("powerMode", Js.Str (powerMode p));
      ("gpuBoost", Js.Str (gpuBoost p)) ].

(** The class [[\s\+\-\_]] of [normalizeProfileName]. *)
Definition nameNoise (c : ascii) : bool :=
  Js.isWhiteSpace c ||
  Ascii.eqb c "+"%char || Ascii.eqb c "-"%char || Ascii.eqb c "_"%char.

(** The local [map] literal of [normalizeProfileName], entry by entry
    (the keys [esports] and [battleroyale] are written twice there). *)
Definition nameMap : list (string * string) :=
  [ ("esports", "esports");
    ("esports", "esports");
    ("battleroyale", "battleroyale");
    ("battleroyale", "battleroyale");
    ("aaa", "aaa");
    ("aaagames", "aaa");
    ("battlefield6", "battlefield6");
    ("bf6", "battlefield6");
    ("streamgame", "streamgame");
    ("streamjogo", "streamgame");
    ("stream+game", "streamgame");
    ("silent", "silent");
    ("silencioso", "silent");
    ("arcriders", "arcriders");
    ("arcraiders", "arcriders");
    ("arider", "arcriders");
    ("warzone", "warzone") ].

(** [normalizeProfileName]: [map[m] || null]. *)
Definition normalizeProfileName (name : string) : Js.Value :=
  let m := Js.removeAll nameNoise (Js.toLowerCase name) in
  Js.or (Js.lookup Js.Str nameMap m) Js.Null.

Definition presetDisplayNames : list (string * string) :=
  [ ("esports", "E-Sports");
    ("battleroyale", "Battle Royale");
    ("aaa", "AAA Games");
    ("battlefield6", "Battlefield 6");
    ("streamgame", "Stream + Game");
    ("silent", "Silencioso");
    ("arcriders", "Arc Raiders");
    ("warzone", "Warzone") ].

End Presets.

(** ** [src/engine/optimizer/windows.ts]: the placeholders *)
Module WinOpt.

Record FanResult : Type := { ok : bool; percent : Z }.

(** [setFanSpeed]: two guarded assignments, then a constant success. *)
Definition setFanSpeed (percent : Z) : FanResult :=
  let percent := if percent <? 0 then 0 else percent in
  let percent := if percent >? 100 then 100 else percent in
  {| ok := true; percent := percent |}.

End WinOpt.

(** ** The page's world: clock, random source, storage, optimizer

    What the engine reads from its environment is an input here:
    [Date.now()] and [Math.random()] answer from two sequences, the real
    optimizer call made by a step settles as [optimizer] says (it may also
    write to the storage, as [applyPowerPlan] does), and [isDesktop] tells
    whether [window.backend.runPS] exists. Logging only appends to the
    logger's buffer and is left out. *)
Module Browser.

Inductive RealFn : Type :=
| FreeRam | CloseBackgroundApps | SetProcessPriority | ApplyPowerPlan
| ClearTempCaches | SetFanSpeed | ApplyGpuBoost.

Inductive StepName : Type :=
| FreeingRam | ClosingBackgroundApps | CpuPriority | PowerPlan
| ClearingTempCache | FanSpeed | GpuBoost.

(** One executed step: its label, the real call it made (none when it was
    simulated), and whether the step reported success. *)
Inductive Event : Type :=
| Stepped (label : StepName) (call : option (RealFn * list Js.Value))
          (succeeded : bool).

Definition label_of (e : Event) : StepName :=
  match e with Stepped l _ _ => l end.

Definition failed (e : Event) : bool :=
  match e with Stepped _ _ ok => negb ok end.

(** The labels of the seven steps, in the order of the source. *)
Definition turboSequence : list StepName :=
  [ FreeingRam; ClosingBackgroundApps; CpuPriority; PowerPlan;
    ClearingTempCache; FanSpeed; GpuBoost ].

Record TelemetryBoost : Type := {
  fpsBoost : Z;
  ramReduction : Z;
  tempReduction : Z;
  duration : Z
}.

Record World : Type := mkWorld {
  isDesktop : bool;
  clock : nat -> Z;
  clockReads : nat;
  random : nat -> Q;
  randomDraws : nat;
  optimizer : nat -> RealFn -> list Js.Value -> gmap string string
              -> bool * gmap string string;
  localStorage : gmap string string;
  activeTelemetry : option TelemetryBoost;
  telemetryStartTime : Z;
  trace : list Event
}.

Definition withClockReads (n : nat) (w : World) : World :=
  mkWorld (isDesktop w) (clock w) n (random w) (randomDraws w) (optimizer w)
          (localStorage w) (activeTelemetry w) (telemetryStartTime w) (trace w).

Definition withRandomDraws (n : nat) (w : World) : World :=
  mkWorld (isDesktop w) (clock w) (clockReads w) (random w) n (optimizer w)
          (localStorage w) (activeTelemetry w) (telemetryStartTime w) (trace w).

Definition withLocalStorage (st : gmap string string) (w : World) : World :=
  mkWorld (isDesktop w) (clock w) (clockReads w) (random w) (randomDraws w)
          (optimizer w) st (activeTelemetry w) (telemetryStartTime w) (trace w).

Definition withActiveTelemetry (b : option TelemetryBoost) (w : World) : World :=
  mkWorld (isDesktop w) (clock w) (clockReads w) (random w) (randomDraws w)
          (optimizer w) (localStorage w) b (telemetryStartTime w) (trace w).

Definition withTelemetryStartTime (t : Z) (w : World) : World :=
  mkWorld (isDesktop w) (clock w) (clockReads w) (random w) (randomDraws w)
          (optimizer w) (localStorage w) (activeTelemetry w) t (trace w).

Definition withTrace (tr : list Event) (w : World) : World :=
  mkWorld (isDesktop w) (clock w) (clockReads w) (random w) (randomDraws w)
          (optimizer w) (localStorage w) (activeTelemetry w)
          (telemetryStartTime w) tr.

(** How a call ends: with a value, or with a thrown error (its message). *)
Inductive Completion (A : Type) : Type :=
| Normal (a : A)
| Throw (message : string).
Arguments Normal {A} a.
Arguments Throw {A} message.

Definition M (A : Type) : Type := World -> Completion A * World.

Definition ret {A : Type} (a : A) : M A := fun w => (Normal a, w).

Definition throw {A : Type} (message : string) : M A :=
  fun w => (Throw message, w).

Definition bind {A B : Type} (m : M A) (k : A -> M B) : M B :=
  fun w =>
    match m w with
    | (Normal a, w') => k a w'
    | (Throw e, w') => (Throw e, w')
    end.

Notation "'let*' x ':=' m 'in' k" := (bind m (fun x => k))
  (at level 10, x name, m at level 100, k at level 200).

(** [Date.now()]. *)
Definition now : M Z :=
  fun w => (Normal (clock w (clockReads w)), withClockReads (S (clockReads w)) w).

(** [Math.random()]. *)
Definition mathRandom : M Q :=
  fun w => (Normal (random w (randomDraws w)),
            withRandomDraws (S (randomDraws w)) w).

(** [localStorage.getItem(key)]: [None] is [null]. *)
Definition getItem (key : string) : M (option string) :=
  fun w => (Normal (localStorage w !! key), w).

(** [localStorage.setItem(key, value)]. *)
Definition setItem (key value : string) : M unit :=
  fun w => (Normal tt, withLocalStorage (<[key := value]> (localStorage w)) w).

(** Every draw of the random source lies in [0, 1). *)
Definition fairRandom (w : World) : Prop :=
  forall n, (0 <= random w n)%Q /\ (random w n < 1)%Q.

(** Every draw is a double, as the values of [Math.random()] are. *)
Definition doubleDraws (w : World) : Prop :=
  forall n, (Double.round (random w n) == random w n)%Q.

End Browser.

(** ** [src/engine/turbo.ts] *)
Module Turbo.
Import Browser.

Record TurboResult : Type := {
  steps : Z;
  errors : Z;
  tempGuard : bool;
  executionTime : Z;
  profile : Js.Value
}.

Definition calculateFpsBoost (profileKey : string) : Z :=
  if String.eqb profileKey "esports" then 5
  else if String.eqb profileKey "battleroyale" then 5
  else if String.eqb profileKey "aaa" then 3
  else if String.eqb profileKey "battlefield6" then 6
  else if String.eqb profileKey "streamgame" then 4
  else if String.eqb profileKey "silent" then 0
  else if String.eqb profileKey "arcriders" then 4
  else if String.eqb profileKey "warzone" then 5
  else 4.

(** [step(label, fnReal, ...args)]: on the desktop a real function is
    awaited and only its rejection makes the step fail; otherwise the step
    waits 300 ms and succeeds. *)
Definition step (label : StepName) (fnReal : option RealFn)
           (args : list Js.Value) : M bool :=
  fun w =>
    match fnReal with
    | Some fn =>
        if isDesktop w then
          let '(resolved, st) :=
            optimizer w (List.length (trace w)) fn args (localStorage w) in
          (Normal resolved,
           withTrace (trace w ++ [Stepped label (Some (fn, args)) resolved])
                     (withLocalStorage st w))
        else (Normal true, withTrace (trace w ++ [Stepped label None true]) w)
    | None => (Normal true, withTrace (trace w ++ [Stepped label None true]) w)
    end.

(** [activateTelemetryBoost(profileKey, tempGuard)]. *)
Definition activateTelemetryBoost (profileKey : string) (tempGuard : bool)
  : M unit :=
  let fpsBoost := calculateFpsBoost profileKey in
  let* r1 := mathRandom in
  let ramReduction := Qfloor (Double.mul r1 5) + 8 in
  let* tempReduction :=
    (if tempGuard
     then let* r2 := mathRandom in ret (Qfloor (Double.mul r2 3) + 2)
     else ret 0) in
  let* _ := (fun w =>
    (Normal tt,
     withActiveTelemetry
       (Some {| fpsBoost := fpsBoost; ramReduction := ramReduction;
                tempReduction := tempReduction; duration := 60000 |}) w)) in
  let* t := now in
  fun w => (Normal tt, withTelemetryStartTime t w).

(** The class [[\s\-]] of [runTurbo]. *)
Definition keyNoise (c : ascii) : bool :=
  Js.isWhiteSpace c || Ascii.eqb c "-"%char.

Definition normalizedKey (profileIdentifier : string) : string :=
  Js.removeAll keyNoise (Js.toLowerCase profileIdentifier).

(** [v === s] for a string literal [s]. *)
Definition isStr (v : Js.Value) (s : string) : bool :=
  match v with
  | Js.Str t => String.eqb t s
  | _ => false
  end.

(** [preset.field]; [preset] is truthy where this is used. *)
Definition field (preset : Js.Value) (name : string) : Js.Value :=
  match Js.get preset name with
  | Some v => v
  | None => Js.Undefined
  end.

(** The [operations] array of [runTurbo]. [WinOpt.setFanSpeed] and
    [WinOpt.applyGpuBoost] are exported functions, so [hasFan] and [hasGpu]
    hold. *)
Definition operations (preset : Js.Value) : list (M bool) :=
  let cpu := field preset "cpuPriority" in
  let hasFan := true in
  let hasGpu := true in
  [ step FreeingRam (Some FreeRam) [];
    step ClosingBackgroundApps (Some CloseBackgroundApps)
         [field preset "backgroundApps"];
    step CpuPriority (Some SetProcessPriority)
         [Js.Object
            [ ("name", Js.Str "GameBoostAI");
              ("level",
               Js.Str (if isStr cpu "realtime" || isStr cpu "realtime-multicore"
                       then "RealTime"
                       else if isStr cpu "high" then "High" else "Normal")) ]];
    step PowerPlan (Some ApplyPowerPlan) [Js.Str "performance"];
    step ClearingTempCache (Some ClearTempCaches) [];
    step FanSpeed (if hasFan then Some SetFanSpeed else None)
         [field preset "fanSpeed"];
    step GpuBoost (if hasGpu then Some ApplyGpuBoost else None)
         [field preset "gpuBoost"] ].

(** The [for ... of] loop with its [try]/[catch]. *)
Fixpoint runOperations (ops : list (M bool)) (steps errors : Z) : M (Z * Z) :=
  match ops with
  | [] => ret (steps, errors)
  | operation :: rest =>
      fun w =>
        match operation w with
        | (Normal success, w') =>
            runOperations rest (steps + 1)
                          (if success then errors else errors + 1) w'
        | (Throw _, w') =>
            runOperations rest (steps + 1) (errors + 1) w'
        end
  end.

Definition notFound (profileIdentifier : string) : string :=
  "Perfil '" +:+ profileIdentifier +:+ "' n" +:+ Js.latin1 227 +:+ "o encontrado".

Definition runTurbo (profileIdentifier : string) : M TurboResult :=
  let* startTime := now in
  let profileKey := normalizedKey profileIdentifier in
  let preset := Js.lookup Presets.toValue Presets.presets profileKey in
  if negb (Js.truthy preset) then throw (notFound profileIdentifier)
  else
    let displayName :=
      Js.or (Js.lookup Js.Str Presets.presetDisplayNames profileKey)
            (Js.Str profileIdentifier) in
    let isBF6 := String.eqb profileKey "battlefield6" in
    let tempGuard := if isBF6 then true else false in
    let* tally := runOperations (operations preset) 0 0 in
    let* finished := now in
    let executionTime := finished - startTime in
    let* _ := activateTelemetryBoost profileKey tempGuard in
    let* lastTurboAt := now in
    let* _ := setItem "gb.turbo" (JSON.stringifyTurboData lastTurboAt profileKey) in
    ret {| steps := fst tally; errors := snd tally; tempGuard := tempGuard;
           executionTime := executionTime; profile := displayName |}.

(** [getLastTurboData]: the [catch] answers [null] for the [SyntaxError] of
    [JSON.parse]. A stored text with an escape above U+00FF has a value in
    the runtime and none here; the properties speak of the texts [runTurbo]
    stores and of those that are not of the grammar. *)
Definition getLastTurboData : M Js.Value :=
  let* data := getItem "gb.turbo" in
  match data with
  | None => ret Js.Null
  | Some text =>
      if String.eqb text "" then ret Js.Null
      else match JSON.parse text with
           | Some v => ret v
           | None => ret Js.Null
           end
  end.

End Turbo.

(** ** [temp-project-restore/src/engine/turbo.ts]: the simulated sequence *)
Module LegacyTurbo.
Import Browser.

(** [randomDelay(min, max)]. *)
Definition randomDelay (min max : Z) : M Z :=
  let* r := mathRandom in
  ret (Qfloor (r * inject_Z (max - min + 1)) + min).

(** [delay(ms)]: the passing of time is not observed by the engine. *)
Definition delay (ms : Z) : M unit := ret tt.

(** [shouldFail]: [Math.random() < 0.1]. *)
Definition shouldFail : M bool :=
  let* r := mathRandom in
  ret (if Qlt_le_dec r (1 # 10) then true else false).

(** The shape shared by the operations that only wait and then draw. *)
Definition simulated (min max : Z) : M bool :=
  let* ms := randomDelay min max in
  let* _ := delay ms in
  let* failed := shouldFail in
  if failed then ret false else ret true.

Definition freeRam : M bool := simulated 200 400.
Definition closeBackgroundApps (behavior : string) : M bool := simulated 300 500.
Definition setCpuPriority (priority : string) : M bool := simulated 250 350.
Definition applyPowerPlan (powerMode : string) : M bool := simulated 200 300.
Definition applyGpuBoost (gpuBoost : string) : M bool := simulated 300 450.
Definition cleanTempCaches : M bool := simulated 400 600.
Definition networkBoostBasic : M bool := simulated 200 300.

Definition setFanSpeed (fanSpeed : Z) (tempGuard : bool) : M bool :=
  let* ms := randomDelay 150 250 in
  let* _ := delay ms in
  let* r := mathRandom in
  let currentTemp := Qfloor (r * 40) + 60 in
  if tempGuard && (currentTemp >? 80) then ret true
  else
    let* failed := shouldFail in
    if failed then ret false else ret true.

End LegacyTurbo.

(** ** [public/electron/main.js]: the host process

    The machine the host runs on is an input: whether it is Windows, how a
    spawned interpreter ends, what the file system answers, and the two
    runtime functions [path.normalize] and template-literal conversion.
    Every spawn and every file-system access is recorded. *)
Module Host.

Record PSResult : Type := {
  stdout : string;
  stderr : string;
  code : Z;
  duration : Z
}.

(** The event that finishes a child first. *)
Inductive ChildEnd : Type :=
| Exited (exitCode : option Z)      (* 'exit', with a code or [null] *)
| Failed (message : string)         (* 'error' *)
| TimedOut.                         (* the timer fired first *)

Record Child : Type := {
  out : string;        (* what arrived on stdout before the end *)
  err : string;        (* what arrived on stderr before the end *)
  ending : ChildEnd;
  elapsed : Z          (* Date.now() - startTime at the end *)
}.

Inductive FsAnswer (A : Type) : Type :=
| FsOk (a : A)
| FsError (message : string).
Arguments FsOk {A} a.
Arguments FsError {A} message.

Inductive HostEvent : Type :=
| Spawned (program : string) (command : string)
| Stat (path : string)
| ReadFile (path : string).

Record Machine : Type := mkMachine {
  isWindows : bool;
  powershell : string -> Js.Value -> Child;
  statSize : string -> FsAnswer Z;
  fileContent : string -> FsAnswer string;
  normalize : string -> string;
  toText : Js.Value -> string;
  events : list HostEvent
}.

Definition record (e : HostEvent) (m : Machine) : Machine :=
  mkMachine (isWindows m) (powershell m) (statSize m) (fileContent m)
            (normalize m) (toText m) (events m ++ [e]).

Definition isSpawn (e : HostEvent) : bool :=
  match e with Spawned _ _ => true | _ => false end.

Definition isReadFile (e : HostEvent) : bool :=
  match e with ReadFile _ => true | _ => false end.

(** [runPowerShellCommand(command, timeoutMs)]. *)
Definition runPowerShellCommand (command : string) (timeoutMs : Js.Value)
           (m : Machine) : PSResult * Machine :=
  if negb (isWindows m) then
    ({| stdout := "Comando simulado (n" +:+ Js.latin1 227 +:+ "o-Windows)";
        stderr := ""; code := 0; duration := 100 |}, m)
  else
    let child := powershell m command timeoutMs in
    let m' := record (Spawned "powershell" command) m in
    match ending child with
    | Exited exitCode =>
        ({| stdout := out child; stderr := err child;
            code := match exitCode with
                    | Some c => if c =? 0 then 0 else c    (* code || 0 *)
                    | None => 0
                    end;
            duration := elapsed child |}, m')
    | Failed message =>
        ({| stdout := out child; stderr := err child +:+ message;
            code := 1; duration := elapsed child |}, m')
    | TimedOut =>
        ({| stdout := out child;
            stderr := err child +:+ "Timeout ap" +:+ Js.latin1 243 +:+ "s "
                        +:+ toText m timeoutMs +:+ "ms";
            code := 124; duration := elapsed child |}, m')
    end.

Definition dangerousCommands : list string :=
  [ "format"; "del "; "rm "; "rmdir"; "shutdown"; "restart"; "reboot";
    "taskkill /f"; "net user"; "net localgroup" ].

Definition invalidCommand : string := "Comando inv" +:+ Js.latin1 225 +:+ "lido".

Definition forbiddenCommand : string :=
  "Comando n" +:+ Js.latin1 227 +:+ "o permitido por seguran"
    +:+ Js.latin1 231 +:+ "a".

(** What the handler's [catch] returns for an error with this message. *)
Definition refusal (message : string) : PSResult :=
  {| stdout := ""; stderr := message; code := 1; duration := 0 |}.

(** The handler of the ['run-powershell'] channel. *)
Definition runPowershellHandler (command : Js.Value) (timeout : Js.Value)
           (m : Machine) : PSResult * Machine :=
  let timeout :=
    match timeout with
    | Js.Undefined => Js.Number (Js.ofZ 30000)
    | _ => timeout
    end in
  match command with
  | Js.Str cmd =>
      if (1000 <? String.length cmd)%nat then (refusal invalidCommand, m)
      else
        let lowerCommand := Js.toLowerCase cmd in
        if existsb (fun dangerous => Js.includes lowerCommand dangerous)
                   dangerousCommands
        then (refusal forbiddenCommand, m)
        else runPowerShellCommand cmd timeout m
  | _ => (refusal invalidCommand, m)
  end.

Record ReadResult : Type := {
  success : bool;
  content : option string;
  error : option string
}.

Definition dangerousPaths : list string :=
  [ "system32"; "windows"; "program files"; "users"; "documents and settings" ].

Definition accessDenied : string :=
  "Acesso negado: caminho n" +:+ Js.latin1 227 +:+ "o permitido".

Definition tooLarge : string := "Arquivo muito grande (max 1MB)".

Definition failure (message : string) : ReadResult :=
  {| success := false; content := None; error := Some message |}.

(** [readSystemFile(filePath)]. *)
Definition readSystemFile (filePath : string) (m : Machine)
  : ReadResult * Machine :=
  let normalizedPath := normalize m filePath in
  let lowerPath := Js.toLowerCase normalizedPath in
  if existsb (fun dangerous => Js.includes lowerPath dangerous) dangerousPaths
  then (failure accessDenied, m)
  else
    let m1 := record (Stat normalizedPath) m in
    match statSize m normalizedPath with
    | FsError message => (failure message, m1)
    | FsOk size =>
        if size >? 1024 * 1024 then (failure tooLarge, m1)
        else
          let m2 := record (ReadFile normalizedPath) m1 in
          match fileContent m normalizedPath with
          | FsError message => (failure message, m2)
          | FsOk text =>
              ({| success := true; content := Some text; error := None |}, m2)
          end
    end.

(** A result as the object that crosses the IPC channel. *)
Definition resultValue (r : PSResult) : Js.Value :=
  Js.Object [ ("stdout", Js.Str (stdout r));
              ("stderr", Js.Str (stderr r));
              ("code", Js.Number (Js.ofZ (code r)));
              ("duration", Js.Number (Js.ofZ (duration r))) ].

End Host.

(** ** [public/electron/preload.js]: the bridge *)
Module Preload.

(** How [ipcRenderer.invoke] settles. *)
Inductive Reply : Type :=
| Resolved (result : Js.Value)
| Rejected (message : Js.Value).        (* the [message] of the error *)

(** The object [runPS] resolves to. *)
Record PSObject : Type := {
  stdout : Js.Value;
  stderr : Js.Value;
  code : Js.Value;
  duration : Js.Value
}.

(** [validateCommand]: [inl] carries the message of the error it throws. *)
Definition validateCommand (command : Js.Value) : string + bool :=
  match command with
  | Js.Str s =>
      if (String.length s =? 0)%nat || (1000 <? String.length s)%nat
      then inl "Comando deve ter entre 1 e 1000 caracteres"
      else inr true
  | _ => inl "Comando deve ser uma string"
  end.

(** The message of the TypeError raised by [result.stdout] when [result]
    is [undefined] or [null]. *)
Definition cannotRead (result : Js.Value) : string :=
  "Cannot read properties of "
    +:+ (match result with Js.Null => "null" | _ => "undefined" end)
    +:+ " (reading 'stdout')".

(** The [catch] branch of [runPS]. *)
Definition caught (message : Js.Value) : PSObject :=
  {| stdout := Js.Str "";
     stderr := Js.or message (Js.Str "Erro desconhecido");
     code := Js.Number (Js.ofZ 1);
     duration := Js.Number (Js.ofZ 0) |}.

(** The timeout [runPS] settles on before it calls the host. *)
Definition effectiveTimeout (timeout : Js.Value) : Js.Value :=
  let timeout :=
    match timeout with
    | Js.Undefined => Js.Number (Js.ofZ 30000)        (* default parameter *)
    | _ => timeout
    end in
  match timeout with
  | Js.Number n =>
      if Js.lt n (Js.ofZ 1000) || Js.gt n (Js.ofZ 120000)
      then Js.Number (Js.ofZ 30000)
      else timeout
  | _ => Js.Number (Js.ofZ 30000)
  end.

Section Bridge.

(** The other end of the channel, with whatever state [S] it keeps. *)
Context {S : Type}.
Variable invoke : string -> list Js.Value -> S -> Reply * S.

(** [runPS(command, timeout)]: the object it resolves to, the state of the
    other end, and the invocations it sent. *)
Definition runPS (command timeout : Js.Value) (host : S)
  : PSObject * S * list (string * list Js.Value) :=
  match validateCommand command with
  | inl message => (caught (Js.Str message), host, [])
  | inr _ =>
      let timeout := effectiveTimeout timeout in
      let args := [command; timeout] in
      let sent := [("run-powershell", args)] in
      match invoke "run-powershell" args host with
      | (Rejected message, host') => (caught message, host', sent)
      | (Resolved result, host') =>
          match Js.get result "stdout", Js.get result "stderr",
                Js.get result "code", Js.get result "duration" with
          | Some out, Some err, Some c, Some d =>
              ({| stdout := Js.or out (Js.Str "");
                  stderr := Js.or err (Js.Str "");
                  code := match Js.typeof c with
                          | Js.TNumber => c
                          | _ => Js.Number (Js.ofZ 1)
                          end;
                  duration := match Js.typeof d with
                              | Js.TNumber => d
                              | _ => Js.Number (Js.ofZ 0)
                              end |}, host', sent)
          | _, _, _, _ => (caught (Js.Str (cannotRead result)), host', sent)
          end
      end
  end.

End Bridge.

(** [ipcRenderer.invoke] wired to the handlers [setupIPC] registers. *)
Definition hostInvoke (channel : string) (args : list Js.Value)
           (m : Host.Machine) : Reply * Host.Machine :=
  if String.eqb channel "run-powershell" then
    let command := nth 0 args Js.Undefined in
    let timeout := nth 1 args Js.Undefined in
    let '(r, m') := Host.runPowershellHandler command timeout m in
    (Resolved (Host.resultValue r), m')
  else
    (Rejected (Js.Str ("No handler registered for '" +:+ channel +:+ "'")), m).

End Preload.

(** ** Notions of the specification, and sample environments *)

(** The value a percentage is clamped to. *)
Definition clamp (lo hi x : Z) : Z := Z.max lo (Z.min hi x).

(** The inputs [validateCommand] rejects, in the words of the specification: not a
    string, or a string of length 0 or above 1000. *)
Definition invalidCommandInput (v : Js.Value) : Prop :=
  match v with
  | Js.Str s => String.length s = 0%nat \/ (1000 < String.length s)%nat
  | _ => True
  end.

(** A value in the closed range [1000, 120000]. *)
Definition timeoutInRange (v : Js.Value) : bool :=
  match v with
  | Js.Number n => Js.le (Js.ofZ 1000) n && Js.le n (Js.ofZ 120000)
  | _ => false
  end.

(** The boost per profile as the specification lists it. *)
Definition fpsBoostTable (profileKey : string) : Z :=
  if existsb (String.eqb profileKey) ["esports"; "battleroyale"; "warzone"] then 5
  else if String.eqb profileKey "aaa" then 3
  else if String.eqb profileKey "battlefield6" then 6
  else if existsb (String.eqb profileKey) ["streamgame"; "arcriders"] then 4
  else if String.eqb profileKey "silent" then 0
  else 4.

(** A rest that no number literal runs into. *)
Definition endsNumber (rest : string) : Prop :=
  match rest with
  | EmptyString => True
  | String c _ =>
      JSON.digit c = None /\ (JSON.code c =? 46)%N = false /\
      ((JSON.code c =? 101) || (JSON.code c =? 69))%N = false
  end.

Definition isUpper (c : ascii) : bool :=
  let n := Js.unit_of c in ((65 <=? n) && (n <=? 90))%N.

Definition noUpper (s : string) : bool :=
  forallb (fun c => negb (isUpper c)) (list_ascii_of_string s).

(** What the operations leave alone: the clock, the random source and the
    telemetry. *)
Definition sameSources (w w' : Browser.World) : Prop :=
  Browser.clock w' = Browser.clock w /\
  Browser.clockReads w' = Browser.clockReads w /\
  Browser.random w' = Browser.random w /\
  Browser.randomDraws w' = Browser.randomDraws w /\
  Browser.activeTelemetry w' = Browser.activeTelemetry w.

(** An operation that ends normally and logs exactly one step [l]. *)
Definition stepLike (l : Browser.StepName) (op : Browser.M bool) : Prop :=
  forall w, exists ok call w',
    op w = (Browser.Normal ok, w') /\ sameSources w w' /\
    Browser.trace w' = (Browser.trace w ++ [Browser.Stepped l call ok])%list.

(** The number of steps among [evs] that reported a failure. *)
Definition failures (evs : list Browser.Event) : Z :=
  Z.of_nat (List.length (List.filter Browser.failed evs)).

(** At [w], the operation fails exactly when the draw [k] places after the
    current one is below 0.1, and succeeds otherwise. *)
Definition failsOnDrawAt (k : nat) (op : Browser.M bool) (w : Browser.World)
  : Prop :=
  (fst (op w) = Browser.Normal false
     <-> (Browser.random w (Browser.randomDraws w + k) < 1 # 10)%Q) /\
  (fst (op w) = Browser.Normal true
     <-> ~ (Browser.random w (Browser.randomDraws w + k) < 1 # 10)%Q).

Definition failsOnDraw (k : nat) (op : Browser.M bool) : Prop :=
  forall w, failsOnDrawAt k op w.

(** A Windows machine whose interpreter answers at once and whose files
    are small. *)
Definition windowsBox : Host.Machine :=
  Host.mkMachine true
    (fun _ _ => {| Host.out := "done"; Host.err := "";
                   Host.ending := Host.Exited (Some 0); Host.elapsed := 12 |})
    (fun _ => Host.FsOk 10) (fun _ => Host.FsOk "hello")
    (fun path => path) (fun _ => "30000") [].

(** The same machine with 2 MB files. *)
Definition bigFileBox : Host.Machine :=
  Host.mkMachine true (Host.powershell windowsBox)
    (fun _ => Host.FsOk 2097152) (fun _ => Host.FsOk "hello")
    (fun path => path) (fun _ => "30000") [].

(** A page outside the desktop shell: the clock counts its readings, every
    random draw is 0, the storage is empty. *)
Definition previewWorld : Browser.World :=
  Browser.mkWorld false (fun n => Z.of_nat n) 0 (fun _ => 0%Q) 0
                  (fun _ _ _ st => (true, st)) ∅ None 0 [].

Definition previewRun : Browser.Completion Turbo.TurboResult * Browser.World :=
  Turbo.runTurbo "Battlefield 6" previewWorld.

(** A source whose second draw is 0.9 and whose other draws are 0. *)
Definition hotWorld : Browser.World :=
  Browser.mkWorld false (fun n => Z.of_nat n) 0
                  (fun n => if (n =? 1)%nat then 9 # 10 else 0%Q) 0
                  (fun _ _ _ st => (true, st)) ∅ None 0 [].

(** * The rest of the engine: logger, telemetry read-out, sessions, file
    bridge, the hooks of the page, and the optimizer functions that go to
    the shell *)

(** ** Arrays *)
Module Arr.

(** [array.slice(start)]: a negative [start] counts from the end; an index
    beyond either end is clamped to it. *)
Definition slice {A : Type} (start : Z) (l : list A) : list A :=
  let len := Z.of_nat (List.length l) in
  let k := if start <? 0 then Z.max (len + start) 0 else Z.min start len in
  skipn (Z.to_nat k) l.

End Arr.

(** ** [lib/logger.ts] *)
Module Logger.

Inductive LogType : Type := info | success | warning | error.

Record LogEntry : Type := {
  timestamp : string;
  message : string;
  type : LogType
}.

Definition maxLogs : Z := 100.

(** [log(message, type)]; [timestamp] is what [toLocaleTimeString] gives at
    the moment of the call. *)
Definition log (timestamp message : string) (type : LogType)
           (logs : list LogEntry) : list LogEntry :=
  let entry := {| timestamp := timestamp; message := message; type := type |} in
  let logs := (logs ++ [entry])%list in
  if Z.of_nat (List.length logs) >? maxLogs then Arr.slice (- maxLogs) logs
  else logs.

(** [getLogs] copies the buffer. *)
Definition getLogs (logs : list LogEntry) : list LogEntry := logs.

Definition getFormattedLogs (logs : list LogEntry) : list string :=
  map (fun entry => "[" +:+ timestamp entry +:+ "] " +:+ message entry) logs.

Definition clearLogs (logs : list LogEntry) : list LogEntry := [].

(** [getRecentLogs(count)] for a whole number [count]:
    [this.logs.slice(-count)]. *)
Definition getRecentLogs (count : Z) (logs : list LogEntry) : list LogEntry :=
  Arr.slice (- count) logs.

End Logger.

(** ** [src/engine/turbo.ts]: reading the boost back *)
Module TurboTelemetry.
Import Browser.

(** The object [getActiveTelemetryBoost] returns; while the boost fades its
    first three fields are fractions: doubles, each the rounded result of
    the operation that gives it. *)
Record Boost : Type := {
  fpsBoost : Q;
  ramReduction : Q;
  tempReduction : Q;
  duration : Z
}.

(** The stored boost itself. *)
Definition whole (active : TelemetryBoost) : Boost :=
  {| fpsBoost := inject_Z (Browser.fpsBoost active);
     ramReduction := inject_Z (Browser.ramReduction active);
     tempReduction := inject_Z (Browser.tempReduction active);
     duration := Browser.duration active |}.

Definition getActiveTelemetryBoost : M (option Boost) :=
  fun w =>
    match activeTelemetry w with
    | None => ret None w
    | Some active =>
        (let* t := now in
         let elapsed := t - telemetryStartTime w in
         if elapsed >=? Browser.duration active then
           let fadeTime := 5000 in
           if elapsed >=? Browser.duration active + fadeTime then
             fun w' => (Normal None, withActiveTelemetry None w')
           else
             let fadeProgress :=
               Double.div (inject_Z (elapsed - Browser.duration active))
                          (inject_Z fadeTime) in
             let fadeMultiplier := Double.sub 1 fadeProgress in
             ret (Some
                    {| fpsBoost :=
                         Double.mul (inject_Z (Browser.fpsBoost active))
                                    fadeMultiplier;
                       ramReduction :=
                         Double.mul (inject_Z (Browser.ramReduction active))
                                    fadeMultiplier;
                       tempReduction :=
                         Double.mul (inject_Z (Browser.tempReduction active))
                                    fadeMultiplier;
                       duration := Browser.duration active |})
         else ret (Some (whole active))) w
    end.

End TurboTelemetry.

(** ** [src/engine/turbo.ts]: game sessions *)
Module TurboSessions.

Record TurboSession : Type := {
  id : string;
  startTime : Z;
  endTime : option Z;
  profile : string;
  active : bool
}.

(** The page's world together with the module variable [currentSession]. *)
Record State : Type := {
  world : Browser.World;
  currentSession : option TurboSession
}.

Section Sessions.

(** [x.toString(36).substr(2, 9)] of the runtime. *)
Variable base36 : Q -> string.

(** [startSession(profileIdentifier)]: reads the clock for the id, draws
    for the id, reads the clock again for [startTime]. *)
Definition startSession (profileIdentifier : string) (s : State)
  : string * State :=
  let w := world s in
  let stamp := Browser.clock w (Browser.clockReads w) in
  let r := Browser.random w (Browser.randomDraws w) in
  let sessionId := "session_" +:+ JSON.printInt stamp +:+ "_" +:+ base36 r in
  let profileKey := Turbo.normalizedKey profileIdentifier in
  let started := Browser.clock w (S (Browser.clockReads w)) in
  let w' := Browser.withRandomDraws (S (Browser.randomDraws w))
              (Browser.withClockReads (S (S (Browser.clockReads w))) w) in
  (sessionId,
   {| world := w';
      currentSession :=
        Some {| id := sessionId; startTime := started; endTime := None;
                profile := profileKey; active := true |} |}).

(** [endSession()]. *)
Definition endSession (s : State) : State :=
  match currentSession s with
  | Some _ =>
      let w := world s in
      {| world := Browser.withClockReads (S (Browser.clockReads w)) w;
         currentSession := None |}
  | None => s
  end.

Definition getCurrentSession (s : State) : option TurboSession :=
  currentSession s.

Definition hasActiveSession (s : State) : bool :=
  match currentSession s with
  | Some session => active session
  | None => false
  end.

End Sessions.

End TurboSessions.

(** ** [public/electron/preload.js] and [main.js]: the file channel *)
Module PreloadFiles.

(** The object [readFile] resolves to. *)
Record FileObject : Type := {
  success : Js.Value;
  content : Js.Value;
  error : Js.Value
}.

(** [validateFilePath]: [inl] carries the message of the error it throws. *)
Definition validateFilePath (filePath : Js.Value) : string + bool :=
  match filePath with
  | Js.Str s =>
      if (String.length s =? 0)%nat || (500 <? String.length s)%nat
      then inl "Caminho deve ter entre 1 e 500 caracteres"
      else inr true
  | _ => inl "Caminho do arquivo deve ser uma string"
  end.

(** The [catch] branch of [readFile]. *)
Definition caught (message : Js.Value) : FileObject :=
  {| success := Js.Boolean false;
     content := Js.Str "";
     error := Js.or message (Js.Str "Erro desconhecido") |}.

(** The message of the TypeError raised by [result.success] when [result]
    is [undefined] or [null]. *)
Definition cannotRead (result : Js.Value) : string :=
  "Cannot read properties of "
    +:+ (match result with Js.Null => "null" | _ => "undefined" end)
    +:+ " (reading 'success')".

Section Bridge.

Context {S : Type}.
Variable invoke : string -> list Js.Value -> S -> Preload.Reply * S.

(** [readFile(filePath)]: the object it resolves to, the state of the other
    end, and the invocations it sent. *)
Definition readFile (filePath : Js.Value) (host : S)
  : FileObject * S * list (string * list Js.Value) :=
  match validateFilePath filePath with
  | inl message => (caught (Js.Str message), host, [])
  | inr _ =>
      let args := [filePath] in
      let sent := [("read-file", args)] in
      match invoke "read-file" args host with
      | (Preload.Rejected message, host') => (caught message, host', sent)
      | (Preload.Resolved result, host') =>
          match Js.get result "success", Js.get result "content",
                Js.get result "error" with
          | Some ok, Some text, Some err =>
              ({| success := Js.or ok (Js.Boolean false);
                  content := Js.or text (Js.Str "");
                  error := Js.or err (Js.Str "") |}, host', sent)
          | _, _, _ => (caught (Js.Str (cannotRead result)), host', sent)
          end
      end
  end.

End Bridge.

(** A result of [readSystemFile] as the object that crosses the channel:
    only the fields the host wrote. *)
Definition readResultValue (r : Host.ReadResult) : Js.Value :=
  Js.Object
    ([("success", Js.Boolean (Host.success r))]
     ++ match Host.content r with
        | Some text => [("content", Js.Str text)]
        | None => []
        end
     ++ match Host.error r with
        | Some message => [("error", Js.Str message)]
        | None => []
        end)%list.

Section HostChannel.

(** The message of the TypeError [path.normalize] raises on a value that is
    not a string. *)
Variable pathTypeError : Js.Value -> string.

(** The handler of the ['read-file'] channel: [readSystemFile(filePath)],
    whose [catch] also takes the TypeError of [path.normalize]. *)
Definition readFileHandler (filePath : Js.Value) (m : Host.Machine)
  : Host.ReadResult * Host.Machine :=
  match filePath with
  | Js.Str path => Host.readSystemFile path m
  | _ => (Host.failure (pathTypeError filePath), m)
  end.

(** [ipcRenderer.invoke] wired to the two handlers of [setupIPC] that the
    bridge's [runPS] and [readFile] call. *)
Definition hostInvoke (channel : string) (args : list Js.Value)
           (m : Host.Machine) : Preload.Reply * Host.Machine :=
  if String.eqb channel "read-file" then
    let '(r, m') := readFileHandler (nth 0 args Js.Undefined) m in
    (Preload.Resolved (readResultValue r), m')
  else Preload.hostInvoke channel args m.

End HostChannel.

End PreloadFiles.

(** ** [src/engine/hooks.ts]: the saved profile *)
Module Hooks.

(** The [legacyNameMap] literal of [useProfiles]. *)
Definition legacyNameMap : list (string * string) :=
  [ ("Arc Raiders", "arcriders");
    ("arc-raiders", "arcriders");
    ("arc_riders", "arcriders");
    ("Warzone", "warzone");
    ("E-Sports", "esports");
    ("Battle Royale", "battleroyale");
    ("AAA Games", "aaa");
    ("Battlefield 6", "battlefield6");
    ("Stream + Game", "streamgame");
    ("Silencioso", "silent") ].

(** The React state [activeProfile] and the storage. *)
Record State : Type := {
  activeProfile : Js.Value;
  storage : gmap string string
}.

Section SavedProfile.

(** ToString of the runtime on the values that are neither strings nor
    built-in objects. *)
Variable toText : Js.Value -> string.

(** The string a value becomes as a property key or a storage value; a
    built-in function prints as its source text, a built-in object as
    [[object Object]]. *)
Definition keyOf (v : Js.Value) : string :=
  match v with
  | Js.Str s => s
  | Js.Native name callable =>
      if callable then "function " +:+ name +:+ "() { [native code] }"
      else "[object Object]"
  | _ => toText v
  end.

(** [a !== b] for a value and a string. *)
Definition differs (v : Js.Value) (s : string) : bool :=
  match v with
  | Js.Str t => negb (String.eqb t s)
  | _ => true
  end.

(** The effect [useProfiles] runs on mount. *)
Definition loadSavedProfile (st : State) : State :=
  match storage st !! "gb.profile" with
  | None => st
  | Some savedProfile =>
      if String.eqb savedProfile "" then st
      else
        let correctKey :=
          Js.or (Js.lookup Js.Str legacyNameMap savedProfile)
                (Js.Str savedProfile) in
        if Js.truthy (Js.lookup Presets.toValue Presets.presets
                                (keyOf correctKey))
        then
          {| activeProfile := correctKey;
             storage :=
               if differs correctKey savedProfile
               then <["gb.profile" := keyOf correctKey]> (storage st)
               else storage st |}
        else
          {| activeProfile := activeProfile st;
             storage := delete "gb.profile" (storage st) |}
  end.

End SavedProfile.

End Hooks.


(** ** Arithmetic on numbers

    The operators the Turbo hook applies to numbers. The model has no
    negative zero. *)
Module JsNum.

(** [a - b]. *)
Definition sub (a b : Js.Num) : Js.Num :=
  match a, b with
  | Js.NaN, _ | _, Js.NaN => Js.NaN
  | Js.Fin x, Js.Fin y => Js.Fin (x - y)
  | Js.Infinity n, Js.Fin _ => Js.Infinity n
  | Js.Fin _, Js.Infinity n => Js.Infinity (negb n)
  | Js.Infinity n1, Js.Infinity n2 =>
      if Bool.eqb n1 n2 then Js.NaN else Js.Infinity n1
  end.

Definition isNegative (x : Q) : bool :=
  if Qlt_le_dec x 0 then true else false.

(** [a / b]. *)
Definition div (a b : Js.Num) : Js.Num :=
  match a, b with
  | Js.NaN, _ | _, Js.NaN => Js.NaN
  | Js.Fin x, Js.Fin y =>
      if Qeq_bool y 0
      then (if Qeq_bool x 0 then Js.NaN else Js.Infinity (isNegative x))
      else Js.Fin (x / y)
  | Js.Fin _, Js.Infinity _ => Js.Fin 0
  | Js.Infinity n, Js.Fin y => Js.Infinity (xorb n (isNegative y))
  | Js.Infinity _, Js.Infinity _ => Js.NaN
  end.

(** [Math.floor(a)]. *)
Definition floor (a : Js.Num) : Js.Num :=
  match a with
  | Js.Fin x => Js.Fin (inject_Z (Qfloor x))
  | _ => a
  end.

(** [Math.max(a, b)]. *)
Definition max (a b : Js.Num) : Js.Num :=
  match a, b with
  | Js.NaN, _ | _, Js.NaN => Js.NaN
  | _, _ => if Js.lt a b then b else a
  end.

Section ToNumber.

(** ToNumber of the runtime on strings, objects, arrays and functions. *)
Variable coerce : Js.Value -> Js.Num.

Definition toNumber (v : Js.Value) : Js.Num :=
  match v with
  | Js.Undefined => Js.NaN
  | Js.Null => Js.ofZ 0
  | Js.Boolean b => Js.ofZ (if b then 1 else 0)
  | Js.Number n => n
  | _ => coerce v
  end.

End ToNumber.

End JsNum.

(** ** [src/engine/hooks.ts]: the cooldown of [useTurbo] *)
Module TurboHook.

Import Browser.

Inductive ButtonState : Type := Idle | Running | Cooldown.

Section Cooldown.

Variable coerce : Js.Value -> Js.Num.

(** The message of the TypeError raised by [turboData.lastTurboAt] on
    [undefined] or [null]. *)
Definition cannotRead (v : Js.Value) : string :=
  "Cannot read properties of "
    +:+ (match v with Js.Null => "null" | _ => "undefined" end)
    +:+ " (reading 'lastTurboAt')".

(** The effect that loads the persisted data on mount; the result is the
    state [cooldown] after it. *)
Definition loadCooldown (cooldown : Js.Num) : M Js.Num :=
  let* turboData := Turbo.getLastTurboData in
  if Js.truthy turboData then
    let* current := now in
    match Js.get turboData "lastTurboAt" with
    | None => throw (cannotRead turboData)
    | Some lastTurboAt =>
        let elapsed :=
          JsNum.sub (Js.ofZ current) (JsNum.toNumber coerce lastTurboAt) in
        let remainingCooldown :=
          JsNum.max (Js.ofZ 0)
            (JsNum.sub (Js.ofZ 60)
               (JsNum.floor (JsNum.div elapsed (Js.ofZ 1000)))) in
        if Js.gt remainingCooldown (Js.ofZ 0)
        then ret remainingCooldown
        else ret cooldown
    end
  else ret cooldown.

End Cooldown.

(** The countdown effect, each time its timer of one second fires. *)
Definition tick (cooldown : Js.Num) : Js.Num :=
  if Js.gt cooldown (Js.ofZ 0) then JsNum.sub cooldown (Js.ofZ 1) else cooldown.

(** [getButtonState]. *)
Definition getButtonState (running : bool) (cooldown : Js.Num) : ButtonState :=
  if running then Running
  else if Js.gt cooldown (Js.ofZ 0) then Cooldown
  else Idle.

End TurboHook.

(** ** [src/engine/optimizer/windows.ts]: the functions that go to the shell

    [window.backend.runPS] is whatever the preload script exposes: a
    function of the command and the timeout whose promise is fulfilled with
    some value or rejected. *)
Module WinOptShell.

Definition dq : string := Js.latin1 34.

(** The lines of a template literal, joined by line feeds. *)
Definition lines (l : list string) : string := String.concat (Js.latin1 10) l.

Inductive PowerMode : Type := balanced | performance | ultimate.

Definition modeText (mode : PowerMode) : string :=
  match mode with
  | balanced => "balanced"
  | performance => "performance"
  | ultimate => "ultimate"
  end.

Definition POWER_PLANS (mode : PowerMode) : string :=
  match mode with
  | balanced => "381b4222-f694-41f0-9685-ff5bb260df2e"
  | performance => "8c5e7fda-e8bf-4a96-9a85-a6e23a8c635c"
  | ultimate => "e9a42b02-d5df-448d-aa00-03f14749eb61"
  end.

Definition SYSTEM_WHITELIST : list string :=
  [ "explorer"; "dwm"; "csrss"; "winlogon"; "services";
    "nvcontainer"; "atieclxx"; "lsass"; "svchost"; "system" ].

Definition PS_TIMEOUT : Js.Value := Js.Number (Js.ofZ 20000).

Inductive PriorityLevel : Type := Normal | High | RealTime.

Definition levelText (level : PriorityLevel) : string :=
  match level with
  | Normal => "Normal"
  | High => "High"
  | RealTime => "RealTime"
  end.

(** [name] and [pid] are optional: [None] is [undefined]. *)
Record ProcessPriorityOptions : Type := {
  name : option string;
  pid : option Js.Num;
  level : PriorityLevel
}.

(** *** [String.prototype.trim] *)

Fixpoint trimStart (s : string) : string :=
  match s with
  | EmptyString => EmptyString
  | String c s' => if Js.isWhiteSpace c then trimStart s' else s
  end.

(** [trimEnd], from the last unit backwards. *)
Fixpoint trimEnd (s : string) : string :=
  match s with
  | EmptyString => EmptyString
  | String c s' =>
      match trimEnd s' with
      | EmptyString => if Js.isWhiteSpace c then EmptyString
                       else String c EmptyString
      | rest => String c rest
      end
  end.

Definition trim (s : string) : string := trimEnd (trimStart s).

(** *** The page: the storage, the other side of [window.backend], and the
    calls of [runPS] made so far *)

Record Page (B : Type) : Type := mkPage {
  storage : gmap string string;
  backend : B;
  sent : list (string * Js.Value)
}.
Arguments mkPage {B} storage backend sent.
Arguments storage {B} p.
Arguments backend {B} p.
Arguments sent {B} p.

(** A computation inside a [try] block: [None] is a pending exception. *)
Definition Act (B A : Type) : Type := Page B -> option A * Page B.

Definition ret {B A : Type} (a : A) : Act B A := fun p => (Some a, p).

Definition bind {B A C : Type} (m : Act B A) (k : A -> Act B C) : Act B C :=
  fun p =>
    match m p with
    | (Some a, p') => k a p'
    | (None, p') => (None, p')
    end.

(** A call that returns a value or throws. *)
Definition lift {B A : Type} (r : option A) : Act B A := fun p => (r, p).

(** [try { ... } catch { return false }]. *)
Definition orFalse {B : Type} (m : Act B Js.Value) (p : Page B)
  : Js.Value * Page B :=
  match m p with
  | (Some v, p') => (v, p')
  | (None, p') => (Js.Boolean false, p')
  end.

Definition getItem {B : Type} (key : string) : Act B (option string) :=
  fun p => (Some (storage p !! key), p).

Definition setItem {B : Type} (key value : string) : Act B unit :=
  fun p => (Some tt, mkPage (<[key := value]> (storage p)) (backend p) (sent p)).

Definition removeItem {B : Type} (key : string) : Act B unit :=
  fun p => (Some tt, mkPage (delete key (storage p)) (backend p) (sent p)).

(** *** The command texts *)

Definition getCurrentPlan : string :=
  lines
    [ "";
      "      $current = powercfg /getactivescheme";
      "      if ($current -match '([a-f0-9-]{36})') {";
      "        $matches[1]";
      "      }";
      "    " ].

Definition ultimateSetup (guid : string) : string :=
  lines
    [ "";
      "        $ultimateExists = powercfg /list | Select-String " +:+ dq +:+ guid +:+ dq;
      "        if (-not $ultimateExists) {";
      "          powercfg /duplicatescheme e9a42b02-d5df-448d-aa00-03f14749eb61";
      "          Write-Host " +:+ dq +:+ "Plano Ultimate Performance criado" +:+ dq;
      "        }";
      "      " ].

Definition setupCommand (mode : PowerMode) : string :=
  match mode with
  | ultimate => ultimateSetup (POWER_PLANS mode)
  | _ => ""
  end.

Definition applyCommand (mode : PowerMode) : string :=
  lines
    [ "";
      "      " +:+ setupCommand mode;
      "      powercfg /setactive " +:+ POWER_PLANS mode;
      "      $result = powercfg /getactivescheme";
      "      if ($result -match " +:+ dq +:+ POWER_PLANS mode +:+ dq +:+ ") {";
      "        Write-Host " +:+ dq +:+ "Plano " +:+ modeText mode +:+ " aplicado com sucesso" +:+ dq;
      "        $true";
      "      } else {";
      "        Write-Host " +:+ dq +:+ "Erro ao aplicar plano " +:+ modeText mode +:+ dq;
      "        $false";
      "      }";
      "    " ].

Definition freeRamCommand : string :=
  lines
    [ "";
      "      $toolPath = " +:+ dq +:+ "tools/EmptyStandbyList.exe" +:+ dq;
      "      if (Test-Path $toolPath) {";
      "        Start-Process -FilePath $toolPath -Wait -NoNewWindow";
      "        Write-Host " +:+ dq +:+ "RAM liberada com EmptyStandbyList" +:+ dq;
      "        $true";
      "      } else {";
      "        Write-Host " +:+ dq +:+ "EmptyStandbyList.exe n" +:+ Js.latin1 227 +:+ "o encontrado em tools/" +:+ dq;
      "        # Alternativa usando comandos nativos";
      "        [System.GC]::Collect()";
      "        [System.GC]::WaitForPendingFinalizers()";
      "        Write-Host " +:+ dq +:+ "Limpeza de RAM alternativa executada" +:+ dq;
      "        $false";
      "      }";
      "    " ].

Definition restoreStartupCommand : string :=
  lines
    [ "";
      "      $backupPath = " +:+ dq +:+ "$env:USERPROFILE\\Documents\\startup-backup.reg" +:+ dq;
      "      if (Test-Path $backupPath) {";
      "        reg import " +:+ dq +:+ "$backupPath" +:+ dq;
      "        Write-Host " +:+ dq +:+ "Programas de inicializa" +:+ Js.latin1 231 +:+ Js.latin1 227 +:+ "o restaurados" +:+ dq;
      "        $true";
      "      } else {";
      "        Write-Host " +:+ dq +:+ "Backup n" +:+ Js.latin1 227 +:+ "o encontrado: $backupPath" +:+ dq;
      "        $false";
      "      }";
      "    " ].

Definition restorePowerCommand (prevPowerPlan : string) : string :=
  lines
    [ "";
      "        powercfg /setactive " +:+ prevPowerPlan;
      "        Write-Host " +:+ dq +:+ "Plano de energia anterior restaurado" +:+ dq;
      "      " ].

Section Functions.

Context {B : Type}.

(** [window.backend.runPS]. *)
Variable runPS : Js.Value -> Js.Value -> B -> Preload.Reply * B.

(** A call [f.call(receiver, ...args)] of a function the backend handed
    over; [None] when it throws. *)
Variable callFn : Js.Value -> Js.Value -> list Js.Value -> option Js.Value.

(** ToString of the runtime on the values that are not strings, and on
    numbers. *)
Variable toText : Js.Value -> string.
Variable numText : Js.Num -> string.

Local Notation "'let*' x ':=' m 'in' k" := (bind m (fun x => k))
  (at level 10, x name, m at level 100, k at level 200).

(** [await window.backend.runPS(command, PS_TIMEOUT)]. *)
Definition await (command : string) : Act B Js.Value :=
  fun p =>
    let '(reply, b) := runPS (Js.Str command) PS_TIMEOUT (backend p) in
    let p' := mkPage (storage p) b (sent p ++ [(command, PS_TIMEOUT)])%list in
    match reply with
    | Preload.Resolved v => (Some v, p')
    | Preload.Rejected _ => (None, p')
    end.

(** [v.method(...args)] where [v] has no method of that name built in: the
    property is looked up and called, and the call of what is not a
    function is a TypeError. *)
Definition callProperty (v : Js.Value) (method : string)
           (args : list Js.Value) : option Js.Value :=
  match Js.get v method with
  | Some (Js.Native fname true) => callFn (Js.Native fname true) v args
  | _ => None
  end.

(** [v.trim()]. *)
Definition callTrim (v : Js.Value) : option Js.Value :=
  match v with
  | Js.Str s => Some (Js.Str (trim s))
  | _ => callProperty v "trim" []
  end.

(** [v === s] for a string [s]. *)
Definition isString (s : string) (v : Js.Value) : bool :=
  match v with
  | Js.Str t => String.eqb t s
  | _ => false
  end.

(** [v.includes(marker)]. *)
Definition callIncludes (v : Js.Value) (marker : string) : option Js.Value :=
  match v with
  | Js.Str s => Some (Js.Boolean (Js.includes s marker))
  | Js.Array items => Some (Js.Boolean (existsb (isString marker) items))
  | _ => callProperty v "includes" [Js.Str marker]
  end.

(** [result && result.includes(marker)]. *)
Definition andIncludes (result : Js.Value) (marker : string) : Act B Js.Value :=
  if Js.truthy result then lift (callIncludes result marker) else ret result.

(** The string a value is stored as. *)
Definition textOf (v : Js.Value) : string :=
  match v with
  | Js.Str s => s
  | _ => toText v
  end.

(** [applyPowerPlan(mode)]: every [mode] of the declared type has a GUID. *)
Definition applyPowerPlan (mode : PowerMode) : Page B -> Js.Value * Page B :=
  orFalse
    (let* currentPlan := await getCurrentPlan in
     let* _ :=
       if Js.truthy currentPlan then
         let* trimmed := lift (callTrim currentPlan) in
         if Js.truthy trimmed then
           let* again := lift (callTrim currentPlan) in
           setItem "gb.prevPowerPlan" (textOf again)
         else ret tt
       else ret tt in
     let* result := await (applyCommand mode) in
     andIncludes result "aplicado com sucesso").

Definition nameGiven (options : ProcessPriorityOptions) : bool :=
  match name options with
  | Some s => negb (String.eqb s "")
  | None => false
  end.

Definition pidGiven (options : ProcessPriorityOptions) : bool :=
  match pid options with
  | Some n => Js.truthy (Js.Number n)
  | None => false
  end.

(** The template's [${name}] and [${pid}]. *)
Definition nameText (options : ProcessPriorityOptions) : string :=
  match name options with
  | Some s => s
  | None => "undefined"
  end.

Definition pidText (options : ProcessPriorityOptions) : string :=
  match pid options with
  | Some n => numText n
  | None => "undefined"
  end.

Definition getProcess (options : ProcessPriorityOptions) : string :=
  if pidGiven options
  then "$process = Get-Process -Id " +:+ pidText options +:+ " -ErrorAction Stop"
  else "$process = Get-Process -Name " +:+ dq +:+ nameText options +:+ dq
         +:+ " -ErrorAction Stop".

Definition priorityCommand (options : ProcessPriorityOptions) : string :=
  lines
    [ "";
      "      try {";
      "        " +:+ getProcess options;
      "        ";
      "        # Verificar se n" +:+ Js.latin1 227 +:+ "o " +:+ Js.latin1 233 +:+ " processo cr" +:+ Js.latin1 237 +:+ "tico";
      "        $criticalProcesses = @('explorer', 'dwm', 'csrss', 'winlogon', 'services', 'nvcontainer', 'atieclxx', 'lsass', 'svchost', 'system')";
      "        if ($criticalProcesses -contains $process.ProcessName.ToLower()) {";
      "          Write-Host " +:+ dq +:+ "Processo cr" +:+ Js.latin1 237 +:+ "tico do sistema, ignorando: $($process.ProcessName)" +:+ dq;
      "          return $false";
      "        }";
      "        ";
      "        $process.PriorityClass = '" +:+ levelText (level options) +:+ "'";
      "        Write-Host " +:+ dq +:+ "Prioridade do processo $($process.ProcessName) alterada para " +:+ levelText (level options) +:+ dq;
      "        $true";
      "      } catch {";
      "        Write-Host " +:+ dq +:+ "Erro ao alterar prioridade: $($_.Exception.Message)" +:+ dq;
      "        $false";
      "      }";
      "    " ].

(** The whitelist test on the name. *)
Definition whitelisted (options : ProcessPriorityOptions) : bool :=
  nameGiven options &&
  existsb (fun sys => Js.includes (Js.toLowerCase (nameText options))
                                  (Js.toLowerCase sys))
          SYSTEM_WHITELIST.

(** [setProcessPriority(options)]. *)
Definition setProcessPriority (options : ProcessPriorityOptions)
  : Page B -> Js.Value * Page B :=
  orFalse
    (if negb (nameGiven options) && negb (pidGiven options)
     then ret (Js.Boolean false)
     else if whitelisted options then ret (Js.Boolean false)
     else
       let* result := await (priorityCommand options) in
       andIncludes result "alterada para").

(** [freeRam()]. *)
Definition freeRam : Page B -> Js.Value * Page B :=
  orFalse
    (let* result := await freeRamCommand in
     let* success := andIncludes result "RAM liberada" in
     ret (Js.Boolean true)).

(** [restoreStartup()]. *)
Definition restoreStartup : Page B -> Js.Value * Page B :=
  orFalse
    (let* result := await restoreStartupCommand in
     andIncludes result "restaurados").

(** [restoreAll()]. *)
Definition restoreAll : Page B -> Js.Value * Page B :=
  orFalse
    (let* prevPowerPlan := getItem "gb.prevPowerPlan" in
     let* _ :=
       match prevPowerPlan with
       | Some plan =>
           if negb (String.eqb plan "") then
             let* _ := await (restorePowerCommand plan) in
             removeItem "gb.prevPowerPlan"
           else ret tt
       | None => ret tt
       end in
     let* startupRestored := (fun p => let '(v, p') := restoreStartup p in
                                       (Some v, p')) in
     ret (Js.Boolean (Js.truthy startupRestored))).

End Functions.

(** *** [window.backend] as [public/electron/preload.js] exposes it *)

(** The object literal [runPS] returns. *)
Definition psObjectValue (o : Preload.PSObject) : Js.Value :=
  Js.Object [ ("stdout", Preload.stdout o);
              ("stderr", Preload.stderr o);
              ("code", Preload.code o);
              ("duration", Preload.duration o) ].

Definition preloadBackend (command timeout : Js.Value) (m : Host.Machine)
  : Preload.Reply * Host.Machine :=
  let '(o, m', _) := Preload.runPS Preload.hostInvoke command timeout m in
  (Preload.Resolved (psObjectValue o), m').

End WinOptShell.
(** ** Notions used to state the properties of the rest of the engine *)

(** The last [n] elements of a list. *)
Definition lastN {A : Type} (n : nat) (l : list A) : list A :=
  skipn (List.length l - n) l.

(** A call of [log]: the time text, the message and the type. *)
Definition LogCall : Type := string * string * Logger.LogType.

Definition entryOf (call : LogCall) : Logger.LogEntry :=
  {| Logger.timestamp := fst (fst call);
     Logger.message := snd (fst call);
     Logger.type := snd call |}.

(** A sequence of calls of [log], first to last. *)
Definition logAll (calls : list LogCall) (logs : list Logger.LogEntry)
  : list Logger.LogEntry :=
  fold_left (fun acc call =>
               Logger.log (fst (fst call)) (snd (fst call)) (snd call) acc)
            calls logs.

(** The multiplier [t] ms into the fade: [1 - t / 5000], the quotient and
    the difference each rounded to a double. *)
Definition fadeMultiplier (t : Z) : Q :=
  Double.sub 1 (Double.div (inject_Z t) (inject_Z 5000)).

(** The stored boost with its three amounts multiplied by [m], each product
    rounded to a double. *)
Definition faded (m : Q) (active : Browser.TelemetryBoost)
  : TurboTelemetry.Boost :=
  {| TurboTelemetry.fpsBoost := Double.mul (inject_Z (Browser.fpsBoost active)) m;
     TurboTelemetry.ramReduction :=
       Double.mul (inject_Z (Browser.ramReduction active)) m;
     TurboTelemetry.tempReduction :=
       Double.mul (inject_Z (Browser.tempReduction active)) m;
     TurboTelemetry.duration := Browser.duration active |}.

(** A page with a stored boost that started at time 0 and a clock that
    reads 62500. *)
Definition fadingWorld : Browser.World :=
  Browser.mkWorld false (fun _ => 62500) 0 (fun _ => 0%Q) 0
    (fun _ _ _ st => (true, st)) ∅
    (Some {| Browser.fpsBoost := 6; Browser.ramReduction := 10;
             Browser.tempReduction := 2; Browser.duration := 60000 |})
    0 [].

(** What [runPS] sends on to the interpreter: the text of a command that is
    a string of 1 to 1000 units with no blacklisted substring, on a Windows
    host; nothing otherwise. *)
Definition reachesShell (command : Js.Value) (m : Host.Machine)
  : option string :=
  match command with
  | Js.Str s =>
      if (1 <=? String.length s)%nat && (String.length s <=? 1000)%nat
         && negb (existsb (fun d => Js.includes (Js.toLowerCase s) d)
                          Host.dangerousCommands)
         && Host.isWindows m
      then Some s else None
  | _ => None
  end.

(** The paths [validateFilePath] rejects: not a string, or a string of
    length 0 or above 500. *)
Definition invalidPathInput (v : Js.Value) : Prop :=
  match v with
  | Js.Str s => String.length s = 0%nat \/ (500 < String.length s)%nat
  | _ => True
  end.

(** The object [readFile] resolves to when something failed with
    [message], and the one that carries the text of a file. *)
Definition fileRefused (message : string) : PreloadFiles.FileObject :=
  {| PreloadFiles.success := Js.Boolean false;
     PreloadFiles.content := Js.Str "";
     PreloadFiles.error := Js.Str message |}.

Definition fileRead (text : string) : PreloadFiles.FileObject :=
  {| PreloadFiles.success := Js.Boolean true;
     PreloadFiles.content := Js.Str text;
     PreloadFiles.error := Js.Str "" |}.

(** The message [validateFilePath] throws for a path it rejects. *)
Definition pathComplaint (v : Js.Value) : string :=
  match v with
  | Js.Str _ => "Caminho deve ter entre 1 e 500 caracteres"
  | _ => "Caminho do arquivo deve ser uma string"
  end.

(** A field that went through [v || fallback]: truthy, or the fallback. *)
Definition settled (v fallback : Js.Value) : Prop :=
  Js.truthy v = true \/ v = fallback.

(** The paths [readSystemFile] refuses: the normalised form contains a
    protected segment in some letter case. *)
Definition protectedPath (m : Host.Machine) (path : string) : Prop :=
  exists d, In d Host.dangerousPaths /\
            Js.containsIgnoringCase (Host.normalize m path) d.

(** One call on the session functions. *)
Inductive SessionCall : Type :=
| StartSession (profileIdentifier : string)
| EndSession.

(** A sequence of such calls, first to last. *)
Definition runSessionCalls (base36 : Q -> string) (calls : list SessionCall)
           (s : TurboSessions.State) : TurboSessions.State :=
  fold_left (fun st call =>
               match call with
               | StartSession profileIdentifier =>
                   snd (TurboSessions.startSession base36 profileIdentifier st)
               | EndSession => TurboSessions.endSession st
               end)
            calls s.


(** The countdown after [n] firings of its timer. *)
Definition ticks (n : nat) (cooldown : Js.Num) : Js.Num :=
  Nat.iter n TurboHook.tick cooldown.

(** A page one and a half seconds after a Turbo run on [esports] that was
    stored at time 1000. *)
Definition reloadedWorld : Browser.World :=
  Browser.mkWorld false (fun _ => 2500) 0 (fun _ => 0%Q) 0
    (fun _ _ _ st => (true, st))
    {[ "gb.turbo" := JSON.stringifyTurboData 1000 "esports" ]}
    None 0 [].

(** A backend whose promise is always fulfilled with a string, as the
    declared type of [window.backend.runPS] promises. *)
Definition answersText {B : Type}
           (runPS : Js.Value -> Js.Value -> B -> Preload.Reply * B) : Prop :=
  forall command timeout b,
    exists s, fst (runPS command timeout b) = Preload.Resolved (Js.Str s).

(** The process names the whitelist test of [setProcessPriority] stops: a
    name that contains a name of the whitelist up to the case of letters. *)
Definition systemProcess (options : WinOptShell.ProcessPriorityOptions) : Prop :=
  exists n sys,
    WinOptShell.name options = Some n /\
    In sys WinOptShell.SYSTEM_WHITELIST /\
    Js.containsIgnoringCase n sys.

(** A backend that answers every command with the GUID of the balanced
    plan, between blanks. *)
Definition balancedBackend (command timeout : Js.Value) (b : unit)
  : Preload.Reply * unit :=
  (Preload.Resolved (Js.Str " 381b4222-f694-41f0-9685-ff5bb260df2e "), b).

Definition freshPage : WinOptShell.Page unit :=
  WinOptShell.mkPage ∅ tt [].
(** * Properties *)

(** ** Strings *)
Section StringFacts.

Lemma toLowerCase_app (s t : string) :
  Js.toLowerCase (s +:+ t) = Js.toLowerCase s +:+ Js.toLowerCase t.
Proof.
  induction s as [|c s IH]; simpl; [reflexivity|]. now rewrite IH.
Qed.

Lemma prefix_app (sub post : string) : String.prefix sub (sub +:+ post) = true.
Proof.
  induction sub as [|c sub IH]; simpl.
  - now destruct post.
  - destruct (ascii_dec c c); [exact IH | congruence].
Qed.

Lemma includes_app (pre sub post : string) :
  Js.includes (pre +:+ sub +:+ post) sub = true.
Proof.
  induction pre as [|c pre IH]; simpl.
  - pose proof (prefix_app sub post) as H.
    destruct (sub +:+ post); simpl in *; rewrite H; reflexivity.
  - rewrite IH. apply orb_true_r.
Qed.

Lemma prefix_inv (sub s : string) :
  String.prefix sub s = true -> exists post, s = sub +:+ post.
Proof.
  revert s. induction sub as [|c sub IH]; intros s H.
  - exists s. reflexivity.
  - destruct s as [|c' s]; [discriminate|]. simpl in H.
    destruct (ascii_dec c c') as [<- | _]; [|discriminate].
    destruct (IH s H) as [post ->]. exists post. reflexivity.
Qed.

(** [includes] is the substring test. *)
Lemma includes_iff (s sub : string) :
  Js.includes s sub = true <-> exists pre post, s = pre +:+ sub +:+ post.
Proof.
  split.
  - induction s as [|c s IH]; intros H.
    + unfold Js.includes in H. rewrite orb_false_r in H.
      destruct (prefix_inv _ _ H) as [post Hpost].
      exists "", post. exact Hpost.
    + change (String.prefix sub (String c s) || Js.includes s sub = true) in H.
      apply orb_true_iff in H. destruct H as [H | H].
      * destruct (prefix_inv _ _ H) as [post ->]. exists "", post. reflexivity.
      * destruct (IH H) as (pre & post & ->). exists (String c pre), post.
        reflexivity.
  - intros (pre & post & ->). apply includes_app.
Qed.

(** What the source tests, [lower(s).includes(d)], holds whenever [s]
    contains a lower-case [d] up to case. *)
Lemma includes_lower (s d : string) :
  Js.toLowerCase d = d ->
  Js.containsIgnoringCase s d ->
  Js.includes (Js.toLowerCase s) d = true.
Proof.
  intros Hd (pre & mid & post & -> & Hmid).
  rewrite !toLowerCase_app, Hmid, Hd. apply includes_app.
Qed.

Lemma existsb_includes (hay : string) (needles : list string) (d : string) :
  In d needles -> Js.includes hay d = true ->
  existsb (fun dangerous => Js.includes hay dangerous) needles = true.
Proof.
  intros Hin Hinc. apply existsb_exists. exists d. split; assumption.
Qed.

Lemma toLowerCase_split (s a b : string) :
  Js.toLowerCase s = a +:+ b ->
  exists s1 s2, s = s1 +:+ s2 /\ Js.toLowerCase s1 = a /\ Js.toLowerCase s2 = b.
Proof.
  revert s. induction a as [|c a IH]; intros s H.
  - exists "", s. repeat split. exact H.
  - destruct s as [|x s]; [discriminate|]. simpl in H.
    injection H as Hc Hrest. destruct (IH s Hrest) as (s1 & s2 & -> & H1 & H2).
    exists (String x s1), s2. simpl. rewrite Hc, H1. repeat split. exact H2.
Qed.

(** The test of the source is containment up to case. *)
Lemma includes_lower_iff (n sys : string) :
  Js.includes (Js.toLowerCase n) (Js.toLowerCase sys) = true
  <-> Js.containsIgnoringCase n sys.
Proof.
  split.
  - intros H. apply includes_iff in H. destruct H as (pre & post & H).
    destruct (toLowerCase_split _ _ _ H) as (s1 & rest & -> & _ & Hrest).
    destruct (toLowerCase_split _ _ _ Hrest) as (mid & s3 & -> & Hmid & _).
    exists s1, mid, s3. split; [reflexivity | exact Hmid].
  - intros (pre & mid & post & -> & Hmid).
    rewrite !toLowerCase_app, Hmid. apply includes_app.
Qed.

End StringFacts.

(** ** The fan speed *)

(** C8. Every preset has a fan speed between 0 and 100, and [setFanSpeed]
    answers any integer with [ok = true] and the input clamped into
    [0, 100]. *)
Theorem C8_fan_speed_bounded :
  Forall (fun kv => 0 <= Presets.fanSpeed (snd kv) <= 100) Presets.presets /\
  forall p : Z,
    WinOpt.setFanSpeed p = {| WinOpt.ok := true; WinOpt.percent := clamp 0 100 p |}.
Proof.
  split.
  - repeat constructor; simpl; lia.
  - intros p. unfold WinOpt.setFanSpeed, clamp.
    destruct (p <? 0) eqn:Hlo.
    + apply Z.ltb_lt in Hlo. simpl. f_equal. lia.
    + apply Z.ltb_ge in Hlo.
      destruct (p >? 100) eqn:Hhi; f_equal.
      * apply Z.gtb_lt in Hhi. lia.
      * rewrite Z.gtb_ltb in Hhi. apply Z.ltb_ge in Hhi. lia.
Qed.

(** ** The host *)

Lemma dangerousCommands_lower (d : string) :
  In d Host.dangerousCommands -> Js.toLowerCase d = d.
Proof.
  unfold Host.dangerousCommands. simpl.
  intros H; repeat (destruct H as [<- | H]; [reflexivity|]); contradiction.
Qed.

Lemma dangerousPaths_lower (d : string) :
  In d Host.dangerousPaths -> Js.toLowerCase d = d.
Proof.
  unfold Host.dangerousPaths. simpl.
  intros H; repeat (destruct H as [<- | H]; [reflexivity|]); contradiction.
Qed.

(** C1. A command string that contains a blacklisted substring, in any
    letter case, is answered by the run-powershell handler with empty
    stdout, a non-empty stderr, code 1 and duration 0, and the machine is
    left as it was: no interpreter is spawned. *)
Theorem C1_blacklisted_command_refused :
  forall (m : Host.Machine) (cmd d : string) (timeout : Js.Value),
    In d Host.dangerousCommands ->
    Js.containsIgnoringCase cmd d ->
    let answer := Host.runPowershellHandler (Js.Str cmd) timeout m in
    Host.stdout (fst answer) = "" /\
    Host.stderr (fst answer) <> "" /\
    Host.code (fst answer) = 1 /\
    Host.duration (fst answer) = 0 /\
    snd answer = m /\
    List.filter Host.isSpawn (Host.events (snd answer))
      = List.filter Host.isSpawn (Host.events m).
Proof.
  intros m cmd d timeout Hin Hci. unfold Host.runPowershellHandler.
  destruct (1000 <? String.length cmd)%nat.
  - simpl. repeat split; discriminate.
  - rewrite (existsb_includes _ _ d Hin
               (includes_lower _ _ (dangerousCommands_lower d Hin) Hci)).
    simpl. repeat split; discriminate.
Qed.

(** A command within the length limit and free of the blacklisted
    substrings is handed to the interpreter. *)
Lemma runPowershellHandler_spawns (m : Host.Machine) (cmd : string)
      (timeout : Js.Value) :
  Host.isWindows m = true ->
  (String.length cmd <= 1000)%nat ->
  existsb (fun d => Js.includes (Js.toLowerCase cmd) d) Host.dangerousCommands
    = false ->
  Host.events (snd (Host.runPowershellHandler (Js.Str cmd) timeout m))
    = (Host.events m ++ [Host.Spawned "powershell" cmd])%list.
Proof.
  intros Hwin Hlen Hsafe. unfold Host.runPowershellHandler.
  assert (Hfit : (1000 <? String.length cmd)%nat = false)
    by (apply Nat.ltb_ge; exact Hlen).
  rewrite Hfit, Hsafe. unfold Host.runPowerShellCommand. rewrite Hwin. simpl.
  destruct (Host.ending _); reflexivity.
Qed.

(** The witness of C1: [Format C:] on a Windows machine. *)
Lemma C1_witness :
  Host.stdout (fst (Host.runPowershellHandler (Js.Str "Format C:")
                      Js.Undefined windowsBox)) = "" /\
  Host.events (snd (Host.runPowershellHandler (Js.Str "Format C:")
                      Js.Undefined windowsBox)) = [].
Proof.
  assert (Hin : In "format" Host.dangerousCommands) by (simpl; auto).
  assert (Hci : Js.containsIgnoringCase "Format C:" "format").
  { exists "", "Format", " C:". split; reflexivity. }
  pose proof (C1_blacklisted_command_refused windowsBox "Format C:" "format"
                Js.Undefined Hin Hci) as H.
  cbv zeta in H. destruct H as (H1 & _ & _ & _ & H5 & _).
  split; [exact H1 | rewrite H5; reflexivity].
Defined.

(** C7. [readSystemFile] refuses a path whose normalised form contains a
    dangerous segment in any letter case, before any file-system access;
    it refuses a file larger than 1 MB without reading it; and its result
    carries [content] exactly when [success] is true. *)
Theorem C7_read_file_guarded :
  forall (m : Host.Machine) (filePath : string),
    let answer := Host.readSystemFile filePath m in
    ((exists d, In d Host.dangerousPaths /\
                Js.containsIgnoringCase (Host.normalize m filePath) d) ->
       fst answer = Host.failure Host.accessDenied /\ snd answer = m) /\
    ((exists size, Host.statSize m (Host.normalize m filePath) = Host.FsOk size /\
                   size > 1024 * 1024) ->
       Host.success (fst answer) = false /\
       (exists message, Host.error (fst answer) = Some message) /\
       List.filter Host.isReadFile (Host.events (snd answer))
         = List.filter Host.isReadFile (Host.events m)) /\
    (Host.success (fst answer) = true <-> is_Some (Host.content (fst answer))).
Proof.
  intros m filePath. cbv zeta. unfold Host.readSystemFile.
  split; [|split].
  - intros (d & Hin & Hci).
    rewrite (existsb_includes _ _ d Hin
               (includes_lower _ _ (dangerousPaths_lower d Hin) Hci)).
    split; reflexivity.
  - intros (size & Hstat & Hbig).
    destruct (existsb _ Host.dangerousPaths).
    + simpl. repeat split; eauto.
    + rewrite Hstat.
      assert (Hgt : (size >? 1024 * 1024) = true) by (apply Z.gtb_lt; lia).
      rewrite Hgt. simpl. repeat split; eauto.
      rewrite List.filter_app. simpl. apply app_nil_r.
  - destruct (existsb _ Host.dangerousPaths); simpl.
    + split; [discriminate | intros [x Hx]; discriminate].
    + destruct (Host.statSize m _) as [size|msg]; simpl.
      * destruct (size >? 1024 * 1024); simpl.
        -- split; [discriminate | intros [x Hx]; discriminate].
        -- destruct (Host.fileContent m _); simpl.
           ++ split; eauto.
           ++ split; [discriminate | intros [x Hx]; discriminate].
      * split; [discriminate | intros [x Hx]; discriminate].
Qed.

(** The witness of C7: a path under [C:\Windows], and a 2 MB file. *)
Lemma C7_witness :
  fst (Host.readSystemFile "C:\Windows\win.ini" bigFileBox)
    = Host.failure Host.accessDenied /\
  Host.success (fst (Host.readSystemFile "D:\dump.bin" bigFileBox)) = false.
Proof.
  split.
  - apply (C7_read_file_guarded bigFileBox "C:\Windows\win.ini").
    exists "windows". split; [simpl; auto|].
    exists "C:\", "Windows", "\win.ini". split; reflexivity.
  - apply (C7_read_file_guarded bigFileBox "D:\dump.bin").
    exists 2097152. split; [reflexivity | lia].
Defined.

(** ** The bridge *)

Lemma validateCommand_invalid (v : Js.Value) :
  invalidCommandInput v ->
  exists message, message <> "" /\ Preload.validateCommand v = inl message.
Proof.
  destruct v; simpl; intros H;
    try (eexists; split; [|reflexivity]; discriminate).
  destruct H as [H | H].
  - rewrite H. simpl. eexists; split; [|reflexivity]; discriminate.
  - apply Nat.ltb_lt in H. rewrite H, orb_true_r.
    eexists; split; [|reflexivity]; discriminate.
Qed.

Lemma validateCommand_valid (v : Js.Value) :
  ~ invalidCommandInput v -> Preload.validateCommand v = inr true.
Proof.
  destruct v; simpl; intros H; try (exfalso; apply H; exact I).
  destruct (String.length s =? 0)%nat eqn:E0.
  - exfalso. apply H. left. now apply Nat.eqb_eq.
  - destruct (1000 <? String.length s)%nat eqn:E1; [|reflexivity].
    exfalso. apply H. right. now apply Nat.ltb_lt.
Qed.

Lemma or_string_is_string (s d : string) :
  Js.is_string (Js.or (Js.Str s) (Js.Str d)) = true.
Proof. unfold Js.or. destruct (Js.truthy (Js.Str s)); reflexivity. Qed.

(** C2. For an input that is not a string, or a string of length 0 or above
    1000, [runPS] resolves to empty stdout, the validator's message as
    stderr, code 1 and duration 0, and sends nothing to the host; for any
    other command it resolves, against the host of [main.js], to an object
    with string stdout and stderr and numeric code and duration. *)
Theorem C2_runPS_shape :
  forall (m : Host.Machine) (command timeout : Js.Value),
    let answer := Preload.runPS Preload.hostInvoke command timeout m in
    let r := fst (fst answer) in
    (invalidCommandInput command ->
       exists message, message <> "" /\
         r = {| Preload.stdout := Js.Str "";
                Preload.stderr := Js.Str message;
                Preload.code := Js.Number (Js.ofZ 1);
                Preload.duration := Js.Number (Js.ofZ 0) |} /\
         snd answer = [] /\ snd (fst answer) = m) /\
    (~ invalidCommandInput command ->
       Js.is_string (Preload.stdout r) = true /\
       Js.is_string (Preload.stderr r) = true /\
       Js.is_number (Preload.code r) = true /\
       Js.is_number (Preload.duration r) = true).
Proof.
  intros m command timeout. cbv zeta. split.
  - intros Hbad.
    destruct (validateCommand_invalid command Hbad) as (message & Hne & Hv).
    exists message. unfold Preload.runPS. rewrite Hv. simpl.
    unfold Preload.caught, Js.or. simpl.
    destruct (String.eqb message "") eqn:E.
    + apply String.eqb_eq in E. contradiction.
    + simpl. repeat split; assumption.
  - intros Hok. unfold Preload.runPS.
    rewrite (validateCommand_valid command Hok).
    unfold Preload.hostInvoke. simpl.
    destruct (Host.runPowershellHandler command
                (Preload.effectiveTimeout timeout) m) as [r m'].
    simpl. repeat split; apply or_string_is_string.
Qed.

(** Whatever the other end replies, [code] and [duration] are numbers. *)
Lemma runPS_numeric {S : Type}
      (invoke : string -> list Js.Value -> S -> Preload.Reply * S)
      (command timeout : Js.Value) (host : S) :
  let r := fst (fst (Preload.runPS invoke command timeout host)) in
  Js.is_number (Preload.code r) = true /\
  Js.is_number (Preload.duration r) = true.
Proof.
  cbv zeta. unfold Preload.runPS.
  destruct (Preload.validateCommand command); [split; reflexivity|].
  destruct (invoke _ _ host) as [[result | message] host'];
    [|split; reflexivity].
  destruct (Js.get result "stdout"), (Js.get result "stderr"),
    (Js.get result "code") as [c|], (Js.get result "duration") as [d|];
    try (split; reflexivity).
  cbn [fst Preload.code Preload.duration].
  split; [destruct c as [| | | | | | |? []] | destruct d as [| | | | | | |? []]];
    reflexivity.
Qed.

(** The witness of C2: a number in place of the command, and the command
    [dir]. *)
Lemma C2_witness :
  (exists message, message <> "" /\
    fst (fst (Preload.runPS Preload.hostInvoke (Js.Number (Js.ofZ 7))
                Js.Undefined windowsBox))
      = {| Preload.stdout := Js.Str "";
           Preload.stderr := Js.Str message;
           Preload.code := Js.Number (Js.ofZ 1);
           Preload.duration := Js.Number (Js.ofZ 0) |} /\
    snd (Preload.runPS Preload.hostInvoke (Js.Number (Js.ofZ 7))
           Js.Undefined windowsBox) = [] /\
    snd (fst (Preload.runPS Preload.hostInvoke (Js.Number (Js.ofZ 7))
                Js.Undefined windowsBox)) = windowsBox) /\
  Js.is_string
    (Preload.stdout
       (fst (fst (Preload.runPS Preload.hostInvoke (Js.Str "dir")
                    Js.Undefined windowsBox)))) = true.
Proof.
  split.
  - apply (C2_runPS_shape windowsBox (Js.Number (Js.ofZ 7)) Js.Undefined).
    exact I.
  - apply (C2_runPS_shape windowsBox (Js.Str "dir") Js.Undefined).
    simpl. intros [H | H]; [discriminate | lia].
Defined.

(** *** The timeout that reaches the host *)

Lemma lt_le_flip (a b : Q) :
  (if Qlt_le_dec a b then true else false) = false -> Qle_bool b a = true.
Proof.
  destruct (Qlt_le_dec a b); [discriminate|]. intros _. now apply Qle_bool_iff.
Qed.

(** Every timeout but NaN ends up in range. *)
Lemma effectiveTimeout_in_range (v : Js.Value) :
  v <> Js.Number Js.NaN -> timeoutInRange (Preload.effectiveTimeout v) = true.
Proof.
  intros Hnan. destruct v as [| | b | n | s | props | items | name c];
    try reflexivity.
  destruct n as [q | | neg].
  - unfold Preload.effectiveTimeout.
    destruct (Js.lt (Js.Fin q) (Js.ofZ 1000)) eqn:E1; [reflexivity|].
    destruct (Js.gt (Js.Fin q) (Js.ofZ 120000)) eqn:E2; [reflexivity|].
    simpl. unfold Js.gt in E2. simpl in E1, E2.
    rewrite (lt_le_flip _ _ E1), (lt_le_flip _ _ E2). reflexivity.
  - contradiction.
  - destruct neg; reflexivity.
Qed.

(** An in-range number is passed on unchanged. *)
Lemma effectiveTimeout_keeps (n : Js.Num) :
  timeoutInRange (Js.Number n) = true ->
  Preload.effectiveTimeout (Js.Number n) = Js.Number n.
Proof.
  destruct n as [q | | neg]; simpl; try discriminate.
  - intros H. apply andb_true_iff in H. destruct H as [H1 H2].
    apply Qle_bool_iff in H1, H2. unfold Preload.effectiveTimeout.
    unfold Js.gt. simpl.
    destruct (Qlt_le_dec q (inject_Z 1000)) as [Hlt|_].
    + exfalso. apply (Qlt_not_le _ _ Hlt H1).
    + destruct (Qlt_le_dec (inject_Z 120000) q) as [Hgt|_]; [|reflexivity].
      exfalso. apply (Qlt_not_le _ _ Hgt H2).
  - destruct neg; discriminate.
Qed.

(** What is not a number, or lies below 1000 or above 120000, is replaced
    by 30000. *)
Lemma effectiveTimeout_default (v : Js.Value) :
  match v with
  | Js.Number n => Js.lt n (Js.ofZ 1000) = true \/ Js.gt n (Js.ofZ 120000) = true
  | _ => True
  end ->
  Preload.effectiveTimeout v = Js.Number (Js.ofZ 30000).
Proof.
  destruct v as [| | b | n | s | props | items | name c]; try reflexivity.
  unfold Preload.effectiveTimeout. intros [H | H]; rewrite H; simpl;
    [reflexivity | now rewrite orb_true_r].
Qed.

(** C10, at the input where the code leaves it: [NaN] is a number, is
    neither below 1000 nor above 120000, and so reaches the host as the
    timeout although it is not in [1000, 120000]. *)
Theorem C10_nan_timeout_reaches_host :
  forall m : Host.Machine,
    snd (Preload.runPS Preload.hostInvoke (Js.Str "dir") (Js.Number Js.NaN) m)
      = [("run-powershell", [Js.Str "dir"; Js.Number Js.NaN])] /\
    timeoutInRange (Js.Number Js.NaN) = false.
Proof.
  intros m. split; [|reflexivity].
  unfold Preload.runPS. simpl.
  destruct (Preload.hostInvoke _ _ m) as [[result | message] m']; simpl.
  - destruct (Js.get result "stdout"), (Js.get result "stderr"),
      (Js.get result "code"), (Js.get result "duration"); reflexivity.
  - reflexivity.
Qed.

(** ** The JSON reader on the stored text *)

Lemma readDigits_print (d : Decimal.uint) (rest : string) :
  endsNumber rest ->
  JSON.readDigits (NilEmpty.string_of_uint d +:+ rest) = (d, rest).
Proof.
  intros Hrest. induction d; simpl; try (rewrite IHd; reflexivity).
  destruct rest as [|c rest]; [reflexivity|].
  simpl. destruct Hrest as [-> _]. reflexivity.
Qed.

Lemma leadingZero_unorm (d : Decimal.uint) :
  JSON.leadingZero (Decimal.unorm d) = false.
Proof.
  unfold Decimal.unorm.
  pose proof (nzhead_nonzero d) as H.
  destruct (Decimal.nzhead d); try reflexivity.
  exfalso. apply (H u). reflexivity.
Qed.

Lemma to_uint_unorm (p : positive) :
  Pos.to_uint p = Decimal.unorm (Pos.to_uint p).
Proof.
  rewrite <- DecimalPos.Unsigned.to_of, DecimalPos.Unsigned.of_to. reflexivity.
Qed.

Lemma readUnsigned_print (d : Decimal.uint) (rest : string) :
  d <> Decimal.Nil -> JSON.leadingZero d = false -> endsNumber rest ->
  JSON.readUnsigned (NilEmpty.string_of_uint d +:+ rest)
    = Some (inject_Z (Z.of_N (N.of_uint d)), rest).
Proof.
  intros Hnil Hlz Hrest. unfold JSON.readUnsigned.
  rewrite (readDigits_print d rest Hrest), Hlz.
  assert (Hfrac : JSON.readFraction rest = Some (Decimal.Nil, rest)).
  { destruct rest as [|c rest]; [reflexivity|].
    simpl. destruct Hrest as (_ & -> & _). reflexivity. }
  assert (Hexp : JSON.readExponent rest = Some (None, rest)).
  { destruct rest as [|c rest]; [reflexivity|].
    simpl. destruct Hrest as (_ & _ & ->). reflexivity. }
  rewrite Hfrac, Hexp.
  destruct d; try reflexivity. contradiction.
Qed.

Lemma readNumber_digits (d : Decimal.uint) (rest : string) :
  d <> Decimal.Nil ->
  JSON.readNumber (NilEmpty.string_of_uint d +:+ rest)
    = JSON.readUnsigned (NilEmpty.string_of_uint d +:+ rest).
Proof. destruct d; intros H; try reflexivity. contradiction. Qed.

Lemma printed_positive (p : positive) (rest : string) :
  endsNumber rest ->
  JSON.readUnsigned (NilEmpty.string_of_uint (Pos.to_uint p) +:+ rest)
    = Some (inject_Z (Z.pos p), rest).
Proof.
  intros Hrest.
  pose proof (leadingZero_unorm (Pos.to_uint p)) as Hlz.
  rewrite <- to_uint_unorm in Hlz.
  rewrite (readUnsigned_print _ rest (Unsigned.to_uint_nonnil p) Hlz Hrest).
  unfold N.of_uint. rewrite DecimalPos.Unsigned.of_to. reflexivity.
Qed.

Lemma readNumber_printInt (z : Z) (rest : string) :
  endsNumber rest ->
  JSON.readNumber (JSON.printInt z +:+ rest) = Some (inject_Z z, rest).
Proof.
  intros Hrest. unfold JSON.printInt. destruct z as [|p|p].
  - change (NilEmpty.string_of_int (Z.to_int 0))
      with (NilEmpty.string_of_uint (Decimal.D0 Decimal.Nil)).
    rewrite readNumber_digits by discriminate.
    rewrite readUnsigned_print; try easy.
  - change (NilEmpty.string_of_int (Z.to_int (Z.pos p)))
      with (NilEmpty.string_of_uint (Pos.to_uint p)).
    rewrite readNumber_digits by apply Unsigned.to_uint_nonnil.
    apply printed_positive, Hrest.
  - change (NilEmpty.string_of_int (Z.to_int (Z.neg p)) +:+ rest)
      with (String "-" (NilEmpty.string_of_uint (Pos.to_uint p) +:+ rest)).
    unfold JSON.readNumber.
    change (JSON.code "-" =? 45)%N with true. cbv iota.
    rewrite (printed_positive p rest Hrest). reflexivity.
Qed.

(** A number where a value is expected. *)
Lemma parseValue_printInt (fuel : nat) (z : Z) (rest : string) :
  endsNumber rest ->
  JSON.parseValue false (S fuel) (JSON.printInt z +:+ rest)
    = Some (Js.Number (Js.ofZ z), rest).
Proof.
  intros Hrest.
  assert (Hhead : exists c tail,
            JSON.printInt z +:+ rest = String c tail /\
            (JSON.code c = 45%N \/ (48 <= JSON.code c <= 57)%N)).
  { unfold JSON.printInt. destruct z as [|p|p].
    - eexists _, _. split; [reflexivity|]. right. cbv. split; discriminate.
    - simpl. pose proof (Unsigned.to_uint_nonnil p) as Hnil.
      destruct (Pos.to_uint p); try contradiction;
        (eexists _, _; split; [reflexivity|]; right; cbv; split; discriminate).
    - eexists _, _. split; [reflexivity|]. left. reflexivity. }
  destruct Hhead as (c & tail & Heq & Hc).
  pose proof (readNumber_printInt z rest Hrest) as Hnum.
  rewrite Heq in *.
  assert (Hdispatch : forall s,
            JSON.parseValue false (S fuel) (String c s)
              = match JSON.readNumber (String c s) with
                | Some (q, r) => Some (Js.Number (Js.Fin q), r)
                | None => None
                end).
  { intros s. destruct c as [b0 b1 b2 b3 b4 b5 b6 b7].
    destruct Hc as [Hc | [Hlo Hhi]].
    - destruct b0, b1, b2, b3, b4, b5, b6, b7; try discriminate Hc. reflexivity.
    - destruct b0, b1, b2, b3, b4, b5, b6, b7;
        cbv in Hlo, Hhi; try (exfalso; apply Hlo; reflexivity);
        try (exfalso; apply Hhi; reflexivity); reflexivity. }
  rewrite Hdispatch, Hnum. reflexivity.
Qed.

Lemma append_assoc (a b c : string) : (a +:+ b) +:+ c = a +:+ (b +:+ c).
Proof. induction a as [|x a IH]; simpl; [reflexivity | now rewrite IH]. Qed.

(** Reading back one escaped unit. *)
Lemma readString_escapeUnit (c : ascii) (tail : string) :
  JSON.readString false (JSON.escapeUnit c +:+ tail)
    = JSON.consTo c (JSON.readString false tail).
Proof.
  destruct c as [b0 b1 b2 b3 b4 b5 b6 b7].
  destruct b0, b1, b2, b3, b4, b5, b6, b7; reflexivity.
Qed.

Lemma readString_escape (k rest : string) :
  JSON.readString false (JSON.escape k +:+ String (JSON.chr 34) rest)
    = Some (k, rest).
Proof.
  induction k as [|c k IH]; [reflexivity|].
  simpl JSON.escape. rewrite append_assoc, readString_escapeUnit, IH.
  reflexivity.
Qed.

Lemma parseValue_quote (fuel : nat) (k rest : string) :
  JSON.parseValue false (S fuel) (JSON.quote k +:+ rest) = Some (Js.Str k, rest).
Proof.
  unfold JSON.quote. simpl.
  rewrite append_assoc. simpl. rewrite readString_escape. reflexivity.
Qed.

(** One member [key : value] of an object. *)
Lemma parseMembers_member (fuel : nat) (key body : string) (first : bool)
      (acc : list (string * Js.Value)) :
  JSON.parseMembers false (S fuel) (JSON.quote key +:+ String ":" body) first acc
    = match JSON.parseValue false fuel body with
      | None => None
      | Some (v, r3) =>
          match JSON.skipWs r3 with
          | EmptyString => None
          | String d r4 =>
              if (JSON.code d =? 44)%N then
                JSON.parseMembers false fuel (JSON.skipWs r4) false
                                  ((key, v) :: acc)
              else if (JSON.code d =? 125)%N then
                Some (Js.Object (rev ((key, v) :: acc)), r4)
              else None
          end
      end.
Proof.
  unfold JSON.quote.
  change (String (JSON.chr 34) (JSON.escape key +:+ String (JSON.chr 34) "")
            +:+ String ":" body)
    with (String (JSON.chr 34)
            ((JSON.escape key +:+ String (JSON.chr 34) "") +:+ String ":" body)).
  rewrite append_assoc.
  change (String (JSON.chr 34) "" +:+ String ":" body)
    with (String (JSON.chr 34) (String ":" body)).
  unfold JSON.parseMembers at 1; fold JSON.parseMembers; fold JSON.parseValue.
  rewrite andb_false_r.
  change (JSON.code (JSON.chr 34) =? 34)%N with true. cbv iota.
  rewrite readString_escape. reflexivity.
Qed.

Ltac step_member :=
  match goal with
  | |- context [JSON.parseMembers false (S ?f)
                                  (JSON.quote ?key +:+ String ":" ?b)
                                  ?first ?acc] =>
      rewrite (parseMembers_member f key b first acc)
  end.

Lemma parseValue_object (fuel : nat) (key body : string) :
  JSON.parseValue false (S fuel) (String "{" (JSON.quote key +:+ body))
    = JSON.parseMembers false fuel (JSON.quote key +:+ body) true [].
Proof. reflexivity. Qed.

Lemma parseValue_stringifyTurboData (fuel : nat) (t : Z) (k rest : string) :
  JSON.parseValue false (4 + fuel) (JSON.stringifyTurboData t k +:+ rest)
    = Some (JSON.turboDataValue t k, rest).
Proof.
  unfold JSON.stringifyTurboData.
  rewrite !append_assoc.
  change (4 + fuel)%nat with (S (S (S (S fuel)))).
  change ("{" +:+ ?x) with (String "{" x).
  rewrite parseValue_object.
  change (":" +:+ ?x) with (String ":" x).
  step_member.
  change ("," +:+ ?x) with (String "," x).
  rewrite parseValue_printInt by (repeat split).
  change (JSON.skipWs (String "," ?x)) with (String "," x). cbv iota.
  change (JSON.code "," =? 44)%N with true. cbv iota.
  match goal with
  | |- context [JSON.skipWs (JSON.quote ?a +:+ ?b)] =>
      change (JSON.skipWs (JSON.quote a +:+ b)) with (JSON.quote a +:+ b)
  end.
  change (":" +:+ ?x) with (String ":" x).
  step_member. rewrite parseValue_quote.
  reflexivity.
Qed.

Lemma length_append (a b : string) :
  String.length (a +:+ b) = (String.length a + String.length b)%nat.
Proof. induction a as [|x a IH]; simpl; [reflexivity | now rewrite IH]. Qed.

Lemma parse_stringifyTurboData (t : Z) (k : string) :
  JSON.parse (JSON.stringifyTurboData t k) = Some (JSON.turboDataValue t k).
Proof.
  unfold JSON.parse, JSON.parseText.
  assert (Hlen : exists fuel,
            S (String.length (JSON.stringifyTurboData t k)) = (4 + fuel)%nat).
  { unfold JSON.stringifyTurboData. rewrite !length_append. simpl.
    eexists. reflexivity. }
  destruct Hlen as [fuel ->].
  pose proof (parseValue_stringifyTurboData fuel t k "") as H.
  assert (Hnil : forall s, s +:+ "" = s).
  { induction s as [|x s IH]; simpl; [reflexivity | now rewrite IH]. }
  rewrite Hnil in H. rewrite H. reflexivity.
Qed.

(** ** Texts the strict reader has a value for are of the grammar *)
Section Grammar.

Lemma consTo_some (c : ascii) (r r' : option (string * string)) :
  (forall x, r = Some x -> r' = Some x) ->
  forall x, JSON.consTo c r = Some x -> JSON.consTo c r' = Some x.
Proof.
  intros H x. destruct r as [[str rest]|]; [|discriminate].
  rewrite (H _ eq_refl). trivial.
Qed.

Lemma escapedUnit_wide (u : N) (a : ascii) :
  JSON.escapedUnit false u = Some a -> JSON.escapedUnit true u = Some a.
Proof. unfold JSON.escapedUnit. destruct (u <? 256)%N; [trivial | discriminate]. Qed.

Lemma readString_wide_upto (n : nat) :
  forall (s : string) (x : string * string),
    (String.length s <= n)%nat ->
    JSON.readString false s = Some x -> JSON.readString true s = Some x.
Proof.
  induction n as [|n IH]; intros s x Hlen;
    (destruct s as [|c s']; [discriminate|]); simpl in Hlen; [lia|].
  assert (IH1 : forall x, JSON.readString false s' = Some x ->
                          JSON.readString true s' = Some x)
    by (intros y; apply IH; lia).
  cbn [JSON.readString].
  destruct (JSON.code c =? 34)%N; [trivial|].
  destruct (JSON.code c =? 92)%N.
  2:{ destruct (JSON.code c <? 32)%N; [discriminate|]. apply consTo_some, IH1. }
  destruct s' as [|e s'']; [discriminate|].
  assert (IH2 : forall x, JSON.readString false s'' = Some x ->
                          JSON.readString true s'' = Some x)
    by (intros y; apply IH; simpl in Hlen; lia).
  assert (Hu : forall y,
             match s'' with
             | String h1 (String h2 (String h3 (String h4 s3))) =>
                 match JSON.hex4 h1 h2 h3 h4 with
                 | Some u =>
                     match JSON.escapedUnit false u with
                     | Some a => JSON.consTo a (JSON.readString false s3)
                     | None => None
                     end
                 | None => None
                 end
             | _ => None
             end = Some y ->
             match s'' with
             | String h1 (String h2 (String h3 (String h4 s3))) =>
                 match JSON.hex4 h1 h2 h3 h4 with
                 | Some u =>
                     match JSON.escapedUnit true u with
                     | Some a => JSON.consTo a (JSON.readString true s3)
                     | None => None
                     end
                 | None => None
                 end
             | _ => None
             end = Some y).
  { intros y. destruct s'' as [|h1 [|h2 [|h3 [|h4 s3]]]]; try discriminate.
    destruct (JSON.hex4 h1 h2 h3 h4) as [u|]; [|discriminate].
    destruct (JSON.escapedUnit false u) as [a|] eqn:Ea; [|discriminate].
    rewrite (escapedUnit_wide _ _ Ea).
    apply consTo_some. intros z. apply IH. simpl in Hlen. lia. }
  destruct e as [b0 b1 b2 b3 b4 b5 b6 b7].
  destruct b0, b1, b2, b3, b4, b5, b6, b7;
    try discriminate; try (apply consTo_some, IH2); exact (Hu x).
Qed.

Lemma readString_wide (s : string) (x : string * string) :
  JSON.readString false s = Some x -> JSON.readString true s = Some x.
Proof. apply (readString_wide_upto (String.length s)). lia. Qed.

Lemma parse_wide (fuel : nat) :
  (forall s x,
      JSON.parseValue false fuel s = Some x ->
      JSON.parseValue true fuel s = Some x) /\
  (forall s first acc x,
      JSON.parseMembers false fuel s first acc = Some x ->
      JSON.parseMembers true fuel s first acc = Some x) /\
  (forall s first acc x,
      JSON.parseElements false fuel s first acc = Some x ->
      JSON.parseElements true fuel s first acc = Some x).
Proof.
  induction fuel as [|fuel (IHv & IHm & IHe)];
    [repeat split; intros; discriminate|].
  split; [|split].
  - intros s x. cbn [JSON.parseValue].
    destruct (JSON.skipWs s) as [|c rest]; [discriminate|].
    assert (Hstr : match JSON.readString false rest with
                   | Some (str, r) => Some (Js.Str str, r)
                   | None => None
                   end = Some x ->
                   match JSON.readString true rest with
                   | Some (str, r) => Some (Js.Str str, r)
                   | None => None
                   end = Some x).
    { destruct (JSON.readString false rest) as [[str r]|] eqn:E; [|discriminate].
      rewrite (readString_wide _ _ E). trivial. }
    destruct c as [b0 b1 b2 b3 b4 b5 b6 b7].
    destruct b0, b1, b2, b3, b4, b5, b6, b7;
      try exact Hstr; try apply IHm; try apply IHe; intros H; exact H.
  - intros s first acc x. cbn [JSON.parseMembers].
    destruct s as [|c rest]; [discriminate|].
    destruct (first && (JSON.code c =? 125)%N); [trivial|].
    destruct (JSON.code c =? 34)%N; [|discriminate].
    destruct (JSON.readString false rest) as [[k r1]|] eqn:E; [|discriminate].
    rewrite (readString_wide _ _ E).
    destruct (JSON.skipWs r1) as [|colon r2]; [discriminate|].
    destruct (JSON.code colon =? 58)%N; [|discriminate].
    destruct (JSON.parseValue false fuel r2) as [[v r3]|] eqn:Ev; [|discriminate].
    rewrite (IHv _ _ Ev).
    destruct (JSON.skipWs r3) as [|d r4]; [discriminate|].
    destruct (JSON.code d =? 44)%N; [apply IHm | trivial].
  - intros s first acc x. cbn [JSON.parseElements].
    destruct s as [|c rest]; [discriminate|].
    destruct (first && (JSON.code c =? 93)%N); [trivial|].
    destruct (JSON.parseValue false fuel (String c rest)) as [[v r1]|] eqn:Ev;
      [|discriminate].
    rewrite (IHv _ _ Ev).
    destruct (JSON.skipWs r1) as [|d r2]; [discriminate|].
    destruct (JSON.code d =? 44)%N; [apply IHe | trivial].
Qed.

(** A text the strict reader has a value for is well formed: a text that
    is not well formed has no value. *)
Lemma parse_wellFormed (text : string) :
  JSON.wellFormed text = false -> JSON.parse text = None.
Proof.
  unfold JSON.wellFormed, JSON.parse, JSON.parseText. intros H.
  destruct (JSON.parseValue false (S (String.length text)) text)
    as [[v r]|] eqn:E; [|reflexivity].
  rewrite (proj1 (parse_wide _) _ _ E) in H.
  destruct (JSON.skipWs r); [discriminate | reflexivity].
Qed.

(** An escape above U+00FF: the text is of the grammar, and the strict
    reader has no value for it. Texts that are not of the grammar. *)
Lemma wellFormed_examples :
  let wideText :=
    "{" +:+ JSON.quote "lastTurboAt" +:+ ":5,"
        +:+ JSON.quote "lastTurboProfile" +:+ ":"
        +:+ String (JSON.chr 34) ("\u4e2d" +:+ String (JSON.chr 34) "}") in
  JSON.wellFormed wideText = true /\ JSON.parse wideText = None /\
  JSON.wellFormed "1e400" = true /\
  JSON.wellFormed "{" = false /\
  JSON.wellFormed "[1,]" = false /\
  JSON.wellFormed "undefined" = false /\
  JSON.wellFormed "01" = false.
Proof. repeat split; vm_compute; reflexivity. Qed.

End Grammar.

(** ** The fuel of the reader

    [parseText] starts with one unit of fuel more than the text is long.
    That is enough: the reader's answer is the same with any larger
    amount. *)
Section Fuel.

Variable wide : bool.

(** The reader by the first unit of the value. *)
Lemma parseValue_dispatch (fuel : nat) (s : string) :
  JSON.parseValue wide (S fuel) s
    = match JSON.skipWs s with
      | EmptyString => None
      | String c rest as t =>
          if (JSON.code c =? 123)%N then
            JSON.parseMembers wide fuel (JSON.skipWs rest) true nil
          else if (JSON.code c =? 91)%N then
            JSON.parseElements wide fuel (JSON.skipWs rest) true nil
          else if (JSON.code c =? 34)%N then
            match JSON.readString wide rest with
            | Some (str, r) => Some (Js.Str str, r)
            | None => None
            end
          else if (JSON.code c =? 116)%N then
            JSON.literal "true" (Js.Boolean true) t
          else if (JSON.code c =? 102)%N then
            JSON.literal "false" (Js.Boolean false) t
          else if (JSON.code c =? 110)%N then JSON.literal "null" Js.Null t
          else
            match JSON.readNumber t with
            | Some (q, r) => Some (Js.Number (Js.Fin q), r)
            | None => None
            end
      end.
Proof.
  cbn [JSON.parseValue]. destruct (JSON.skipWs s) as [|c rest]; [reflexivity|].
  destruct c as [b0 b1 b2 b3 b4 b5 b6 b7].
  destruct b0, b1, b2, b3, b4, b5, b6, b7; reflexivity.
Qed.

Lemma parse_one_more (fuel : nat) :
  (forall s x,
      JSON.parseValue wide fuel s = Some x ->
      JSON.parseValue wide (S fuel) s = Some x) /\
  (forall s first acc x,
      JSON.parseMembers wide fuel s first acc = Some x ->
      JSON.parseMembers wide (S fuel) s first acc = Some x) /\
  (forall s first acc x,
      JSON.parseElements wide fuel s first acc = Some x ->
      JSON.parseElements wide (S fuel) s first acc = Some x).
Proof.
  induction fuel as [|fuel (IHv & IHm & IHe)];
    [repeat split; intros; discriminate|].
  split; [|split].
  - intros s x. rewrite !parseValue_dispatch.
    destruct (JSON.skipWs s) as [|c rest]; [discriminate|].
    destruct (JSON.code c =? 123)%N; [apply IHm|].
    destruct (JSON.code c =? 91)%N; [apply IHe|]. trivial.
  - intros s first acc x.
    cbn [JSON.parseMembers].
    destruct s as [|c rest]; [discriminate|].
    destruct (first && (JSON.code c =? 125)%N); [trivial|].
    destruct (JSON.code c =? 34)%N; [|discriminate].
    destruct (JSON.readString wide rest) as [[k r1]|]; [|discriminate].
    destruct (JSON.skipWs r1) as [|colon r2]; [discriminate|].
    destruct (JSON.code colon =? 58)%N; [|discriminate].
    destruct (JSON.parseValue wide fuel r2) as [[v r3]|] eqn:Ev; [|discriminate].
    rewrite (IHv _ _ Ev).
    destruct (JSON.skipWs r3) as [|d r4]; [discriminate|].
    destruct (JSON.code d =? 44)%N; [apply IHm | trivial].
  - intros s first acc x.
    cbn [JSON.parseElements].
    destruct s as [|c rest]; [discriminate|].
    destruct (first && (JSON.code c =? 93)%N); [trivial|].
    destruct (JSON.parseValue wide fuel (String c rest)) as [[v r1]|] eqn:Ev;
      [|discriminate].
    rewrite (IHv _ _ Ev).
    destruct (JSON.skipWs r1) as [|d r2]; [discriminate|].
    destruct (JSON.code d =? 44)%N; [apply IHe | trivial].
Qed.

Lemma parseValue_more (fuel more : nat) (s : string) (x : Js.Value * string) :
  (fuel <= more)%nat ->
  JSON.parseValue wide fuel s = Some x -> JSON.parseValue wide more s = Some x.
Proof.
  intros Hle H. induction Hle as [|more Hle IH]; [exact H|].
  apply (proj1 (parse_one_more more)), IH.
Qed.

(** *** What the readers leave is shorter than what they took *)

Lemma skipWs_length (s : string) :
  (String.length (JSON.skipWs s) <= String.length s)%nat.
Proof.
  induction s as [|c s IH]; simpl; [lia|].
  destruct (JSON.isWs c); simpl; lia.
Qed.

Lemma consTo_length (c : ascii) (r : option (string * string)) (n : nat) :
  (forall k rest, r = Some (k, rest) -> (String.length rest < n)%nat) ->
  forall k rest, JSON.consTo c r = Some (k, rest) -> (String.length rest < n)%nat.
Proof.
  intros H k rest. destruct r as [[k' rest']|]; [|discriminate].
  intros [= _ <-]. exact (H _ _ eq_refl).
Qed.

Lemma readString_length_upto (n : nat) :
  forall (s k rest : string),
    (String.length s <= n)%nat ->
    JSON.readString wide s = Some (k, rest) ->
    (String.length rest < String.length s)%nat.
Proof.
  induction n as [|n IH]; intros s k rest Hlen;
    (destruct s as [|c s']; [discriminate|]); simpl in Hlen; [lia|].
  assert (IH1 : forall k rest, JSON.readString wide s' = Some (k, rest) ->
                               (String.length rest < String.length (String c s'))%nat).
  { intros k0 r0 H0. apply IH in H0; [|lia]. simpl. lia. }
  cbn [JSON.readString].
  destruct (JSON.code c =? 34)%N; [intros [= _ <-]; simpl; lia|].
  destruct (JSON.code c =? 92)%N.
  2:{ destruct (JSON.code c <? 32)%N; [discriminate|].
      apply consTo_length, IH1. }
  destruct s' as [|e s'']; [discriminate|].
  assert (IH2 : forall k rest, JSON.readString wide s'' = Some (k, rest) ->
                  (String.length rest < String.length (String c (String e s'')))%nat).
  { intros k0 r0 H0. apply IH in H0; [|simpl in Hlen; lia]. simpl. lia. }
  assert (Hu : forall k rest,
             match s'' with
             | String h1 (String h2 (String h3 (String h4 s3))) =>
                 match JSON.hex4 h1 h2 h3 h4 with
                 | Some u =>
                     match JSON.escapedUnit wide u with
                     | Some a => JSON.consTo a (JSON.readString wide s3)
                     | None => None
                     end
                 | None => None
                 end
             | _ => None
             end = Some (k, rest) ->
             (String.length rest < String.length (String c (String e s'')))%nat).
  { intros k0 r0. destruct s'' as [|h1 [|h2 [|h3 [|h4 s3]]]]; try discriminate.
    destruct (JSON.hex4 h1 h2 h3 h4) as [u|]; [|discriminate].
    destruct (JSON.escapedUnit wide u) as [a|]; [|discriminate].
    apply consTo_length. intros k1 r1 H1.
    apply IH in H1; [|simpl in Hlen; lia]. simpl. lia. }
  destruct e as [b0 b1 b2 b3 b4 b5 b6 b7].
  destruct b0, b1, b2, b3, b4, b5, b6, b7;
    try discriminate; try (apply consTo_length, IH2); exact (Hu k rest).
Qed.

Lemma readString_length (s k rest : string) :
  JSON.readString wide s = Some (k, rest) ->
  (String.length rest < String.length s)%nat.
Proof. apply (readString_length_upto (String.length s)). lia. Qed.

Lemma readDigits_length (s : string) :
  (String.length (snd (JSON.readDigits s)) <= String.length s)%nat /\
  (fst (JSON.readDigits s) <> Decimal.Nil ->
   (String.length (snd (JSON.readDigits s)) < String.length s)%nat).
Proof.
  induction s as [|c s [IH _]]; simpl; [split; [lia | congruence]|].
  destruct (JSON.digit c) as [d|]; simpl; [|split; [lia | congruence]].
  destruct (JSON.readDigits s) as [ds r]. simpl in *. split; [lia|]. intros _. lia.
Qed.

Lemma readFraction_length (s : string) (f : Decimal.uint) (r : string) :
  JSON.readFraction s = Some (f, r) -> (String.length r <= String.length s)%nat.
Proof.
  destruct s as [|c s]; simpl; [intros [= _ <-]; simpl; lia|].
  destruct (JSON.code c =? 46)%N; [|intros [= _ <-]; simpl; lia].
  pose proof (proj1 (readDigits_length s)) as H.
  destruct (JSON.readDigits s) as [ds r']. simpl in H.
  destruct ds; try discriminate; intros [= _ <-]; lia.
Qed.

Lemma readExponent_length (s : string) (e : option Z) (r : string) :
  JSON.readExponent s = Some (e, r) -> (String.length r <= String.length s)%nat.
Proof.
  destruct s as [|c s]; simpl; [intros [= _ <-]; simpl; lia|].
  destruct ((JSON.code c =? 101) || (JSON.code c =? 69))%N;
    [|intros [= _ <-]; simpl; lia].
  assert (Hsign : forall neg t, (String.length t <= String.length s)%nat ->
            match JSON.readDigits t with
            | (Decimal.Nil, _) => None
            | (d, r0) =>
                Some (Some (if (neg : bool) then - Z.of_N (N.of_uint d)
                            else Z.of_N (N.of_uint d)), r0)
            end = Some (e, r) -> (String.length r <= S (String.length s))%nat).
  { intros neg t Ht. pose proof (proj1 (readDigits_length t)) as H.
    destruct (JSON.readDigits t) as [ds r']. simpl in H.
    destruct ds; try discriminate; intros [= _ <-]; lia. }
  destruct s as [|sg t].
  - intros H. apply (Hsign false ""); [simpl; lia | exact H].
  - destruct (JSON.code sg =? 45)%N.
    + intros H. apply (Hsign true t); [simpl; lia | exact H].
    + destruct (JSON.code sg =? 43)%N; intros H.
      * apply (Hsign false t); [simpl; lia | exact H].
      * apply (Hsign false (String sg t)); [simpl; lia | exact H].
Qed.

Lemma readUnsigned_length (s : string) (q : Q) (r : string) :
  JSON.readUnsigned s = Some (q, r) -> (String.length r < String.length s)%nat.
Proof.
  unfold JSON.readUnsigned.
  destruct (readDigits_length s) as [_ Hlt].
  destruct (JSON.readDigits s) as [i r0]. simpl in Hlt.
  assert (Hrest : i <> Decimal.Nil ->
            (if JSON.leadingZero i then None else
             match JSON.readFraction r0 with
             | None => None
             | Some (f, r1) =>
                 match JSON.readExponent r1 with
                 | None => None
                 | Some (e, r2) =>
                     Some (match f, e with
                           | Decimal.Nil, None => inject_Z (Z.of_N (N.of_uint i))
                           | _, _ => JSON.decimalValue i f
                                       (match e with Some z => z | None => 0 end)
                           end, r2)
                 end
             end) = Some (q, r) -> (String.length r < String.length s)%nat).
  { intros Hi. specialize (Hlt Hi).
    destruct (JSON.leadingZero i); [discriminate|].
    destruct (JSON.readFraction r0) as [[f r1]|] eqn:Ef; [|discriminate].
    apply readFraction_length in Ef.
    destruct (JSON.readExponent r1) as [[e r2]|] eqn:Ee; [|discriminate].
    apply readExponent_length in Ee.
    intros [= _ <-]. lia. }
  destruct i; try discriminate; apply Hrest; discriminate.
Qed.

Lemma readNumber_length (s : string) (q : Q) (r : string) :
  JSON.readNumber s = Some (q, r) -> (String.length r < String.length s)%nat.
Proof.
  destruct s as [|c s]; [discriminate|]. unfold JSON.readNumber.
  destruct (JSON.code c =? 45)%N; [|apply readUnsigned_length].
  destruct (JSON.readUnsigned s) as [[q0 r0]|] eqn:E; [|discriminate].
  apply readUnsigned_length in E. intros [= _ <-]. simpl. lia.
Qed.

Lemma substring_length (n m : nat) (s : string) :
  (String.length (String.substring n m s) <= m)%nat.
Proof.
  revert n m. induction s as [|c s IH]; intros n m.
  - destruct n, m; simpl; lia.
  - destruct n as [|n].
    + destruct m as [|m]; simpl; [lia|]. specialize (IH 0%nat m). lia.
    + simpl. apply IH.
Qed.

Lemma literal_length (word : string) (v v' : Js.Value) (s r : string) :
  word <> "" -> s <> "" ->
  JSON.literal word v s = Some (v', r) -> (String.length r < String.length s)%nat.
Proof.
  intros Hw Hs. unfold JSON.literal.
  destruct (String.prefix word s); [|discriminate].
  intros [= _ <-].
  pose proof (substring_length (String.length word)
                (String.length s - String.length word) s).
  destruct word; [contradiction|]. destruct s; [contradiction|].
  simpl in *. lia.
Qed.

(** *** The fuel a value needs is bounded by the units it takes *)

Lemma parse_needs (fuel : nat) :
  (forall s v r,
      JSON.parseValue wide fuel s = Some (v, r) ->
      (String.length r < String.length s)%nat /\
      forall g, (String.length s - String.length r <= g)%nat ->
                JSON.parseValue wide g s = Some (v, r)) /\
  (forall s first acc v r,
      JSON.parseMembers wide fuel s first acc = Some (v, r) ->
      (String.length r < String.length s)%nat /\
      forall g, (String.length s - String.length r <= g)%nat ->
                JSON.parseMembers wide g s first acc = Some (v, r)) /\
  (forall s first acc v r,
      JSON.parseElements wide fuel s first acc = Some (v, r) ->
      (String.length r < String.length s)%nat /\
      forall g, (String.length s - String.length r <= g)%nat ->
                JSON.parseElements wide g s first acc = Some (v, r)).
Proof.
  induction fuel as [|fuel (IHv & IHm & IHe)];
    [repeat split; intros; discriminate|].
  split; [|split].
  - intros s v r. rewrite parseValue_dispatch.
    pose proof (skipWs_length s) as Hws.
    destruct (JSON.skipWs s) as [|c rest] eqn:Es; [discriminate|].
    simpl in Hws.
    assert (Hgo : forall (body : nat -> option (Js.Value * string)),
              (forall g, JSON.parseValue wide (S g) s = body g) ->
              (String.length r < String.length s)%nat ->
              (forall g, (String.length s - String.length r <= S g)%nat ->
                         body g = Some (v, r)) ->
              (String.length r < String.length s)%nat /\
              forall g, (String.length s - String.length r <= g)%nat ->
                        JSON.parseValue wide g s = Some (v, r)).
    { intros body Hbody Hlt Hall. split; [exact Hlt|].
      intros [|g] Hg; [lia|]. rewrite Hbody. apply Hall, Hg. }
    destruct (JSON.code c =? 123)%N eqn:E1.
    { intros H. destruct (IHm _ _ _ _ _ H) as [Hlt Hfuel].
      pose proof (skipWs_length rest) as Hws'.
      apply (Hgo (fun g => JSON.parseMembers wide g (JSON.skipWs rest) true nil)).
      - intros g. rewrite parseValue_dispatch, Es, E1. reflexivity.
      - lia.
      - intros g Hg. apply Hfuel. lia. }
    destruct (JSON.code c =? 91)%N eqn:E2.
    { intros H. destruct (IHe _ _ _ _ _ H) as [Hlt Hfuel].
      pose proof (skipWs_length rest) as Hws'.
      apply (Hgo (fun g => JSON.parseElements wide g (JSON.skipWs rest) true nil)).
      - intros g. rewrite parseValue_dispatch, Es, E1, E2. reflexivity.
      - lia.
      - intros g Hg. apply Hfuel. lia. }
    intros H.
    assert (Hlt : (String.length r < String.length s)%nat).
    { revert H. cbv zeta. destruct (JSON.code c =? 34)%N.
      { destruct (JSON.readString wide rest) as [[str r0]|] eqn:Er; [|discriminate].
        intros [= _ <-]. apply readString_length in Er. lia. }
      destruct (JSON.code c =? 116)%N;
        [intros H; apply literal_length in H;
         [simpl in H; lia | discriminate | discriminate]|].
      destruct (JSON.code c =? 102)%N;
        [intros H; apply literal_length in H;
         [simpl in H; lia | discriminate | discriminate]|].
      destruct (JSON.code c =? 110)%N;
        [intros H; apply literal_length in H;
         [simpl in H; lia | discriminate | discriminate]|].
      destruct (JSON.readNumber (String c rest)) as [[q r0]|] eqn:Er; [|discriminate].
      intros [= _ <-]. apply readNumber_length in Er. simpl in Er. lia. }
    apply (Hgo (fun _ => Some (v, r))); [|exact Hlt | reflexivity].
    intros g. rewrite parseValue_dispatch, Es, E1, E2. exact H.
  - intros s first acc v r. cbn [JSON.parseMembers].
    destruct s as [|c rest]; [discriminate|].
    destruct (first && (JSON.code c =? 125)%N) eqn:E1.
    { intros [= <- <-]. split; [simpl; lia|].
      intros [|g] Hg; [simpl in Hg; lia|].
      cbn [JSON.parseMembers]. rewrite E1. reflexivity. }
    destruct (JSON.code c =? 34)%N eqn:E2; [|discriminate].
    destruct (JSON.readString wide rest) as [[k r1]|] eqn:Ek; [|discriminate].
    pose proof (readString_length _ _ _ Ek) as Hk.
    pose proof (skipWs_length r1) as Hws1.
    destruct (JSON.skipWs r1) as [|colon r2] eqn:Es1; [discriminate|].
    simpl in Hws1.
    destruct (JSON.code colon =? 58)%N eqn:E3; [|discriminate].
    destruct (JSON.parseValue wide fuel r2) as [[v0 r3]|] eqn:Ev; [|discriminate].
    destruct (IHv _ _ _ Ev) as [Hv Hvfuel].
    pose proof (skipWs_length r3) as Hws3.
    destruct (JSON.skipWs r3) as [|d r4] eqn:Es3; [discriminate|].
    simpl in Hws3.
    destruct (JSON.code d =? 44)%N eqn:E4.
    { intros H. destruct (IHm _ _ _ _ _ H) as [Hm Hmfuel].
      pose proof (skipWs_length r4) as Hws4.
      split; [simpl; lia|].
      intros [|g] Hg; [simpl in Hg; lia|]. simpl in Hg.
      cbn [JSON.parseMembers]. rewrite E1, E2, Ek, Es1, E3.
      rewrite (Hvfuel g) by lia. rewrite Es3, E4. apply Hmfuel. lia. }
    destruct (JSON.code d =? 125)%N eqn:E5; [|discriminate].
    intros [= <- <-]. split; [simpl; lia|].
    intros [|g] Hg; [simpl in Hg; lia|]. simpl in Hg.
    cbn [JSON.parseMembers]. rewrite E1, E2, Ek, Es1, E3.
    rewrite (Hvfuel g) by lia. rewrite Es3, E4, E5. reflexivity.
  - intros s first acc v r. cbn [JSON.parseElements].
    destruct s as [|c rest]; [discriminate|].
    destruct (first && (JSON.code c =? 93)%N) eqn:E1.
    { intros [= <- <-]. split; [simpl; lia|].
      intros [|g] Hg; [simpl in Hg; lia|].
      cbn [JSON.parseElements]. rewrite E1. reflexivity. }
    destruct (JSON.parseValue wide fuel (String c rest)) as [[v0 r1]|] eqn:Ev;
      [|discriminate].
    destruct (IHv _ _ _ Ev) as [Hv Hvfuel]. simpl in Hv.
    pose proof (skipWs_length r1) as Hws1.
    destruct (JSON.skipWs r1) as [|d r2] eqn:Es1; [discriminate|].
    simpl in Hws1.
    destruct (JSON.code d =? 44)%N eqn:E4.
    { intros H. destruct (IHe _ _ _ _ _ H) as [He Hefuel].
      pose proof (skipWs_length r2) as Hws2.
      split; [simpl; lia|].
      intros [|g] Hg; [simpl in Hg; lia|]. simpl in Hg.
      cbn [JSON.parseElements]. rewrite E1.
      rewrite (Hvfuel g) by (simpl; lia). rewrite Es1, E4. apply Hefuel. lia. }
    destruct (JSON.code d =? 93)%N eqn:E5; [|discriminate].
    intros [= <- <-]. split; [simpl; lia|].
    intros [|g] Hg; [simpl in Hg; lia|]. simpl in Hg.
    cbn [JSON.parseElements]. rewrite E1.
    rewrite (Hvfuel g) by (simpl; lia). rewrite Es1, E4, E5. reflexivity.
Qed.

(** More fuel than [parseText] starts with changes nothing. *)
Lemma parseValue_fuel (text : string) (fuel : nat) :
  (String.length text < fuel)%nat ->
  JSON.parseValue wide fuel text
    = JSON.parseValue wide (S (String.length text)) text.
Proof.
  intros Hfuel.
  destruct (JSON.parseValue wide (S (String.length text)) text) as [x|] eqn:E.
  - apply (parseValue_more (S (String.length text))); [lia | exact E].
  - destruct (JSON.parseValue wide fuel text) as [[v r]|] eqn:E'; [|reflexivity].
    destruct (proj1 (parse_needs fuel) _ _ _ E') as [_ Hneeds].
    rewrite Hneeds in E by lia. discriminate E.
Qed.

End Fuel.

(** ** Keys that only the prototype chain answers *)
Section Lookups.

Lemma lowerUnit_not_upper (c : ascii) : isUpper (Js.lowerUnit c) = false.
Proof.
  destruct c as [b0 b1 b2 b3 b4 b5 b6 b7].
  destruct b0, b1, b2, b3, b4, b5, b6, b7; reflexivity.
Qed.

Lemma toLowerCase_noUpper (s : string) : noUpper (Js.toLowerCase s) = true.
Proof.
  induction s as [|c s IH]; [reflexivity|].
  unfold noUpper in *. simpl. rewrite lowerUnit_not_upper, IH. reflexivity.
Qed.

Lemma removeAll_noUpper (cls : ascii -> bool) (s : string) :
  noUpper s = true -> noUpper (Js.removeAll cls s) = true.
Proof.
  unfold noUpper. induction s as [|c s IH]; [reflexivity|].
  simpl. intros H. apply andb_true_iff in H. destruct H as [Hc Hs].
  destruct (cls c); simpl; [auto|]. rewrite Hc. auto.
Qed.

Lemma removeAll_clean (cls : ascii -> bool) (s : string) :
  forallb (fun c => negb (cls c)) (list_ascii_of_string (Js.removeAll cls s)) = true.
Proof.
  induction s as [|c s IH]; [reflexivity|].
  simpl. destruct (cls c) eqn:E; [exact IH|]. simpl. rewrite E, IH. reflexivity.
Qed.

Lemma ownProperty_In {A : Type} (tbl : list (string * A)) (key : string) (a : A) :
  Js.ownProperty tbl key = Some a -> In (key, a) tbl.
Proof.
  unfold Js.ownProperty.
  assert (H : forall acc,
            fold_left (fun acc kv => if String.eqb (fst kv) key
                                     then Some (snd kv) else acc) tbl acc = Some a ->
            acc = Some a \/ In (key, a) tbl).
  { induction tbl as [|[k v] tbl IH]; simpl; intros acc Hf; [left; exact Hf|].
    destruct (IH _ Hf) as [Hacc | Hin]; [|right; right; exact Hin].
    destruct (String.eqb k key) eqn:E.
    - apply String.eqb_eq in E. injection Hacc as ->. subst. right. left. reflexivity.
    - left. exact Hacc. }
  intros Hf. destruct (H None Hf) as [Hn | Hin]; [discriminate | exact Hin].
Qed.

Lemma ownProperty_None {A : Type} (tbl : list (string * A)) (key : string) :
  existsb (String.eqb key) (map fst tbl) = false -> Js.ownProperty tbl key = None.
Proof.
  intros Hno. destruct (Js.ownProperty tbl key) as [a|] eqn:E; [|reflexivity].
  apply ownProperty_In in E.
  assert (Hyes : existsb (String.eqb key) (map fst tbl) = true).
  { apply existsb_exists. exists key. split; [|apply String.eqb_refl].
    apply in_map_iff. exists (key, a). split; [reflexivity | exact E]. }
  congruence.
Qed.

(** The one name of [Object.prototype] a lower-cased key without
    underscores can be. *)
Lemma inherited_lower_plain (key : string) :
  noUpper key = true ->
  forallb (fun c => negb (Ascii.eqb c "_"%char)) (list_ascii_of_string key) = true ->
  Js.inherited key = if String.eqb key "constructor"
                     then Some (Js.Native "Object" true) else None.
Proof.
  intros Hup Hund. unfold Js.inherited.
  destruct (String.eqb key "constructor") eqn:E1; [reflexivity|].
  destruct (String.eqb key "__proto__") eqn:E2.
  { apply String.eqb_eq in E2. subst. discriminate Hund. }
  destruct (existsb (String.eqb key) Js.objectPrototypeKeys) eqn:E3; [|reflexivity].
  apply existsb_exists in E3. destruct E3 as (k & Hin & Hk).
  apply String.eqb_eq in Hk. subst k. exfalso.
  unfold Js.objectPrototypeKeys in Hin. simpl in Hin.
  repeat (destruct Hin as [<- | Hin]; [discriminate|]). contradiction.
Qed.

(** The two names a lower-cased key can be. *)
Lemma inherited_lower (key : string) :
  noUpper key = true ->
  Js.inherited key = if String.eqb key "constructor"
                     then Some (Js.Native "Object" true)
                     else if String.eqb key "__proto__"
                          then Some (Js.Native "Object.prototype" false)
                          else None.
Proof.
  intros Hup. unfold Js.inherited.
  destruct (String.eqb key "constructor") eqn:E1; [reflexivity|].
  destruct (String.eqb key "__proto__") eqn:E2; [reflexivity|].
  destruct (existsb (String.eqb key) Js.objectPrototypeKeys) eqn:E3; [|reflexivity].
  apply existsb_exists in E3. destruct E3 as (k & Hin & Hk).
  apply String.eqb_eq in Hk. subst k. exfalso.
  unfold Js.objectPrototypeKeys in Hin. simpl in Hin.
  repeat (destruct Hin as [<- | Hin]; [discriminate|]). contradiction.
Qed.

End Lookups.

(** ** The preset table and the normaliser *)
Section PresetFacts.
Import Presets.

(** Every key of the table normalises to itself. *)
Lemma normalizeProfileName_key :
  Forall (fun k => normalizeProfileName k = Js.Str k) presetKeys.
Proof. repeat constructor. Qed.

(** Every key has a display name, and that name normalises to the key. *)
Lemma normalizeProfileName_display :
  map fst presetDisplayNames = presetKeys /\
  Forall (fun kd => normalizeProfileName (snd kd) = Js.Str (fst kd))
         presetDisplayNames.
Proof. split; [reflexivity | repeat constructor]. Qed.

Lemma nameMap_values (m v : string) :
  Js.ownProperty nameMap m = Some v ->
  isPresetKey v = true /\ Js.truthy (Js.Str v) = true.
Proof.
  intros H. apply ownProperty_In in H. unfold nameMap in H. simpl in H.
  repeat (destruct H as [H | H]; [injection H as <- <-; split; reflexivity|]).
  contradiction.
Qed.

Lemma forallb_weaken {A : Type} (p q : A -> bool) (l : list A) :
  (forall a, p a = true -> q a = true) ->
  forallb p l = true -> forallb q l = true.
Proof.
  intros Hpq. induction l as [|a l IH]; simpl; [reflexivity|].
  intros H. apply andb_true_iff in H. destruct H as [Ha Hl].
  rewrite (Hpq a Ha), (IH Hl). reflexivity.
Qed.

(** Apart from the one stripped name [constructor], the normaliser answers
    [null] or a key of the table. *)
Lemma normalizeProfileName_range (name : string) :
  normalizeProfileName name = Js.Null \/
  (exists k, normalizeProfileName name = Js.Str k /\ isPresetKey k = true) \/
  (Js.removeAll nameNoise (Js.toLowerCase name) = "constructor" /\
   normalizeProfileName name = Js.Native "Object" true).
Proof.
  unfold normalizeProfileName, Js.lookup.
  set (m := Js.removeAll nameNoise (Js.toLowerCase name)).
  destruct (Js.ownProperty nameMap m) as [v|] eqn:Hown.
  - destruct (nameMap_values m v Hown) as [Hkey Htruthy].
    right. left. exists v. unfold Js.or. rewrite Htruthy. split; [reflexivity | exact Hkey].
  - assert (Hup : noUpper m = true)
      by apply removeAll_noUpper, toLowerCase_noUpper.
    assert (Hund : forallb (fun c => negb (Ascii.eqb c "_"%char))
                           (list_ascii_of_string m) = true).
    { apply (forallb_weaken (fun c => negb (nameNoise c))); [|apply removeAll_clean].
      intros c Hc. unfold nameNoise in Hc.
      destruct (Ascii.eqb c "_"); [|reflexivity].
      rewrite orb_true_r in Hc. discriminate. }
    rewrite (inherited_lower_plain m Hup Hund).
    destruct (String.eqb m "constructor") eqn:E.
    + right. right. apply String.eqb_eq in E. split; [exact E | reflexivity].
    + left. reflexivity.
Qed.

End PresetFacts.

(** C9, at the input where the code leaves it: the stripped name
    [constructor] is not a key of the preset table, yet the lookup in the
    local map finds the inherited [Object] constructor and the normaliser
    returns it, neither [null] nor a key. *)
Theorem C9_constructor_is_returned :
  Presets.normalizeProfileName "constructor" = Js.Native "Object" true /\
  Presets.isPresetKey "constructor" = false /\
  Js.ownProperty Presets.nameMap "constructor" = None.
Proof. repeat split. Qed.

(** ** The loop of the Turbo sequence *)
Section TurboFacts.
Import Browser Turbo.

Lemma step_stepLike (l : StepName) (fn : option RealFn) (args : list Js.Value) :
  stepLike l (step l fn args).
Proof.
  intros w. unfold step. destruct fn as [fn|].
  - destruct (isDesktop w).
    + destruct (optimizer w _ fn args (localStorage w)) as [resolved st].
      eexists _, _, _. split; [reflexivity|]. split; [|reflexivity].
      repeat split.
    + eexists _, _, _. split; [reflexivity|]. split; [|reflexivity].
      repeat split.
  - eexists _, _, _. split; [reflexivity|]. split; [|reflexivity].
    repeat split.
Qed.

Lemma failures_bounds (evs : list Event) :
  0 <= failures evs <= Z.of_nat (List.length evs).
Proof.
  unfold failures. split; [lia|].
  apply Nat2Z.inj_le. induction evs as [|[l c ok] evs IH]; simpl; [lia|].
  destruct ok; simpl; lia.
Qed.

Lemma runOperations_steps (labels : list StepName) (ops : list (M bool)) :
  Forall2 stepLike labels ops ->
  forall (s e : Z) (w : World),
  exists evs w',
    runOperations ops s e w
      = (Normal (s + Z.of_nat (List.length ops), e + failures evs), w') /\
    sameSources w w' /\
    trace w' = (trace w ++ evs)%list /\ map label_of evs = labels.
Proof.
  induction 1 as [|l op labels ops Hop _ IH]; intros s e w.
  - exists [], w. simpl. rewrite Z.add_0_r. unfold failures. simpl.
    rewrite Z.add_0_r, app_nil_r. repeat split.
  - destruct (Hop w) as (ok & call & w1 & Hrun & Hsame & Htrace).
    simpl runOperations. rewrite Hrun.
    destruct (IH (s + 1) (if ok then e else e + 1) w1)
      as (evs & w' & Hrest & Hsame' & Htrace' & Hlabels).
    exists (Stepped l call ok :: evs), w'. rewrite Hrest.
    split; [|split; [|split]].
    + assert (Hs : s + 1 + Z.of_nat (List.length ops)
                   = s + Z.of_nat (List.length (op :: ops)))
        by (change (List.length (op :: ops)) with (S (List.length ops)); lia).
      assert (He : (if ok then e else e + 1) + failures evs
                   = e + failures (Stepped l call ok :: evs))
        by (unfold failures; simpl; destruct ok; simpl; lia).
      rewrite Hs, He. reflexivity.
    + destruct Hsame as (? & ? & ? & ? & ?), Hsame' as (? & ? & ? & ? & ?).
      repeat split; congruence.
    + rewrite Htrace', Htrace, <- app_assoc. reflexivity.
    + simpl. now rewrite Hlabels.
Qed.

Lemma operations_stepLike (preset : Js.Value) :
  Forall2 stepLike turboSequence (operations preset).
Proof. unfold turboSequence, operations. repeat constructor; apply step_stepLike. Qed.

(** The run of [runTurbo] once the preset lookup is truthy. *)
Lemma runTurbo_runs (w : World) (id : string) :
  Js.truthy (Js.lookup Presets.toValue Presets.presets (normalizedKey id)) = true ->
  exists r w' evs,
    runTurbo id w = (Normal r, w') /\
    steps r = 7 /\
    errors r = failures evs /\
    tempGuard r = String.eqb (normalizedKey id) "battlefield6" /\
    trace w' = (trace w ++ evs)%list /\
    map label_of evs = turboSequence /\
    clock w' = clock w /\
    clockReads w' = (clockReads w + 4)%nat /\
    localStorage w' !! "gb.turbo"
      = Some (JSON.stringifyTurboData (clock w (clockReads w + 3)%nat)
                                      (normalizedKey id)) /\
    activeTelemetry w'
      = activeTelemetry (snd (activateTelemetryBoost (normalizedKey id)
                                (tempGuard r) w)).
Proof.
  intros Htruthy. unfold runTurbo.
  unfold bind at 1. unfold now at 1. rewrite Htruthy. cbv [negb].
  set (w0 := withClockReads (S (clockReads w)) w).
  set (preset := Js.lookup Presets.toValue Presets.presets (normalizedKey id)).
  destruct (runOperations_steps _ _ (operations_stepLike preset) 0 0 w0)
    as (evs & w1 & Hrun & (Hc & Hcr & Hr & Hrd & Hat) & Htrace & Hlabels).
  unfold bind at 1. rewrite Hrun.
  assert (Hguard : (if String.eqb (normalizedKey id) "battlefield6"
                    then true else false)
                   = String.eqb (normalizedKey id) "battlefield6")
    by (destruct (String.eqb _ _); reflexivity).
  rewrite Hguard.
  destruct (String.eqb (normalizedKey id) "battlefield6") eqn:Ebf.
  - eexists _, _, evs. split; [reflexivity|]. simpl.
    rewrite Hc, Hcr, Hr, Hrd. simpl.
    repeat split; try assumption; try reflexivity.
    + lia.
    + rewrite lookup_insert_eq. do 3 f_equal. f_equal. lia.
  - eexists _, _, evs. split; [reflexivity|]. simpl.
    rewrite Hc, Hcr, Hr, Hrd. simpl.
    repeat split; try assumption; try reflexivity.
    + lia.
    + rewrite lookup_insert_eq. do 3 f_equal. f_equal. lia.
Qed.

End TurboFacts.

(** ** The Turbo sequence *)
Section TurboRuns.
Import Browser Turbo.

Lemma preset_lookup_own (key : string) :
  Presets.isPresetKey key = true ->
  exists cfg, Js.ownProperty Presets.presets key = Some cfg /\
              Js.lookup Presets.toValue Presets.presets key = Presets.toValue cfg.
Proof.
  intros H. apply existsb_exists in H. destruct H as (k & Hin & Hk).
  apply String.eqb_eq in Hk. subst k.
  unfold Presets.presetKeys, Presets.presets in Hin. simpl in Hin.
  repeat (destruct Hin as [<- | Hin]; [eexists; split; reflexivity|]).
  contradiction.
Qed.

Lemma normalizedKey_noUpper (id : string) : noUpper (normalizedKey id) = true.
Proof. apply removeAll_noUpper, toLowerCase_noUpper. Qed.

(** The lookup [presets[profileKey]] is falsy exactly for the keys that
    are neither in the table nor one of the two inherited names. *)
Lemma preset_lookup_falsy (id : string) :
  Presets.isPresetKey (normalizedKey id) = false ->
  normalizedKey id <> "constructor" ->
  normalizedKey id <> "__proto__" ->
  Js.lookup Presets.toValue Presets.presets (normalizedKey id) = Js.Undefined.
Proof.
  intros Hkey Hc Hp. unfold Js.lookup.
  rewrite (ownProperty_None Presets.presets _ Hkey).
  rewrite (inherited_lower _ (normalizedKey_noUpper id)).
  destruct (String.eqb (normalizedKey id) "constructor") eqn:E1.
  { apply String.eqb_eq in E1. contradiction. }
  destruct (String.eqb (normalizedKey id) "__proto__") eqn:E2.
  { apply String.eqb_eq in E2. contradiction. }
  reflexivity.
Qed.

(** The first half of C3: on a key of the table the seven steps run in
    order, [steps] is 7, [errors] counts the steps that failed and lies
    between 0 and [steps], and [tempGuard] tells [battlefield6]. *)
Lemma runTurbo_preset_key (w : World) (id : string) :
  Presets.isPresetKey (normalizedKey id) = true ->
  exists r w' evs,
    runTurbo id w = (Normal r, w') /\
    trace w' = (trace w ++ evs)%list /\
    map label_of evs = turboSequence /\
    steps r = 7 /\
    errors r = failures evs /\
    0 <= errors r <= steps r /\
    (tempGuard r = true <-> normalizedKey id = "battlefield6").
Proof.
  intros Hkey. destruct (preset_lookup_own _ Hkey) as (cfg & _ & Hlook).
  assert (Htruthy : Js.truthy (Js.lookup Presets.toValue Presets.presets
                                 (normalizedKey id)) = true)
    by (rewrite Hlook; reflexivity).
  destruct (runTurbo_runs w id Htruthy)
    as (r & w' & evs & Hrun & Hsteps & Herr & Hguard & Htrace & Hlabels & _).
  exists r, w', evs. repeat split; try assumption.
  - rewrite Herr. apply failures_bounds.
  - rewrite Herr, Hsteps. pose proof (failures_bounds evs) as Hb.
    replace (List.length evs) with (List.length (map label_of evs)) in Hb
      by apply length_map.
    rewrite Hlabels in Hb. simpl in Hb. lia.
  - rewrite Hguard. apply String.eqb_eq.
  - rewrite Hguard. apply String.eqb_eq.
Qed.

(** The second half of C3 where it holds: a key that is neither in the
    table nor one of the two inherited names makes [runTurbo] throw before
    any step. *)
Lemma runTurbo_unknown_key (w : World) (id : string) :
  Presets.isPresetKey (normalizedKey id) = false ->
  normalizedKey id <> "constructor" ->
  normalizedKey id <> "__proto__" ->
  fst (runTurbo id w) = Throw (notFound id) /\
  trace (snd (runTurbo id w)) = trace w /\
  localStorage (snd (runTurbo id w)) = localStorage w.
Proof.
  intros Hkey Hc Hp. unfold runTurbo, bind, now.
  rewrite (preset_lookup_falsy id Hkey Hc Hp). simpl. repeat split.
Qed.

End TurboRuns.

(** C3, at the input where the code leaves it: [constructor] is not a key
    of the preset table, yet [presets[profileKey]] finds the inherited
    [Object] constructor, so [runTurbo] does not throw and runs all seven
    steps. *)
Theorem C3_inherited_key_runs :
  forall w : Browser.World,
    Presets.isPresetKey (Turbo.normalizedKey "constructor") = false /\
    exists r w' evs,
      Turbo.runTurbo "constructor" w = (Browser.Normal r, w') /\
      Turbo.steps r = 7 /\
      Browser.trace w' = (Browser.trace w ++ evs)%list /\
      map Browser.label_of evs = Browser.turboSequence.
Proof.
  intros w. split; [reflexivity|].
  destruct (runTurbo_runs w "constructor" eq_refl)
    as (r & w' & evs & Hrun & Hsteps & _ & _ & Htrace & Hlabels & _).
  exists r, w', evs. repeat split; assumption.
Qed.

(** ** Persistence of the last run *)
Section Persistence.
Import Browser Turbo.

(** A run that ends normally found a truthy preset. *)
Lemma runTurbo_normal_truthy (w w' : World) (id : string) (r : TurboResult) :
  runTurbo id w = (Normal r, w') ->
  Js.truthy (Js.lookup Presets.toValue Presets.presets (normalizedKey id)) = true.
Proof.
  unfold runTurbo. unfold bind at 1. unfold now at 1.
  destruct (Js.truthy _); [reflexivity|].
  cbv [negb throw]. discriminate.
Qed.

Lemma stringifyTurboData_not_empty (t : Z) (k : string) :
  String.eqb (JSON.stringifyTurboData t k) "" = false.
Proof. reflexivity. Qed.

Lemma getLastTurboData_stored (w : World) (t : Z) (k : string) :
  localStorage w !! "gb.turbo" = Some (JSON.stringifyTurboData t k) ->
  fst (getLastTurboData w) = Normal (JSON.turboDataValue t k).
Proof.
  intros H. unfold getLastTurboData, bind, getItem. rewrite H.
  rewrite stringifyTurboData_not_empty, parse_stringifyTurboData. reflexivity.
Qed.

End Persistence.

(** C4. After a run of [runTurbo] that ends normally, the storage key
    [gb.turbo] holds the JSON text of an object whose [lastTurboAt] is the
    last clock reading of the run and whose [lastTurboProfile] is the
    normalised key; [getLastTurboData] reads that object back, and answers
    [null] when the key is absent or its text is not of the JSON grammar,
    which is where [JSON.parse] raises. *)
Theorem C4_last_turbo_persisted :
  forall (w : Browser.World) (id : string) (r : Turbo.TurboResult)
         (w' : Browser.World),
    Turbo.runTurbo id w = (Browser.Normal r, w') ->
    let completedAt := Browser.clock w' (Nat.pred (Browser.clockReads w')) in
    let key := Turbo.normalizedKey id in
    Browser.localStorage w' !! "gb.turbo"
      = Some (JSON.stringifyTurboData completedAt key) /\
    JSON.parse (JSON.stringifyTurboData completedAt key)
      = Some (Js.Object [ ("lastTurboAt", Js.Number (Js.ofZ completedAt));
                          ("lastTurboProfile", Js.Str key) ]) /\
    fst (Turbo.getLastTurboData w')
      = Browser.Normal (Js.Object [ ("lastTurboAt", Js.Number (Js.ofZ completedAt));
                                    ("lastTurboProfile", Js.Str key) ]) /\
    (forall v : Browser.World,
        Browser.localStorage v !! "gb.turbo" = None ->
        fst (Turbo.getLastTurboData v) = Browser.Normal Js.Null) /\
    (forall (v : Browser.World) (text : string),
        Browser.localStorage v !! "gb.turbo" = Some text ->
        JSON.wellFormed text = false ->
        fst (Turbo.getLastTurboData v) = Browser.Normal Js.Null).
Proof.
  intros w id r w' Hrun. cbv zeta.
  pose proof (runTurbo_normal_truthy _ _ _ _ Hrun) as Htruthy.
  destruct (runTurbo_runs w id Htruthy)
    as (r0 & w0 & evs & Hrun0 & _ & _ & _ & _ & _ & Hclock & Hreads & Hstore & _).
  rewrite Hrun in Hrun0. injection Hrun0 as <- <-.
  rewrite Hclock, Hreads.
  replace (Nat.pred (Browser.clockReads w + 4)) with (Browser.clockReads w + 3)%nat
    by lia.
  split; [exact Hstore|].
  split; [apply parse_stringifyTurboData|].
  split; [apply getLastTurboData_stored, Hstore|].
  split.
  - intros v Hnone. unfold Turbo.getLastTurboData, Browser.bind, Browser.getItem.
    rewrite Hnone. reflexivity.
  - intros v text Hsome Hbad.
    unfold Turbo.getLastTurboData, Browser.bind, Browser.getItem.
    rewrite Hsome, (parse_wellFormed _ Hbad).
    destruct (String.eqb text ""); reflexivity.
Qed.

(** The witness of C4: a run on the display name [Battlefield 6] stores the
    key [battlefield6]. *)
Lemma C4_witness :
  Browser.localStorage (snd previewRun) !! "gb.turbo"
    = Some (JSON.stringifyTurboData 3 "battlefield6").
Proof.
  assert (Hrun : Turbo.runTurbo "Battlefield 6" previewWorld
                 = (Browser.Normal
                      {| Turbo.steps := 7; Turbo.errors := 0;
                         Turbo.tempGuard := true; Turbo.executionTime := 1;
                         Turbo.profile := Js.Str "Battlefield 6" |},
                    snd previewRun)).
  { vm_compute. reflexivity. }
  exact (proj1 (C4_last_turbo_persisted _ _ _ _ Hrun)).
Defined.

(** ** Rounding to the nearest double *)
Section DoubleFacts.
Import Double.

Lemma pow2_pos (k : Z) : (0 < 2 ^ k)%Q.
Proof. apply Qpower_0_lt. reflexivity. Qed.

Lemma pow2_plus (a b : Z) : (2 ^ (a + b) == 2 ^ a * 2 ^ b)%Q.
Proof. apply Qpower_plus. discriminate. Qed.

Lemma pow2_le (a b : Z) : a <= b -> (2 ^ a <= 2 ^ b)%Q.
Proof. intros H. apply Qpower_le_compat_l; [exact H | discriminate]. Qed.

Lemma pow2_lt (a b : Z) : a < b -> (2 ^ a < 2 ^ b)%Q.
Proof. intros H. apply Qpower_lt_compat_l; [exact H | reflexivity]. Qed.

Lemma pow2_lt_inv (a b : Z) : (2 ^ a < 2 ^ b)%Q -> a < b.
Proof. intros H. apply (Qpower_lt_compat_l_inv 2); [exact H | reflexivity]. Qed.

Lemma pow2_Z (a : Z) : 0 <= a -> (inject_Z (2 ^ a) == 2 ^ a)%Q.
Proof. intros H. rewrite Zpower_Qpower by exact H. reflexivity. Qed.

(** *** The nearest integer *)

Lemma floor_frac (y : Q) :
  (0 <= y - inject_Z (Qfloor y))%Q /\ (y - inject_Z (Qfloor y) < 1)%Q.
Proof.
  pose proof (Qfloor_le y) as H1. pose proof (Qlt_floor y) as H2.
  rewrite inject_Z_plus in H2. change (inject_Z 1) with 1%Q in H2.
  split; lra.
Qed.

Lemma nearestEven_bounds (y : Q) :
  Qfloor y <= nearestEven y <= Qfloor y + 1.
Proof.
  unfold nearestEven. cbv zeta.
  destruct (y - inject_Z (Qfloor y) ?= 1 # 2)%Q;
    [destruct (Z.even (Qfloor y))| |];
    lia.
Qed.

Lemma nearestEven_Z (z : Z) : nearestEven (inject_Z z) = z.
Proof.
  unfold nearestEven. rewrite Qfloor_Z.
  assert (H : (inject_Z z - inject_Z z ?= 1 # 2)%Q = Lt).
  { apply (proj1 (Qlt_alt _ _)). lra. }
  rewrite H. reflexivity.
Qed.

Lemma nearestEven_mono (x y : Q) :
  (x <= y)%Q -> nearestEven x <= nearestEven y.
Proof.
  intros Hxy. pose proof (Qfloor_resp_le _ _ Hxy) as Hf.
  destruct (Z.eq_dec (Qfloor x) (Qfloor y)) as [E | N].
  - unfold nearestEven. rewrite E.
    destruct (Qcompare_spec (x - inject_Z (Qfloor y)) (1 # 2)) as [Hx | Hx | Hx];
      destruct (Qcompare_spec (y - inject_Z (Qfloor y)) (1 # 2)) as [Hy | Hy | Hy];
      try destruct (Z.even _); try lia; exfalso; lra.
  - pose proof (nearestEven_bounds x). pose proof (nearestEven_bounds y). lia.
Qed.

(** *** The exponent *)

Lemma exponent_spec (q : Q) :
  (0 < q)%Q -> (2 ^ exponent q <= q)%Q /\ (q < 2 ^ (exponent q + 1))%Q.
Proof.
  intros Hq. destruct q as [n d]. unfold exponent. cbn [Qnum Qden].
  assert (Hn : 0 < n) by (unfold Qlt in Hq; simpl in Hq; lia).
  set (a := Z.log2 n). set (b := Z.log2 (Z.pos d)).
  assert (Ha0 : 0 <= a) by apply Z.log2_nonneg.
  assert (Hb0 : 0 <= b) by apply Z.log2_nonneg.
  destruct (Z.log2_spec n Hn) as [Ha1 Ha2]. fold a in Ha1, Ha2.
  destruct (Z.log2_spec (Z.pos d) (Pos2Z.is_pos d)) as [Hb1 Hb2].
  fold b in Hb1, Hb2.
  assert (Hq' : (n # d == inject_Z n / inject_Z (Z.pos d))%Q) by apply Qmake_Qdiv.
  assert (Hd : (0 < inject_Z (Z.pos d))%Q) by reflexivity.
  assert (Qa1 : (2 ^ a <= inject_Z n)%Q).
  { rewrite <- pow2_Z by exact Ha0. now rewrite <- Zle_Qle. }
  assert (Qa2 : (inject_Z n < 2 ^ (a + 1))%Q).
  { rewrite <- pow2_Z by lia. now rewrite <- Zlt_Qlt. }
  assert (Qb1 : (2 ^ b <= inject_Z (Z.pos d))%Q).
  { rewrite <- pow2_Z by exact Hb0. now rewrite <- Zle_Qle. }
  assert (Qb2 : (inject_Z (Z.pos d) < 2 ^ (b + 1))%Q).
  { rewrite <- pow2_Z by lia. now rewrite <- Zlt_Qlt. }
  (* 2^(a-b-1) < q < 2^(a-b+1) *)
  assert (Hlow : (2 ^ (a - b - 1) < n # d)%Q).
  { rewrite Hq'. apply Qlt_shift_div_l; [exact Hd|].
    apply Qlt_le_trans with (2 ^ (a - b - 1) * 2 ^ (b + 1))%Q.
    - apply Qmult_lt_l; [apply pow2_pos | exact Qb2].
    - rewrite <- pow2_plus. replace (a - b - 1 + (b + 1)) with a by lia.
      exact Qa1. }
  assert (Hhigh : (n # d < 2 ^ (a - b + 1))%Q).
  { rewrite Hq'. apply Qlt_shift_div_r; [exact Hd|].
    apply Qlt_le_trans with (2 ^ (a + 1))%Q; [exact Qa2|].
    replace (a + 1) with (a - b + 1 + b) by lia. rewrite pow2_plus.
    apply Qmult_le_l; [apply pow2_pos | exact Qb1]. }
  destruct (Qle_bool (2 ^ (a - b)) (n # d)) eqn:E.
  - apply Qle_bool_iff in E. split; assumption.
  - assert (Hlt : (n # d < 2 ^ (a - b))%Q).
    { apply Qnot_le_lt. intros H. apply Qle_bool_iff in H. congruence. }
    split; [apply Qlt_le_weak; exact Hlow|].
    replace (a - b - 1 + 1) with (a - b) by lia. exact Hlt.
Qed.

Lemma exponent_unique (q : Q) (e : Z) :
  (2 ^ e <= q)%Q -> (q < 2 ^ (e + 1))%Q -> exponent q = e.
Proof.
  intros H1 H2.
  assert (Hq : (0 < q)%Q) by (pose proof (pow2_pos e); lra).
  destruct (exponent_spec q Hq) as [H3 H4].
  assert (A : exponent q < e + 1) by (apply pow2_lt_inv; lra).
  assert (B : e < exponent q + 1) by (apply pow2_lt_inv; lra).
  lia.
Qed.

Lemma exponent_mono (x y : Q) :
  (0 < x)%Q -> (x <= y)%Q -> exponent x <= exponent y.
Proof.
  intros Hx Hxy. assert (Hy : (0 < y)%Q) by lra.
  destruct (exponent_spec x Hx) as [H1 _].
  destruct (exponent_spec y Hy) as [_ H2].
  assert (A : exponent x < exponent y + 1) by (apply pow2_lt_inv; lra).
  lia.
Qed.

(** *** Rounding *)

Lemma roundPos_pos (q : Q) :
  (0 < q)%Q ->
  roundPos q
  = (inject_Z (nearestEven (q / 2 ^ (Z.max (exponent q) (-1022) - 52)))
     * 2 ^ (Z.max (exponent q) (-1022) - 52))%Q.
Proof.
  intros Hq. unfold roundPos.
  destruct (Qle_bool q 0) eqn:E; [|reflexivity].
  apply Qle_bool_iff in E. exfalso. lra.
Qed.

Lemma roundPos_zero (q : Q) : (q <= 0)%Q -> roundPos q = 0%Q.
Proof.
  intros Hq. unfold roundPos.
  destruct (Qle_bool q 0) eqn:E; [reflexivity|].
  exfalso. apply Qle_bool_iff in Hq. congruence.
Qed.

Lemma scaled_div (q : Q) (k : Z) : (q / 2 ^ k * 2 ^ k == q)%Q.
Proof. pose proof (pow2_pos k). field. lra. Qed.

(** A value below [2^(e+1)] rounds to at most [2^(e+1)], on the grid of
    step [2^(e-52)]. *)
Lemma grid_le (q : Q) (e : Z) :
  (q <= 2 ^ (e + 1))%Q ->
  (inject_Z (nearestEven (q / 2 ^ (e - 52))) * 2 ^ (e - 52) <= 2 ^ (e + 1))%Q.
Proof.
  intros Hq. pose proof (pow2_pos (e - 52)) as Hk.
  assert (Hs : (q / 2 ^ (e - 52) <= inject_Z (2 ^ 53))%Q).
  { apply Qle_shift_div_r; [exact Hk|].
    rewrite (pow2_Z 53) by lia. rewrite <- pow2_plus.
    replace (53 + (e - 52)) with (e + 1) by lia. exact Hq. }
  pose proof (nearestEven_mono _ _ Hs) as Hn. rewrite nearestEven_Z in Hn.
  replace (e + 1) with (53 + (e - 52)) by lia. rewrite pow2_plus.
  apply Qmult_le_compat_r; [|lra].
  rewrite <- (pow2_Z 53) by lia. now rewrite <- Zle_Qle.
Qed.

Lemma grid_ge (q : Q) (e : Z) :
  (2 ^ e <= q)%Q ->
  (2 ^ e <= inject_Z (nearestEven (q / 2 ^ (e - 52))) * 2 ^ (e - 52))%Q.
Proof.
  intros Hq. pose proof (pow2_pos (e - 52)) as Hk.
  assert (Hs : (inject_Z (2 ^ 52) <= q / 2 ^ (e - 52))%Q).
  { apply Qle_shift_div_l; [exact Hk|].
    rewrite (pow2_Z 52) by lia. rewrite <- pow2_plus.
    replace (52 + (e - 52)) with e by lia. exact Hq. }
  pose proof (nearestEven_mono _ _ Hs) as Hn. rewrite nearestEven_Z in Hn.
  replace e with (52 + (e - 52)) at 1 by lia. rewrite pow2_plus.
  apply Qmult_le_compat_r; [|lra].
  rewrite <- (pow2_Z 52) by lia. now rewrite <- Zle_Qle.
Qed.

Lemma roundPos_nonneg (q : Q) : (0 <= roundPos q)%Q.
Proof.
  destruct (Qlt_le_dec 0 q) as [Hq | Hq].
  - rewrite (roundPos_pos q Hq).
    set (k := Z.max (exponent q) (-1022) - 52).
    pose proof (pow2_pos k) as Hk.
    apply Qmult_le_0_compat; [|lra].
    assert (H0 : (inject_Z 0 <= q / 2 ^ k)%Q).
    { apply Qle_shift_div_l; [exact Hk|]. change (inject_Z 0) with 0%Q. lra. }
    pose proof (nearestEven_mono _ _ H0) as Hn. rewrite nearestEven_Z in Hn.
    change 0%Q with (inject_Z 0). now rewrite <- Zle_Qle.
  - rewrite (roundPos_zero q Hq). lra.
Qed.

Lemma roundPos_mono (x y : Q) : (x <= y)%Q -> (roundPos x <= roundPos y)%Q.
Proof.
  intros Hxy. destruct (Qlt_le_dec 0 x) as [Hx | Hx].
  2:{ rewrite (roundPos_zero x Hx). apply roundPos_nonneg. }
  assert (Hy : (0 < y)%Q) by lra.
  rewrite (roundPos_pos x Hx), (roundPos_pos y Hy).
  pose proof (exponent_mono x y Hx Hxy) as He.
  destruct (exponent_spec x Hx) as [Hx1 Hx2].
  destruct (exponent_spec y Hy) as [Hy1 Hy2].
  set (ex := Z.max (exponent x) (-1022)).
  set (ey := Z.max (exponent y) (-1022)).
  destruct (Z.eq_dec ex ey) as [E | N].
  - rewrite E. pose proof (pow2_pos (ey - 52)) as Hk.
    apply Qmult_le_compat_r; [|lra].
    rewrite <- Zle_Qle. apply nearestEven_mono.
    apply Qle_shift_div_r; [exact Hk|]. rewrite scaled_div. exact Hxy.
  - assert (Hlt : ex < ey) by (unfold ex, ey in *; lia).
    assert (Hey : ey = exponent y) by (unfold ex, ey in *; lia).
    apply Qle_trans with (2 ^ (ex + 1))%Q.
    + apply grid_le. apply Qle_trans with (2 ^ (exponent x + 1))%Q; [lra|].
      apply pow2_le. unfold ex. lia.
    + apply Qle_trans with (2 ^ ey)%Q; [apply pow2_le; lia|].
      apply grid_ge. rewrite Hey. exact Hy1.
Qed.

Lemma round_nonneg_eq (q : Q) : (0 <= q)%Q -> round q = roundPos q.
Proof.
  intros Hq. unfold round. apply Qle_bool_iff in Hq. now rewrite Hq.
Qed.

(** Rounding keeps the order of non-negative values. *)
Lemma round_mono (x y : Q) :
  (0 <= x)%Q -> (x <= y)%Q -> (round x <= round y)%Q.
Proof.
  intros Hx Hxy. rewrite (round_nonneg_eq x Hx), (round_nonneg_eq y) by lra.
  now apply roundPos_mono.
Qed.

Lemma round_nonneg (q : Q) : (0 <= q)%Q -> (0 <= round q)%Q.
Proof. intros Hq. rewrite (round_nonneg_eq q Hq). apply roundPos_nonneg. Qed.

(** Equal values round alike. *)
Lemma round_comp (x y : Q) : (0 <= x)%Q -> (x == y)%Q -> (round x == round y)%Q.
Proof.
  intros Hx Hxy. apply Qle_antisym; apply round_mono; lra.
Qed.

(** The largest double below 1 is [1 - 2^-53]. *)
Lemma double_below_one (r : Q) :
  (0 <= r)%Q -> (r < 1)%Q -> (round r == r)%Q ->
  (r <= 1 - (1 # 9007199254740992))%Q.
Proof.
  intros H0 H1 Hd. destruct (Qlt_le_dec r (1 # 2)) as [Hhalf | Hhalf]; [lra|].
  assert (He : exponent r = -1).
  { apply exponent_unique; [exact Hhalf | exact H1]. }
  rewrite (round_nonneg_eq r H0), roundPos_pos in Hd by lra.
  rewrite He in Hd. change (Z.max (-1) (-1022) - 52) with (-53) in Hd.
  set (n := nearestEven (r / 2 ^ (-53))) in *.
  change (2 ^ (-53))%Q with (1 # 9007199254740992)%Q in Hd.
  assert (Hn : (inject_Z n < inject_Z 9007199254740992)%Q).
  { change (inject_Z 9007199254740992) with (9007199254740992 # 1)%Q. lra. }
  rewrite <- Zlt_Qlt in Hn.
  assert (Hn' : (inject_Z n <= inject_Z 9007199254740991)%Q)
    by (rewrite <- Zle_Qle; lia).
  change (inject_Z 9007199254740991) with (9007199254740991 # 1)%Q in Hn'.
  lra.
Qed.

End DoubleFacts.

Section DoubleBounds.
Import Double.

Lemma nearestEven_error (y : Q) :
  (y - (1 # 2) <= inject_Z (nearestEven y))%Q /\
  (inject_Z (nearestEven y) <= y + (1 # 2))%Q.
Proof.
  destruct (floor_frac y) as [H0 H1].
  unfold nearestEven. cbv zeta.
  destruct (Qcompare_spec (y - inject_Z (Qfloor y)) (1 # 2)) as [H | H | H];
    [destruct (Z.even (Qfloor y))| |];
    rewrite ?inject_Z_plus; change (inject_Z 1) with 1%Q; split; lra.
Qed.

(** Below 1 the rounding error is at most [2^-54]. *)
Lemma round_error_below_one (q : Q) :
  (0 <= q)%Q -> (q <= 1)%Q ->
  (q - (1 # 18014398509481984) <= round q)%Q /\
  (round q <= q + (1 # 18014398509481984))%Q.
Proof.
  intros H0 H1. destruct (Qlt_le_dec 0 q) as [Hpos | Hzero].
  2:{ rewrite (round_nonneg_eq q H0), (roundPos_zero q Hzero). split; lra. }
  destruct (Qlt_le_dec q 1) as [Hlt | Hge].
  2:{ assert (E : (round q == round 1)%Q) by (apply round_comp; lra).
      assert (E1 : (round 1 == 1)%Q) by (vm_compute; reflexivity).
      split; lra. }
  rewrite (round_nonneg_eq q H0), (roundPos_pos q Hpos).
  destruct (exponent_spec q Hpos) as [He _].
  assert (Hexp : exponent q < 0).
  { apply pow2_lt_inv. change (2 ^ 0)%Q with 1%Q. lra. }
  set (k := Z.max (exponent q) (-1022) - 52).
  assert (Hk : k <= -53) by (unfold k; lia).
  pose proof (pow2_pos k) as Hkpos.
  pose proof (pow2_le k (-53) Hk) as Hkle.
  change (2 ^ (-53))%Q with (1 # 9007199254740992)%Q in Hkle.
  destruct (nearestEven_error (q / 2 ^ k)) as [Hlo Hhi].
  pose proof (scaled_div q k) as Hs.
  set (y := (q / 2 ^ k)%Q) in *.
  set (n := inject_Z (nearestEven y)) in *.
  set (p := (2 ^ k)%Q) in *.
  assert (A : ((y - (1 # 2)) * p <= n * p)%Q)
    by (apply Qmult_le_compat_r; lra).
  assert (B : (n * p <= (y + (1 # 2)) * p)%Q)
    by (apply Qmult_le_compat_r; lra).
  split; lra.
Qed.

(** The integers up to [2^53] are doubles. *)
Lemma round_integer (x : Z) :
  0 <= x <= 9007199254740992 -> (round (inject_Z x) == inject_Z x)%Q.
Proof.
  intros [H0 H1].
  destruct (Z.eq_dec x 0) as [-> | Hx0]; [vm_compute; reflexivity|].
  destruct (Z.eq_dec x 9007199254740992) as [-> | Hx1]; [vm_compute; reflexivity|].
  assert (Hpos : (0 < inject_Z x)%Q)
    by (change 0%Q with (inject_Z 0); rewrite <- Zlt_Qlt; lia).
  rewrite round_nonneg_eq by lra. rewrite (roundPos_pos _ Hpos).
  destruct (exponent_spec _ Hpos) as [He1 He2].
  assert (Hlt53 : (inject_Z x < 2 ^ 53)%Q).
  { rewrite <- (pow2_Z 53) by lia. rewrite <- Zlt_Qlt.
    change (2 ^ 53) with 9007199254740992. lia. }
  assert (Hone : (2 ^ 0 <= inject_Z x)%Q).
  { change (2 ^ 0)%Q with (inject_Z 1). rewrite <- Zle_Qle. lia. }
  assert (Hhi : exponent (inject_Z x) < 53) by (apply pow2_lt_inv; lra).
  assert (Hlo : 0 < exponent (inject_Z x) + 1) by (apply pow2_lt_inv; lra).
  set (e := exponent (inject_Z x)) in *.
  replace (Z.max e (-1022)) with e by lia.
  pose proof (pow2_pos (e - 52)) as Hk.
  assert (Hunit : (2 ^ (52 - e) * 2 ^ (e - 52) == 1)%Q).
  { rewrite <- pow2_plus. replace (52 - e + (e - 52)) with 0 by lia.
    reflexivity. }
  assert (Hscaled : (inject_Z x / 2 ^ (e - 52) == inject_Z (x * 2 ^ (52 - e)))%Q).
  { rewrite inject_Z_mult, (pow2_Z (52 - e)) by lia.
    unfold Qdiv. apply Qmult_comp; [reflexivity|].
    replace (52 - e) with (- (e - 52)) by lia. now rewrite Qpower_opp. }
  assert (Hn : nearestEven (inject_Z x / 2 ^ (e - 52)) = x * 2 ^ (52 - e)).
  { apply Z.le_antisymm.
    - rewrite <- (nearestEven_Z (x * 2 ^ (52 - e))).
      apply nearestEven_mono. lra.
    - rewrite <- (nearestEven_Z (x * 2 ^ (52 - e))) at 1.
      apply nearestEven_mono. lra. }
  rewrite Hn, inject_Z_mult, (pow2_Z (52 - e)) by lia.
  rewrite <- Qmult_assoc, Hunit. ring.
Qed.

End DoubleBounds.

Section DoubleGrid.
Import Double.

(** A double of [2^e, 2^(e+1)) is a multiple of [2^(e-52)]. *)
Lemma double_grid (r : Q) (e : Z) :
  -1022 <= e -> (2 ^ e <= r)%Q -> (r < 2 ^ (e + 1))%Q -> (round r == r)%Q ->
  exists n : Z, (r == inject_Z n * 2 ^ (e - 52))%Q.
Proof.
  intros He H0 H1 Hd.
  assert (Hpos : (0 < r)%Q) by (pose proof (pow2_pos e); lra).
  rewrite round_nonneg_eq, (roundPos_pos r Hpos) in Hd by lra.
  rewrite (exponent_unique r e H0 H1) in Hd.
  replace (Z.max e (-1022)) with e in Hd by lia.
  eexists. symmetry. exact Hd.
Qed.

(** The two tests of the earlier engine, [r < 0.1] and
    [Math.floor(r * 40) + 60 > 80], come out the same whether the literal
    and the product are taken exactly or as doubles. *)
Lemma exact_tests_on_doubles (r : Q) :
  (0 <= r)%Q -> (r < 1)%Q -> (round r == r)%Q ->
  ((r < 1 # 10)%Q <-> (r < round (1 # 10))%Q) /\
  (Qfloor (mul r 40) + 60 >? 80) = (Qfloor (r * 40) + 60 >? 80).
Proof.
  intros H0 H1 Hd. split.
  - assert (Htenth : (1 # 10 < round (1 # 10))%Q) by (vm_compute; reflexivity).
    split; [intros H; lra|]. intros H.
    destruct (Qlt_le_dec r (1 # 16)) as [Hsmall | Hbig]; [lra|].
    assert (Hup : (r < 2 ^ (-4 + 1))%Q).
    { change (2 ^ (-4 + 1))%Q with (1 # 8)%Q.
      assert (Hr : (round (1 # 10) < 1 # 8)%Q) by (vm_compute; reflexivity).
      lra. }
    destruct (double_grid r (-4) ltac:(lia) Hbig Hup Hd) as [n Hn].
    change (2 ^ (-4 - 52))%Q with (1 # 72057594037927936)%Q in Hn.
    assert (Hval : (round (1 # 10) == 7205759403792794 # 72057594037927936)%Q)
      by (vm_compute; reflexivity).
    assert (Hlt : (inject_Z n < inject_Z 7205759403792794)%Q).
    { change (inject_Z 7205759403792794) with (7205759403792794 # 1)%Q. lra. }
    rewrite <- Zlt_Qlt in Hlt.
    assert (Hle : (inject_Z n <= inject_Z 7205759403792793)%Q)
      by (rewrite <- Zle_Qle; lia).
    change (inject_Z 7205759403792793) with (7205759403792793 # 1)%Q in Hle.
    lra.
  - assert (Hprod : (0 <= r * 40)%Q) by lra.
    assert (H21 : (round 21 == 21)%Q) by (vm_compute; reflexivity).
    assert (Hfloor : forall x : Q,
              (Qfloor x + 60 >? 80) = true <-> (21 <= x)%Q).
    { intros x. rewrite Z.gtb_ltb, Z.ltb_lt.
      pose proof (Qfloor_le x) as Hlo. pose proof (Qlt_floor x) as Hhi.
      rewrite inject_Z_plus in Hhi. change (inject_Z 1) with 1%Q in Hhi.
      split.
      - intros H.
        assert (Hq : (inject_Z 21 <= inject_Z (Qfloor x))%Q)
          by (rewrite <- Zle_Qle; lia).
        change (inject_Z 21) with 21%Q in Hq. lra.
      - intros H.
        assert (Hq : (inject_Z 20 < inject_Z (Qfloor x))%Q).
        { change (inject_Z 20) with 20%Q. lra. }
        rewrite <- Zlt_Qlt in Hq. lia. }
    assert (Hsame : (21 <= mul r 40)%Q <-> (21 <= r * 40)%Q).
    { unfold mul. split.
      - intros H. apply Qnot_lt_le. intros Hlt.
        assert (Hr : (r < 21 # 40)%Q) by lra.
        destruct (Qlt_le_dec r (1 # 2)) as [Hsmall | Hbig].
        + assert (Hle : (r * 40 <= 20)%Q) by lra.
          pose proof (round_mono _ _ Hprod Hle) as Hm.
          assert (H20 : (round 20 == 20)%Q) by (vm_compute; reflexivity).
          lra.
        + destruct (double_grid r (-1) ltac:(lia) Hbig H1 Hd) as [n Hn].
          change (2 ^ (-1 - 52))%Q with (1 # 9007199254740992)%Q in Hn.
          assert (Hnlt : (inject_Z n < inject_Z 4728779608739021)%Q).
          { change (inject_Z 4728779608739021) with (4728779608739021 # 1)%Q.
            lra. }
          rewrite <- Zlt_Qlt in Hnlt.
          assert (Hnle : (inject_Z n <= inject_Z 4728779608739020)%Q)
            by (rewrite <- Zle_Qle; lia).
          change (inject_Z 4728779608739020) with (4728779608739020 # 1)%Q in Hnle.
          assert (Hle : (r * 40 <= (4728779608739020 # 9007199254740992) * 40)%Q)
            by lra.
          pose proof (round_mono _ _ Hprod Hle) as Hm.
          assert (Hc : (round ((4728779608739020 # 9007199254740992) * 40) < 21)%Q)
            by (vm_compute; reflexivity).
          lra.
      - intros H. assert (H21' : (0 <= 21)%Q) by lra.
        pose proof (round_mono _ _ H21' H) as Hm. lra. }
    destruct (Qfloor (mul r 40) + 60 >? 80) eqn:E1;
      destruct (Qfloor (r * 40) + 60 >? 80) eqn:E2; try reflexivity.
    + apply Hfloor, Hsame, Hfloor in E1. congruence.
    + apply Hfloor, Hsame, Hfloor in E2. congruence.
Qed.

(** Rounding is seen by the floor: the double nearest to 0.6 times 5 is
    the double 3, while the exact product stays below 3. *)
Lemma rounded_product_example :
  Qfloor (mul (round (6 # 10)) 5) = 3 /\ Qfloor (round (6 # 10) * 5) = 2.
Proof. split; vm_compute; reflexivity. Qed.

End DoubleGrid.

(** ** The telemetry boost *)

Section Telemetry.
Import Browser Turbo.

Lemma calculateFpsBoost_table (profileKey : string) :
  calculateFpsBoost profileKey = fpsBoostTable profileKey.
Proof.
  unfold calculateFpsBoost, fpsBoostTable. simpl.
  destruct (String.eqb profileKey "esports"); [reflexivity|].
  destruct (String.eqb profileKey "battleroyale"); [reflexivity|].
  destruct (String.eqb profileKey "warzone") eqn:Ew.
  - apply String.eqb_eq in Ew. subst. reflexivity.
  - simpl.
    destruct (String.eqb profileKey "aaa"); [reflexivity|].
    destruct (String.eqb profileKey "battlefield6"); [reflexivity|].
    destruct (String.eqb profileKey "streamgame"); [reflexivity|].
    destruct (String.eqb profileKey "silent") eqn:Es.
    + apply String.eqb_eq in Es. subst. reflexivity.
    + destruct (String.eqb profileKey "arcriders"); reflexivity.
Qed.

(** [Math.floor(r * n)] for a draw [r] of [0, 1) and [n] one of the two
    factors of the source lies in [0, n - 1]: the product is rounded to a
    double, and the largest draw is [1 - 2^-53]. *)
Lemma floor_scaled (r : Q) (n : Z) :
  n = 5 \/ n = 3 ->
  (0 <= r)%Q -> (r < 1)%Q -> (Double.round r == r)%Q ->
  0 <= Qfloor (Double.mul r (inject_Z n)) <= n - 1.
Proof.
  intros Hn H0 H1 Hd.
  pose proof (double_below_one r H0 H1 Hd) as Hmax.
  assert (Hnpos : (0 < inject_Z n)%Q) by (destruct Hn as [-> | ->]; reflexivity).
  assert (Hprod : (0 <= r * inject_Z n)%Q) by (apply Qmult_le_0_compat; lra).
  unfold Double.mul. split.
  - rewrite <- (Qfloor_Z 0). apply Qfloor_resp_le.
    apply round_nonneg. exact Hprod.
  - assert (Hle : (Double.round (r * inject_Z n)
                   <= Double.round ((1 - (1 # 9007199254740992)) * inject_Z n))%Q).
    { apply round_mono; [exact Hprod|]. apply Qmult_le_compat_r; lra. }
    assert (Hc : (Double.round ((1 - (1 # 9007199254740992)) * inject_Z n)
                  < inject_Z n)%Q)
      by (destruct Hn as [-> | ->]; vm_compute; reflexivity).
    pose proof (Qfloor_le (Double.round (r * inject_Z n))) as Hfl.
    assert (Hlt : (inject_Z (Qfloor (Double.round (r * inject_Z n)))
                   < inject_Z n)%Q) by lra.
    rewrite <- Zlt_Qlt in Hlt. lia.
Qed.

(** The boost [activateTelemetryBoost] stores. *)
Lemma activateTelemetryBoost_stores (w : World) (profileKey : string)
      (guard : bool) :
  activeTelemetry (snd (activateTelemetryBoost profileKey guard w))
    = Some {| fpsBoost := calculateFpsBoost profileKey;
              ramReduction :=
                Qfloor (Double.mul (random w (randomDraws w)) 5) + 8;
              tempReduction :=
                if guard
                then Qfloor (Double.mul (random w (S (randomDraws w))) 3) + 2
                else 0;
              duration := 60000 |}.
Proof. destruct guard; reflexivity. Qed.

End Telemetry.

(** C5. With draws that are doubles of [0, 1), [activateTelemetryBoost]
    stores a boost whose [fpsBoost] is the fixed value of the profile,
    whose [ramReduction] lies between 8 and 12, whose [tempReduction] lies
    between 2 and 4 under [tempGuard] and is 0 otherwise, and whose
    [duration] is 60000; and the boost a run of [runTurbo] leaves behind is
    the one the key, the flag and the random source give, whatever its
    steps did. *)
Theorem C5_telemetry_boost :
  forall (w : Browser.World) (profileKey : string) (guard : bool),
    Browser.fairRandom w ->
    Browser.doubleDraws w ->
    (exists b,
        Browser.activeTelemetry
          (snd (Turbo.activateTelemetryBoost profileKey guard w)) = Some b /\
        Browser.fpsBoost b = fpsBoostTable profileKey /\
        8 <= Browser.ramReduction b <= 12 /\
        (if guard then 2 <= Browser.tempReduction b <= 4
         else Browser.tempReduction b = 0) /\
        Browser.duration b = 60000) /\
    (forall (id : string) (r : Turbo.TurboResult) (w' : Browser.World),
        Turbo.runTurbo id w = (Browser.Normal r, w') ->
        Browser.activeTelemetry w'
          = Browser.activeTelemetry
              (snd (Turbo.activateTelemetryBoost (Turbo.normalizedKey id)
                      (Turbo.tempGuard r) w))).
Proof.
  intros w profileKey guard Hfair Hdouble. split.
  - destruct (Hfair (Browser.randomDraws w)) as [Hr0 Hr1].
    destruct (Hfair (S (Browser.randomDraws w))) as [Hs0 Hs1].
    pose proof (floor_scaled _ 5 (or_introl eq_refl) Hr0 Hr1 (Hdouble _)) as Hram.
    pose proof (floor_scaled _ 3 (or_intror eq_refl) Hs0 Hs1 (Hdouble _)) as Htemp.
    change (inject_Z 5) with 5%Q in Hram. change (inject_Z 3) with 3%Q in Htemp.
    rewrite activateTelemetryBoost_stores. eexists. split; [reflexivity|].
    cbn [Browser.fpsBoost Browser.ramReduction Browser.tempReduction
         Browser.duration].
    split; [apply calculateFpsBoost_table|].
    split; [lia|]. split; [destruct guard; lia | reflexivity].
  - intros id r w' Hrun.
    pose proof (runTurbo_normal_truthy _ _ _ _ Hrun) as Htruthy.
    destruct (runTurbo_runs w id Htruthy)
      as (r0 & w0 & evs & Hrun0 & _ & _ & _ & _ & _ & _ & _ & _ & Htel).
    rewrite Hrun in Hrun0. injection Hrun0 as <- <-. exact Htel.
Qed.

(** The witness of C5: the preview page, whose draws are all 0, and the
    boost its run on [Battlefield 6] leaves behind. *)
Lemma C5_witness :
  Browser.fairRandom previewWorld /\
  Browser.doubleDraws previewWorld /\
  (exists b,
    Browser.activeTelemetry
      (snd (Turbo.activateTelemetryBoost "battlefield6" true previewWorld)) = Some b /\
    Browser.fpsBoost b = fpsBoostTable "battlefield6" /\
    8 <= Browser.ramReduction b <= 12 /\
    2 <= Browser.tempReduction b <= 4 /\
    Browser.duration b = 60000) /\
  Browser.activeTelemetry (snd previewRun)
    = Some {| Browser.fpsBoost := 6; Browser.ramReduction := 8;
              Browser.tempReduction := 2; Browser.duration := 60000 |}.
Proof.
  assert (Hfair : Browser.fairRandom previewWorld).
  { intros n. simpl. split; [apply Qle_refl | reflexivity]. }
  assert (Hdouble : Browser.doubleDraws previewWorld).
  { intros n. reflexivity. }
  assert (Hrun : Turbo.runTurbo "Battlefield 6" previewWorld
                 = (Browser.Normal
                      {| Turbo.steps := 7; Turbo.errors := 0;
                         Turbo.tempGuard := true; Turbo.executionTime := 1;
                         Turbo.profile := Js.Str "Battlefield 6" |},
                    snd previewRun)).
  { vm_compute. reflexivity. }
  split; [exact Hfair|]. split; [exact Hdouble|]. split.
  - exact (proj1 (C5_telemetry_boost previewWorld "battlefield6" true
                    Hfair Hdouble)).
  - exact (proj2 (C5_telemetry_boost previewWorld "battlefield6" true
                    Hfair Hdouble) _ _ _ Hrun).
Defined.

(** ** Simulated failures *)
Section Simulation.
Import Browser.

(** Closes the four directions once the draw is compared with 0.1. *)
Ltac settle_draw :=
  match goal with
  | Hlt : (?r < 1 # 10)%Q |- _ =>
      split; split;
      [ intros _; exact Hlt | reflexivity
      | discriminate | intros Hn; contradiction ]
  | Hge : (1 # 10 <= ?r)%Q |- _ =>
      split; split;
      [ discriminate | intros Hlt; exfalso; exact (Qlt_not_le _ _ Hlt Hge)
      | intros _ Hlt; exact (Qlt_not_le _ _ Hlt Hge) | reflexivity ]
  end.

Lemma shouldFail_draw (w : World) :
  fst (LegacyTurbo.shouldFail w) = Normal true
    <-> (random w (randomDraws w) < 1 # 10)%Q.
Proof.
  unfold LegacyTurbo.shouldFail, bind, mathRandom, ret. simpl.
  destruct (Qlt_le_dec (random w (randomDraws w)) (1 # 10)) as [Hlt | Hge].
  - split; [intros _; exact Hlt | reflexivity].
  - split; [discriminate | intros Hlt; exfalso; exact (Qlt_not_le _ _ Hlt Hge)].
Qed.

Lemma simulated_failsOnDraw (min max : Z) :
  failsOnDraw 1 (LegacyTurbo.simulated min max).
Proof.
  intros w. unfold failsOnDrawAt, LegacyTurbo.simulated, LegacyTurbo.randomDelay,
    LegacyTurbo.delay, LegacyTurbo.shouldFail, bind, mathRandom, ret.
  cbn -[Qfloor Qmult Z.add Qlt_le_dec].
  rewrite Nat.add_1_r.
  destruct (Qlt_le_dec (random w (S (randomDraws w))) (1 # 10)) as [Hlt | Hge];
    cbn [fst]; settle_draw.
Qed.

Lemma setFanSpeed_draws (fanSpeed : Z) (guard : bool) (w : World) :
  let currentTemp := Qfloor (random w (S (randomDraws w)) * 40) + 60 in
  if guard && (currentTemp >? 80)
  then fst (LegacyTurbo.setFanSpeed fanSpeed guard w) = Normal true
  else failsOnDrawAt 2 (LegacyTurbo.setFanSpeed fanSpeed guard) w.
Proof.
  cbv zeta. unfold failsOnDrawAt, LegacyTurbo.setFanSpeed,
    LegacyTurbo.randomDelay, LegacyTurbo.delay, LegacyTurbo.shouldFail,
    bind, mathRandom, ret. cbn -[Qfloor Qmult Z.add Z.gtb Qlt_le_dec].
  destruct (guard && (Qfloor (random w (S (randomDraws w)) * 40) + 60 >? 80));
    [reflexivity|].
  replace (randomDraws w + 2)%nat with (S (S (randomDraws w))) by lia.
  cbn -[Qfloor Qmult Z.add Z.gtb Qlt_le_dec].
  destruct (Qlt_le_dec (random w (S (S (randomDraws w)))) (1 # 10)) as [Hlt | Hge];
    cbn [fst]; settle_draw.
Qed.

Lemma step_simulated (label : StepName) (fn : option RealFn)
      (args : list Js.Value) (w : World) :
  isDesktop w = false ->
  fst (Turbo.step label fn args w) = Normal true /\
  randomDraws (snd (Turbo.step label fn args w)) = randomDraws w.
Proof.
  intros Hpreview. unfold Turbo.step. rewrite Hpreview.
  destruct fn; split; reflexivity.
Qed.

End Simulation.

(** C6, as the code has it. In the earlier engine [shouldFail] reports a
    failure exactly when its draw is below 0.1; the seven operations that
    wait and then draw fail exactly when that draw is below 0.1; the fan
    step does so unless the temperature guard fires, in which case it
    succeeds without a draw. In the current engine a simulated step takes
    no draw and always succeeds. *)
Theorem C6_simulated_failure_rate :
  (forall w : Browser.World,
      fst (LegacyTurbo.shouldFail w) = Browser.Normal true
        <-> (Browser.random w (Browser.randomDraws w) < 1 # 10)%Q) /\
  (forall behavior priority powerMode gpuBoost : string,
      Forall (failsOnDraw 1)
        [ LegacyTurbo.freeRam;
          LegacyTurbo.closeBackgroundApps behavior;
          LegacyTurbo.setCpuPriority priority;
          LegacyTurbo.applyPowerPlan powerMode;
          LegacyTurbo.applyGpuBoost gpuBoost;
          LegacyTurbo.cleanTempCaches;
          LegacyTurbo.networkBoostBasic ]) /\
  (forall (fanSpeed : Z) (guard : bool) (w : Browser.World),
      let currentTemp :=
        Qfloor (Browser.random w (S (Browser.randomDraws w)) * 40) + 60 in
      if guard && (currentTemp >? 80)
      then fst (LegacyTurbo.setFanSpeed fanSpeed guard w) = Browser.Normal true
      else failsOnDrawAt 2 (LegacyTurbo.setFanSpeed fanSpeed guard) w) /\
  (forall (label : Browser.StepName) (fn : option Browser.RealFn)
          (args : list Js.Value) (w : Browser.World),
      Browser.isDesktop w = false ->
      fst (Turbo.step label fn args w) = Browser.Normal true /\
      Browser.randomDraws (snd (Turbo.step label fn args w))
        = Browser.randomDraws w).
Proof.
  split; [exact shouldFail_draw|].
  split.
  { intros.
    unfold LegacyTurbo.freeRam, LegacyTurbo.closeBackgroundApps,
      LegacyTurbo.setCpuPriority, LegacyTurbo.applyPowerPlan,
      LegacyTurbo.applyGpuBoost, LegacyTurbo.cleanTempCaches,
      LegacyTurbo.networkBoostBasic.
    repeat (apply List.Forall_cons; [apply simulated_failsOnDraw|]).
    apply List.Forall_nil. }
  split; [exact setFanSpeed_draws | exact step_simulated].
Qed.

(** The counterexample to C6 as stated: every draw of the preview page is 0,
    below 0.1, and yet the simulated step of the current engine succeeds,
    takes no draw, and a whole run counts no error; in the earlier engine
    the fan step under a firing guard succeeds although the next draw is
    below 0.1. *)
Lemma C6_counterexample :
  (Browser.random previewWorld (Browser.randomDraws previewWorld) < 1 # 10)%Q /\
  Browser.isDesktop previewWorld = false /\
  fst (Turbo.step Browser.FreeingRam (Some Browser.FreeRam) [] previewWorld)
    = Browser.Normal true /\
  Browser.randomDraws
    (snd (Turbo.step Browser.FreeingRam (Some Browser.FreeRam) [] previewWorld))
    = 0%nat /\
  fst (Turbo.runTurbo "esports" previewWorld)
    = Browser.Normal {| Turbo.steps := 7; Turbo.errors := 0;
                        Turbo.tempGuard := false; Turbo.executionTime := 1;
                        Turbo.profile := Js.Str "E-Sports" |} /\
  (Browser.random hotWorld 2 < 1 # 10)%Q /\
  fst (LegacyTurbo.setFanSpeed 100 true hotWorld) = Browser.Normal true.
Proof.
  repeat split; vm_compute; reflexivity.
Qed.

(** * Properties of the rest of the engine *)

(** ** The logger *)
Section LoggerFacts.

Lemma lastN_all {A : Type} (n : nat) (l : list A) :
  (List.length l <= n)%nat -> lastN n l = l.
Proof.
  intros H. unfold lastN. replace (List.length l - n)%nat with 0%nat by lia.
  reflexivity.
Qed.

Lemma lastN_length {A : Type} (n : nat) (l : list A) :
  List.length (lastN n l) = Nat.min n (List.length l).
Proof. unfold lastN. rewrite length_skipn. lia. Qed.

Lemma slice_from_end {A : Type} (n : Z) (l : list A) :
  0 < n -> Arr.slice (- n) l = lastN (Z.to_nat n) l.
Proof.
  intros Hn. unfold Arr.slice, lastN.
  assert (Hneg : (- n <? 0) = true) by (apply Z.ltb_lt; lia).
  rewrite Hneg. f_equal. lia.
Qed.

(** Cutting to the last [n] early does not change the last [n] of what
    follows. *)
Lemma lastN_app_lastN {A : Type} (n : nat) (a b : list A) :
  lastN n (lastN n a ++ b) = lastN n (a ++ b).
Proof.
  destruct (Nat.le_gt_cases (List.length a) n) as [Hle | Hgt].
  - rewrite (lastN_all n a Hle). reflexivity.
  - unfold lastN at 1 3. rewrite !length_app, lastN_length.
    unfold lastN.
    replace (Nat.min n (List.length a) + List.length b - n)%nat
      with (List.length b) by lia.
    replace (List.length a + List.length b - n)%nat
      with (List.length b + (List.length a - n))%nat by lia.
    rewrite <- (skipn_skipn (List.length b) (List.length a - n) (a ++ b)).
    rewrite (skipn_app (List.length a - n) a b).
    replace (List.length a - n - List.length a)%nat with 0%nat by lia.
    reflexivity.
Qed.

(** One call of [log] keeps the last hundred of the buffer and the new
    entry. *)
Lemma log_lastN (ts msg : string) (ty : Logger.LogType)
      (logs : list Logger.LogEntry) :
  Logger.log ts msg ty logs = lastN 100 (logs ++ [entryOf (ts, msg, ty)]).
Proof.
  unfold Logger.log, Logger.maxLogs, entryOf. cbn [fst snd].
  set (all := (logs ++ _)%list).
  destruct (Z.of_nat (List.length all) >? 100) eqn:E.
  - rewrite slice_from_end by lia. reflexivity.
  - symmetry. apply lastN_all. rewrite Z.gtb_ltb in E. apply Z.ltb_ge in E. lia.
Qed.

End LoggerFacts.

(** X1. The logger is a window over its calls: after any sequence of calls
    of [log] on a buffer of at most 100 entries, the buffer holds exactly
    the last 100 of the old entries followed by the new ones, in order, and
    never more than 100. *)
Theorem X1_logger_keeps_last_hundred :
  forall (logs : list Logger.LogEntry) (calls : list LogCall),
    (List.length logs <= 100)%nat ->
    logAll calls logs = lastN 100 (logs ++ map entryOf calls) /\
    (List.length (logAll calls logs) <= 100)%nat.
Proof.
  intros logs calls Hlen.
  assert (Heq : logAll calls logs = lastN 100 (logs ++ map entryOf calls)).
  { revert logs Hlen. induction calls as [|[[ts msg] ty] calls IH];
      intros logs Hlen.
    - simpl. rewrite app_nil_r. symmetry. apply lastN_all, Hlen.
    - simpl logAll. cbn [fst snd]. rewrite log_lastN.
      rewrite IH by (rewrite lastN_length; lia).
      rewrite lastN_app_lastN, <- app_assoc. reflexivity. }
  split; [exact Heq|]. rewrite Heq, lastN_length. lia.
Qed.

(** The witness of X1: three calls on the empty buffer. *)
Lemma X1_witness :
  logAll [("10:00:00", "a", Logger.info); ("10:00:01", "b", Logger.error);
          ("10:00:02", "c", Logger.success)] []
    = [ entryOf ("10:00:00", "a", Logger.info);
        entryOf ("10:00:01", "b", Logger.error);
        entryOf ("10:00:02", "c", Logger.success) ].
Proof.
  assert (Hlen : (List.length (@nil Logger.LogEntry) <= 100)%nat)
    by (simpl; lia).
  exact (proj1 (X1_logger_keeps_last_hundred [] _ Hlen)).
Defined.

(** X2. [getRecentLogs(count)] returns the last [count] entries (all of
    them when there are fewer) for a positive [count]; for [count = 0] it
    returns the whole buffer, not an empty list; for a negative [count] it
    drops the first [-count] entries. *)
Theorem X2_getRecentLogs_edges :
  forall (logs : list Logger.LogEntry) (count : Z),
    (0 < count ->
       Logger.getRecentLogs count logs = lastN (Z.to_nat count) logs /\
       List.length (Logger.getRecentLogs count logs)
         = Nat.min (Z.to_nat count) (List.length logs)) /\
    (count = 0 -> Logger.getRecentLogs count logs = logs) /\
    (count < 0 ->
       Logger.getRecentLogs count logs = skipn (Z.to_nat (- count)) logs).
Proof.
  intros logs count. unfold Logger.getRecentLogs. split; [|split].
  - intros Hpos. rewrite slice_from_end by exact Hpos.
    split; [reflexivity | apply lastN_length].
  - intros ->. unfold Arr.slice. simpl. rewrite Z.min_l by lia. reflexivity.
  - intros Hneg. unfold Arr.slice.
    assert (Hge : (- count <? 0) = false) by (apply Z.ltb_ge; lia).
    rewrite Hge.
    destruct (Z.le_gt_cases (- count) (Z.of_nat (List.length logs))) as [H | H].
    + rewrite Z.min_l by exact H. reflexivity.
    + rewrite Z.min_r by lia. rewrite Nat2Z.id.
      rewrite !skipn_all2; [reflexivity | lia | lia].
Qed.

(** ** Reading the boost back *)
Section TelemetryReadout.
Import Browser.

(** A stored amount times the multiplier, as a double. *)
Lemma scaled_between (x : Z) (m : Q) :
  0 <= x <= 9007199254740992 -> (0 < m)%Q -> (m <= 1)%Q ->
  (0 <= Double.mul (inject_Z x) m)%Q /\
  (Double.mul (inject_Z x) m <= inject_Z x)%Q.
Proof.
  intros Hx Hm0 Hm1.
  assert (Hq : (0 <= inject_Z x)%Q)
    by (change 0%Q with (inject_Z 0); rewrite <- Zle_Qle; lia).
  assert (Hprod : (0 <= inject_Z x * m)%Q)
    by (apply Qmult_le_0_compat; [exact Hq | apply Qlt_le_weak, Hm0]).
  assert (Hle : (inject_Z x * m <= inject_Z x)%Q).
  { rewrite <- (Qmult_1_r (inject_Z x)) at 2.
    rewrite (Qmult_comm (inject_Z x) m), (Qmult_comm (inject_Z x) 1).
    apply Qmult_le_compat_r; assumption. }
  unfold Double.mul. split.
  - apply round_nonneg, Hprod.
  - pose proof (round_mono _ _ Hprod Hle) as Hr.
    pose proof (round_integer x Hx) as Hi. lra.
Qed.

(** The quotient [t / 5000] of the fade window, as a double. *)
Lemma fade_progress (t : Z) :
  0 <= t < 5000 ->
  (0 <= Double.div (inject_Z t) (inject_Z 5000))%Q /\
  (Double.div (inject_Z t) (inject_Z 5000)
     <= Double.div (inject_Z 4999) (inject_Z 5000))%Q /\
  (inject_Z t / inject_Z 5000 - (1 # 18014398509481984)
     <= Double.div (inject_Z t) (inject_Z 5000))%Q /\
  (Double.div (inject_Z t) (inject_Z 5000)
     <= inject_Z t / inject_Z 5000 + (1 # 18014398509481984))%Q.
Proof.
  intros [Hlo Hhi].
  assert (H0 : (0 <= inject_Z t)%Q)
    by (change 0%Q with (inject_Z 0); rewrite <- Zle_Qle; lia).
  assert (H1 : (inject_Z t <= inject_Z 4999)%Q) by (rewrite <- Zle_Qle; lia).
  assert (Hp : (0 < inject_Z 5000)%Q) by reflexivity.
  assert (Hq0 : (0 <= inject_Z t / inject_Z 5000)%Q).
  { apply Qle_shift_div_l; [exact Hp|]. rewrite Qmult_0_l. exact H0. }
  assert (Hq1 : (inject_Z t / inject_Z 5000 <= inject_Z 4999 / inject_Z 5000)%Q).
  { unfold Qdiv. apply Qmult_le_compat_r; [exact H1 | discriminate]. }
  assert (Hq2 : (inject_Z 4999 / inject_Z 5000 <= 1)%Q) by discriminate.
  unfold Double.div.
  split; [apply round_nonneg, Hq0|].
  split; [apply round_mono; assumption|].
  apply round_error_below_one; [exact Hq0 | lra].
Qed.

(** The multiplier of the fade window lies in (0, 1], and within [2^-53]
    of the line from 1 to 0. *)
Lemma fade_multiplier (t : Z) :
  0 <= t < 5000 ->
  (0 < fadeMultiplier t)%Q /\ (fadeMultiplier t <= 1)%Q /\
  (1 - inject_Z t / inject_Z 5000 - (1 # 9007199254740992)
     <= fadeMultiplier t)%Q /\
  (fadeMultiplier t
     <= 1 - inject_Z t / inject_Z 5000 + (1 # 9007199254740992))%Q.
Proof.
  intros Ht. destruct (fade_progress t Ht) as (Hp0 & Hp1 & Hlo & Hhi).
  assert (Hlast : (Double.div (inject_Z 4999) (inject_Z 5000) < 1)%Q)
    by (vm_compute; reflexivity).
  assert (Hfloor : (0 < Double.sub 1 (Double.div (inject_Z 4999) (inject_Z 5000)))%Q)
    by (vm_compute; reflexivity).
  assert (Hone : (Double.round 1 == 1)%Q) by (vm_compute; reflexivity).
  unfold fadeMultiplier.
  set (p := Double.div (inject_Z t) (inject_Z 5000)) in *.
  set (c := Double.div (inject_Z 4999) (inject_Z 5000)) in *.
  unfold Double.sub in *.
  assert (Hd0 : (0 <= 1 - c)%Q) by lra.
  assert (Hd1 : (1 - c <= 1 - p)%Q) by lra.
  assert (Hd2 : (0 <= 1 - p)%Q) by lra.
  assert (Hd3 : (1 - p <= 1)%Q) by lra.
  pose proof (round_mono _ _ Hd0 Hd1) as Hm0.
  pose proof (round_mono _ _ Hd2 Hd3) as Hm1.
  destruct (round_error_below_one (1 - p) Hd2 Hd3) as [He0 He1].
  repeat split; lra.
Qed.

(** The multiplier does not grow with time. *)
Lemma fade_multiplier_falls (t later : Z) :
  0 <= t -> t <= later -> later < 5000 ->
  (fadeMultiplier later <= fadeMultiplier t)%Q.
Proof.
  intros H0 Hle Hlt.
  destruct (fade_progress later (conj (Z.le_trans _ _ _ H0 Hle) Hlt))
    as (_ & Hp1 & _).
  assert (Hlast : (Double.div (inject_Z 4999) (inject_Z 5000) < 1)%Q)
    by (vm_compute; reflexivity).
  assert (Hq0 : (0 <= inject_Z t / inject_Z 5000)%Q).
  { apply Qle_shift_div_l; [reflexivity|]. rewrite Qmult_0_l.
    change 0%Q with (inject_Z 0). rewrite <- Zle_Qle. exact H0. }
  assert (Hq1 : (inject_Z t / inject_Z 5000 <= inject_Z later / inject_Z 5000)%Q).
  { unfold Qdiv. apply Qmult_le_compat_r; [|discriminate].
    rewrite <- Zle_Qle. exact Hle. }
  pose proof (round_mono _ _ Hq0 Hq1) as Hp.
  unfold fadeMultiplier, Double.sub. fold (Double.div (inject_Z t) (inject_Z 5000)) in Hp.
  fold (Double.div (inject_Z later) (inject_Z 5000)) in Hp.
  apply round_mono; lra.
Qed.

End TelemetryReadout.

(** The read-out by the time elapsed since the boost started. *)
Lemma readout_by_elapsed :
  forall (w : Browser.World) (active : Browser.TelemetryBoost),
    Browser.activeTelemetry w = Some active ->
    let elapsed :=
      Browser.clock w (Browser.clockReads w) - Browser.telemetryStartTime w in
    let d := Browser.duration active in
    let answer := TurboTelemetry.getActiveTelemetryBoost w in
    (elapsed < d ->
       fst answer = Browser.Normal (Some (TurboTelemetry.whole active)) /\
       Browser.activeTelemetry (snd answer) = Some active) /\
    (d <= elapsed < d + 5000 ->
       let m := fadeMultiplier (elapsed - d) in
       fst answer = Browser.Normal (Some (faded m active)) /\
       Browser.activeTelemetry (snd answer) = Some active /\
       (0 < m)%Q /\ (m <= 1)%Q /\
       (1 - inject_Z (elapsed - d) / inject_Z 5000 - (1 # 9007199254740992)
          <= m)%Q /\
       (m <= 1 - inject_Z (elapsed - d) / inject_Z 5000
               + (1 # 9007199254740992))%Q /\
       (forall later : Z,
           elapsed - d <= later < 5000 -> (fadeMultiplier later <= m)%Q) /\
       (0 <= Browser.fpsBoost active <= 9007199254740992 ->
          (0 <= TurboTelemetry.fpsBoost (faded m active))%Q /\
          (TurboTelemetry.fpsBoost (faded m active)
             <= inject_Z (Browser.fpsBoost active))%Q) /\
       (0 <= Browser.ramReduction active <= 9007199254740992 ->
          (0 <= TurboTelemetry.ramReduction (faded m active))%Q /\
          (TurboTelemetry.ramReduction (faded m active)
             <= inject_Z (Browser.ramReduction active))%Q) /\
       (0 <= Browser.tempReduction active <= 9007199254740992 ->
          (0 <= TurboTelemetry.tempReduction (faded m active))%Q /\
          (TurboTelemetry.tempReduction (faded m active)
             <= inject_Z (Browser.tempReduction active))%Q)) /\
    (d + 5000 <= elapsed ->
       fst answer = Browser.Normal None /\
       Browser.activeTelemetry (snd answer) = None).
Proof.
  intros w active Hactive. cbv zeta.
  unfold TurboTelemetry.getActiveTelemetryBoost. rewrite Hactive.
  unfold Browser.bind, Browser.now.
  cbn [Browser.telemetryStartTime Browser.withClockReads].
  set (elapsed := Browser.clock w (Browser.clockReads w)
                  - Browser.telemetryStartTime w).
  set (d := Browser.duration active).
  split; [|split].
  - intros Hbefore.
    assert (E : (elapsed >=? d) = false)
      by (rewrite Z.geb_leb; apply Z.leb_gt; lia).
    rewrite E. cbn. rewrite Hactive. split; reflexivity.
  - intros Hfade.
    assert (E1 : (elapsed >=? d) = true)
      by (rewrite Z.geb_leb; apply Z.leb_le; lia).
    assert (E2 : (elapsed >=? d + 5000) = false)
      by (rewrite Z.geb_leb; apply Z.leb_gt; lia).
    rewrite E1, E2. cbn -[Qmult Qminus Qdiv inject_Z Qle Qlt].
    assert (Ht : 0 <= elapsed - d < 5000) by lia.
    destruct (fade_multiplier (elapsed - d) Ht) as (Hm0 & Hm1 & Hlo & Hhi).
    rewrite Hactive.
    split; [reflexivity|]. split; [reflexivity|].
    split; [exact Hm0|]. split; [exact Hm1|].
    split; [exact Hlo|]. split; [exact Hhi|].
    split.
    { intros later [Hl0 Hl1]. apply fade_multiplier_falls; lia. }
    unfold faded. cbn -[Qmult Qminus Qdiv inject_Z Qle Qlt].
    repeat split; intros; apply scaled_between; assumption.
  - intros Hafter.
    assert (E1 : (elapsed >=? d) = true)
      by (rewrite Z.geb_leb; apply Z.leb_le; lia).
    assert (E2 : (elapsed >=? d + 5000) = true)
      by (rewrite Z.geb_leb; apply Z.leb_le; lia).
    rewrite E1, E2. split; reflexivity.
Qed.

(** X3. While a boost is stored, [getActiveTelemetryBoost] answers by the
    time elapsed since it started: before [duration] the stored boost
    itself; during the next 5000 ms the boost with each amount multiplied,
    in double arithmetic, by the multiplier [1 - (elapsed - duration) / 5000]
    computed in double arithmetic, which lies in (0, 1], stays within 2^-53
    of the exact line and does not grow with time, every amount that was
    stored as an integer between 0 and 2^53 staying between 0 and its
    stored value; from [duration + 5000] on, [null], and the stored boost
    is dropped. *)
Theorem X3_boost_fades_then_expires :
  forall (w : Browser.World) (active : Browser.TelemetryBoost),
    Browser.activeTelemetry w = Some active ->
    let elapsed :=
      Browser.clock w (Browser.clockReads w) - Browser.telemetryStartTime w in
    let d := Browser.duration active in
    let answer := TurboTelemetry.getActiveTelemetryBoost w in
    (elapsed < d ->
       fst answer = Browser.Normal (Some (TurboTelemetry.whole active)) /\
       Browser.activeTelemetry (snd answer) = Some active) /\
    (d <= elapsed < d + 5000 ->
       let m := fadeMultiplier (elapsed - d) in
       fst answer = Browser.Normal (Some (faded m active)) /\
       Browser.activeTelemetry (snd answer) = Some active /\
       (0 < m)%Q /\ (m <= 1)%Q /\
       (1 - inject_Z (elapsed - d) / inject_Z 5000 - (1 # 9007199254740992)
          <= m)%Q /\
       (m <= 1 - inject_Z (elapsed - d) / inject_Z 5000
               + (1 # 9007199254740992))%Q /\
       (forall later : Z,
           elapsed - d <= later < 5000 -> (fadeMultiplier later <= m)%Q) /\
       (0 <= Browser.fpsBoost active <= 9007199254740992 ->
          (0 <= TurboTelemetry.fpsBoost (faded m active))%Q /\
          (TurboTelemetry.fpsBoost (faded m active)
             <= inject_Z (Browser.fpsBoost active))%Q) /\
       (0 <= Browser.ramReduction active <= 9007199254740992 ->
          (0 <= TurboTelemetry.ramReduction (faded m active))%Q /\
          (TurboTelemetry.ramReduction (faded m active)
             <= inject_Z (Browser.ramReduction active))%Q) /\
       (0 <= Browser.tempReduction active <= 9007199254740992 ->
          (0 <= TurboTelemetry.tempReduction (faded m active))%Q /\
          (TurboTelemetry.tempReduction (faded m active)
             <= inject_Z (Browser.tempReduction active))%Q)) /\
    (d + 5000 <= elapsed ->
       fst answer = Browser.Normal None /\
       Browser.activeTelemetry (snd answer) = None).
Proof. exact readout_by_elapsed. Qed.

(** The witness of X3: half-way through the fade the amounts are halved,
    and 1000 ms into it a boost of 6 reads as the double next above 4.8. *)
Lemma X3_witness :
  fst (TurboTelemetry.getActiveTelemetryBoost fadingWorld)
    = Browser.Normal
        (Some (faded (fadeMultiplier (62500 - 0 - 60000))
                     {| Browser.fpsBoost := 6; Browser.ramReduction := 10;
                        Browser.tempReduction := 2;
                        Browser.duration := 60000 |})) /\
  (fadeMultiplier (62500 - 0 - 60000) == 1 # 2)%Q /\
  (Double.mul 6 (fadeMultiplier 1000)
     == 1351079888211149 # 281474976710656)%Q.
Proof.
  split; [|split; vm_compute; reflexivity].
  refine (proj1 (proj1 (proj2 (X3_boost_fades_then_expires fadingWorld _ eq_refl)) _)).
  simpl. lia.
Defined.

Section TelemetryAfterRun.
Import Browser Turbo.

(** What a run leaves for the read-out: the boost, its start time (the
    third clock reading of the run) and the clock. *)
Lemma runTurbo_telemetry (w : World) (id : string) :
  Js.truthy (Js.lookup Presets.toValue Presets.presets (normalizedKey id)) = true ->
  exists r w',
    runTurbo id w = (Normal r, w') /\
    clock w' = clock w /\
    clockReads w' = (clockReads w + 4)%nat /\
    telemetryStartTime w' = clock w (clockReads w + 2)%nat /\
    activeTelemetry w'
      = Some {| fpsBoost := calculateFpsBoost (normalizedKey id);
                ramReduction :=
                  Qfloor (Double.mul (random w (randomDraws w)) 5) + 8;
                tempReduction :=
                  if String.eqb (normalizedKey id) "battlefield6"
                  then Qfloor (Double.mul (random w (S (randomDraws w))) 3) + 2
                  else 0;
                duration := 60000 |}.
Proof.
  intros Htruthy. unfold runTurbo.
  unfold bind at 1. unfold now at 1. rewrite Htruthy. cbv [negb].
  set (w0 := withClockReads (S (clockReads w)) w).
  set (preset := Js.lookup Presets.toValue Presets.presets (normalizedKey id)).
  destruct (runOperations_steps _ _ (operations_stepLike preset) 0 0 w0)
    as (evs & w1 & Hrun & (Hc & Hcr & Hr & Hrd & Hat) & Htrace & Hlabels).
  unfold bind at 1. rewrite Hrun.
  destruct (String.eqb (normalizedKey id) "battlefield6") eqn:Ebf.
  - eexists _, _. split; [reflexivity|].
    cbn -[Qfloor Qmult Z.add]. rewrite Hc, Hcr, Hr, Hrd.
    cbn -[Qfloor Qmult Z.add].
    repeat split; f_equal; lia.
  - eexists _, _. split; [reflexivity|].
    cbn -[Qfloor Qmult Z.add]. rewrite Hc, Hcr, Hr, Hrd.
    cbn -[Qfloor Qmult Z.add].
    repeat split; f_equal; lia.
Qed.

End TelemetryAfterRun.

(** X4. After a run of [runTurbo] that ends normally, with draws that are
    doubles of [0, 1), the next read-out returns the boost of the profile,
    unscaled, when less than 60000 ms have passed since the run stored it,
    and [null] once 65000 ms or more have passed. *)
Theorem X4_boost_after_run :
  forall (w : Browser.World) (id : string) (r : Turbo.TurboResult)
         (w' : Browser.World),
    Browser.fairRandom w ->
    Browser.doubleDraws w ->
    Turbo.runTurbo id w = (Browser.Normal r, w') ->
    let stored := Browser.clock w (Browser.clockReads w + 2)%nat in
    let read := Browser.clock w (Browser.clockReads w + 4)%nat in
    (read - stored < 60000 ->
       exists b,
         fst (TurboTelemetry.getActiveTelemetryBoost w') = Browser.Normal (Some b) /\
         TurboTelemetry.fpsBoost b
           = inject_Z (fpsBoostTable (Turbo.normalizedKey id)) /\
         (8 <= TurboTelemetry.ramReduction b)%Q /\
         (TurboTelemetry.ramReduction b <= 12)%Q /\
         TurboTelemetry.duration b = 60000) /\
    (65000 <= read - stored ->
       fst (TurboTelemetry.getActiveTelemetryBoost w') = Browser.Normal None /\
       Browser.activeTelemetry
         (snd (TurboTelemetry.getActiveTelemetryBoost w')) = None).
Proof.
  intros w id r w' Hfair Hdouble Hrun. cbv zeta.
  pose proof (runTurbo_normal_truthy _ _ _ _ Hrun) as Htruthy.
  destruct (runTurbo_telemetry w id Htruthy)
    as (r0 & w0 & Hrun0 & Hclock & Hreads & Hstart & Hboost).
  rewrite Hrun in Hrun0. injection Hrun0 as <- <-.
  pose proof (readout_by_elapsed w' _ Hboost) as H3. cbv zeta in H3.
  rewrite Hclock, Hreads, Hstart in H3.
  cbn [Browser.duration] in H3.
  destruct H3 as (Hbefore & _ & Hafter).
  split.
  - intros Hlt. destruct (Hbefore Hlt) as [Hans _].
    eexists. split; [exact Hans|].
    unfold TurboTelemetry.whole.
    cbn [TurboTelemetry.fpsBoost TurboTelemetry.ramReduction
         TurboTelemetry.duration Browser.fpsBoost Browser.ramReduction
         Browser.duration].
    rewrite calculateFpsBoost_table.
    destruct (Hfair (Browser.randomDraws w)) as [Hr0 Hr1].
    pose proof (floor_scaled _ 5 (or_introl eq_refl) Hr0 Hr1 (Hdouble _)) as Hram.
    change (inject_Z 5) with 5%Q in Hram.
    split; [reflexivity|].
    split; [|split; [|reflexivity]].
    + change 8%Q with (inject_Z 8). rewrite <- Zle_Qle. lia.
    + change 12%Q with (inject_Z 12). rewrite <- Zle_Qle. lia.
  - intros Hge. apply Hafter. lia.
Qed.

(** The witness of X4: the preview page, whose clock counts its readings. *)
Lemma X4_witness :
  exists b,
    fst (TurboTelemetry.getActiveTelemetryBoost (snd previewRun))
      = Browser.Normal (Some b) /\
    TurboTelemetry.fpsBoost b = inject_Z (fpsBoostTable "battlefield6").
Proof.
  assert (Hfair : Browser.fairRandom previewWorld).
  { intros n. simpl. split; [apply Qle_refl | reflexivity]. }
  assert (Hdouble : Browser.doubleDraws previewWorld).
  { intros n. reflexivity. }
  assert (Hrun : Turbo.runTurbo "Battlefield 6" previewWorld
                 = (Browser.Normal
                      {| Turbo.steps := 7; Turbo.errors := 0;
                         Turbo.tempGuard := true; Turbo.executionTime := 1;
                         Turbo.profile := Js.Str "Battlefield 6" |},
                    snd previewRun)).
  { vm_compute. reflexivity. }
  destruct (proj1 (X4_boost_after_run _ _ _ _ Hfair Hdouble Hrun))
    as (b & Hb & Hfps & _).
  - simpl. lia.
  - exists b. split; assumption.
Defined.

(** ** Sessions *)

Section SessionFacts.

Variable base36 : Q -> string.

Lemma runSessionCalls_app (a b : list SessionCall) (s : TurboSessions.State) :
  runSessionCalls base36 (a ++ b) s
    = runSessionCalls base36 b (runSessionCalls base36 a s).
Proof. unfold runSessionCalls. apply fold_left_app. Qed.

End SessionFacts.

(** X5. After any sequence of [startSession] and [endSession] calls, the
    session state is decided by the last call alone: after [startSession]
    there is an active session whose profile is the normalised identifier
    of that call, whether or not the preset table has it, and which has no
    end time; after [endSession] there is none. *)
Theorem X5_last_call_decides_session :
  forall (base36 : Q -> string) (calls : list SessionCall) (last : SessionCall)
         (s : TurboSessions.State),
    let final := runSessionCalls base36 (calls ++ [last]) s in
    match last with
    | StartSession profileIdentifier =>
        TurboSessions.hasActiveSession final = true /\
        exists session,
          TurboSessions.getCurrentSession final = Some session /\
          TurboSessions.profile session = Turbo.normalizedKey profileIdentifier /\
          TurboSessions.active session = true /\
          TurboSessions.endTime session = None
    | EndSession =>
        TurboSessions.hasActiveSession final = false /\
        TurboSessions.getCurrentSession final = None
    end.
Proof.
  intros base36 calls last s. cbv zeta. rewrite runSessionCalls_app.
  set (before := runSessionCalls base36 calls s).
  destruct last as [profileIdentifier|]; simpl.
  - split; [reflexivity|]. eexists. repeat split.
  - unfold TurboSessions.endSession, TurboSessions.hasActiveSession,
      TurboSessions.getCurrentSession.
    destruct (TurboSessions.currentSession before) eqn:E; simpl;
      [split; reflexivity|]. rewrite E. split; reflexivity.
Qed.

(** ** The bridge and the host together *)
Section BridgeAndHost.

Lemma reachesShell_some (command : Js.Value) (m : Host.Machine) (s : string) :
  reachesShell command m = Some s ->
  command = Js.Str s /\
  Preload.validateCommand command = inr true /\
  (1000 <? String.length s)%nat = false /\
  existsb (fun d => Js.includes (Js.toLowerCase s) d) Host.dangerousCommands
    = false /\
  Host.isWindows m = true.
Proof.
  unfold reachesShell. destruct command; try discriminate.
  destruct ((1 <=? String.length s0)%nat) eqn:E1; [|discriminate].
  destruct ((String.length s0 <=? 1000)%nat) eqn:E2; [|discriminate].
  destruct (existsb _ Host.dangerousCommands) eqn:E3; [discriminate|].
  destruct (Host.isWindows m) eqn:E4; [|discriminate].
  simpl. intros [= <-].
  apply Nat.leb_le in E1, E2.
  assert (Hz : (String.length s0 =? 0)%nat = false) by (apply Nat.eqb_neq; lia).
  assert (Hbig : (1000 <? String.length s0)%nat = false) by (apply Nat.ltb_ge; lia).
  repeat split; try assumption. simpl. rewrite Hz, Hbig. reflexivity.
Qed.

Lemma runPowerShellCommand_events (cmd : string) (timeout : Js.Value)
      (m : Host.Machine) :
  Host.events (snd (Host.runPowerShellCommand cmd timeout m))
    = (Host.events m
       ++ if Host.isWindows m then [Host.Spawned "powershell" cmd] else [])%list.
Proof.
  unfold Host.runPowerShellCommand. destruct (Host.isWindows m); simpl.
  - destruct (Host.ending _); reflexivity.
  - now rewrite app_nil_r.
Qed.

End BridgeAndHost.

(** X6. Through the bridge and the host together, one call of [runPS]
    spawns exactly one interpreter, with the command text unchanged, when
    the command is a string of 1 to 1000 units that contains no blacklisted
    substring and the host runs Windows; in every other case it spawns
    nothing and touches nothing on the host. *)
Theorem X6_runPS_spawns_at_most_once :
  forall (m : Host.Machine) (command timeout : Js.Value),
    Host.events (snd (fst (Preload.runPS Preload.hostInvoke command timeout m)))
      = (Host.events m
         ++ match reachesShell command m with
            | Some s => [Host.Spawned "powershell" s]
            | None => []
            end)%list.
Proof.
  intros m command timeout.
  destruct (reachesShell command m) as [s|] eqn:Hr.
  - destruct (reachesShell_some _ _ _ Hr) as (-> & Hv & Hlen & Hsafe & Hwin).
    unfold Preload.runPS. rewrite Hv.
    unfold Preload.hostInvoke. simpl String.eqb. cbv iota.
    cbn [nth]. unfold Host.runPowershellHandler.
    rewrite Hlen, Hsafe.
    pose proof (runPowerShellCommand_events s
                  match Preload.effectiveTimeout timeout with
                  | Js.Undefined => Js.Number (Js.ofZ 30000)
                  | _ => Preload.effectiveTimeout timeout
                  end m) as He.
    rewrite Hwin in He.
    destruct (Host.runPowerShellCommand s _ m) as [r m'].
    simpl in *. exact He.
  - rewrite app_nil_r. unfold Preload.runPS.
    destruct (Preload.validateCommand command) as [msg | ok] eqn:Hv;
      [reflexivity|].
    destruct command as [| | b | n | s | props | items | name c];
      try discriminate Hv.
    simpl in Hv.
    destruct ((String.length s =? 0)%nat) eqn:E0; [discriminate Hv|].
    destruct ((1000 <? String.length s)%nat) eqn:E1; [discriminate Hv|].
    unfold Preload.hostInvoke. simpl String.eqb. cbv iota. cbn [nth].
    unfold Host.runPowershellHandler. rewrite E1.
    unfold reachesShell in Hr.
    assert (H1 : (1 <=? String.length s)%nat = true).
    { apply Nat.leb_le. apply Nat.eqb_neq in E0. lia. }
    assert (H2 : (String.length s <=? 1000)%nat = true).
    { apply Nat.leb_le. apply Nat.ltb_ge in E1. lia. }
    rewrite H1, H2 in Hr. cbn [andb] in Hr.
    destruct (existsb _ Host.dangerousCommands) eqn:E3; [reflexivity|].
    cbn [negb andb] in Hr.
    destruct (Host.isWindows m) eqn:E4; [discriminate Hr|].
    pose proof (runPowerShellCommand_events s
                  match Preload.effectiveTimeout timeout with
                  | Js.Undefined => Js.Number (Js.ofZ 30000)
                  | _ => Preload.effectiveTimeout timeout
                  end m) as He.
    rewrite E4, app_nil_r in He.
    destruct (Host.runPowerShellCommand s _ m) as [r m'].
    simpl in *. exact He.
Qed.

(** ** The file channel *)
Section FileBridge.

Lemma validateFilePath_invalid (v : Js.Value) :
  invalidPathInput v ->
  exists message, message <> "" /\ PreloadFiles.validateFilePath v = inl message.
Proof.
  destruct v; simpl; intros H;
    try (eexists; split; [|reflexivity]; discriminate).
  destruct H as [H | H].
  - rewrite H. simpl. eexists; split; [|reflexivity]; discriminate.
  - apply Nat.ltb_lt in H. rewrite H, orb_true_r.
    eexists; split; [|reflexivity]; discriminate.
Qed.

Lemma validateFilePath_valid (v : Js.Value) :
  ~ invalidPathInput v ->
  exists path, v = Js.Str path /\ PreloadFiles.validateFilePath v = inr true.
Proof.
  destruct v; simpl; intros H; try (exfalso; apply H; exact I).
  exists s. split; [reflexivity|].
  destruct (String.length s =? 0)%nat eqn:E0.
  - exfalso. apply H. left. now apply Nat.eqb_eq.
  - destruct (500 <? String.length s)%nat eqn:E1; [|reflexivity].
    exfalso. apply H. right. now apply Nat.ltb_lt.
Qed.

(** What the bridge makes of a result of [readSystemFile]. *)
Lemma bridged_result (r : Host.ReadResult) :
  (Host.success r = true -> exists text, Host.content r = Some text) ->
  (Host.success r = false -> Host.content r = None) ->
  match Js.get (PreloadFiles.readResultValue r) "success",
        Js.get (PreloadFiles.readResultValue r) "content",
        Js.get (PreloadFiles.readResultValue r) "error" with
  | Some ok, Some text, Some err =>
      Js.or ok (Js.Boolean false) = Js.Boolean (Host.success r) /\
      Js.or text (Js.Str "")
        = Js.Str (match Host.content r with Some t => t | None => "" end) /\
      Js.or err (Js.Str "")
        = Js.Str (match Host.error r with Some e => e | None => "" end)
  | _, _, _ => False
  end.
Proof.
  intros Hyes Hno. destruct r as [ok content error]. simpl in *.
  destruct ok.
  - destruct (Hyes eq_refl) as [text ->].
    destruct error as [e|]; cbn.
    + repeat split.
      * unfold Js.or. simpl. destruct (String.eqb text ""%string) eqn:E;
          [apply String.eqb_eq in E; subst|]; reflexivity.
      * unfold Js.or. simpl. destruct (String.eqb e ""%string) eqn:E;
          [apply String.eqb_eq in E; subst|]; reflexivity.
    + repeat split.
      unfold Js.or. simpl. destruct (String.eqb text ""%string) eqn:E;
        [apply String.eqb_eq in E; subst|]; reflexivity.
  - rewrite (Hno eq_refl). destruct error as [e|]; cbn.
    + repeat split.
      unfold Js.or. simpl. destruct (String.eqb e ""%string) eqn:E;
        [apply String.eqb_eq in E; subst|]; reflexivity.
    + repeat split.
Qed.

End FileBridge.

Section FileBridgeHost.

Lemma readSystemFile_shape (path : string) (m : Host.Machine) :
  let r := fst (Host.readSystemFile path m) in
  (Host.success r = true ->
     exists text,
       Host.content r = Some text /\ Host.error r = None /\
       Host.fileContent m (Host.normalize m path) = Host.FsOk text) /\
  (Host.success r = false ->
     Host.content r = None /\ exists message, Host.error r = Some message).
Proof.
  cbv zeta. unfold Host.readSystemFile.
  destruct (existsb _ Host.dangerousPaths); simpl.
  - split; [discriminate | intros _; split; eauto].
  - destruct (Host.statSize m _) as [size | msg]; simpl;
      [|split; [discriminate | intros _; split; eauto]].
    destruct (size >? 1024 * 1024); simpl;
      [split; [discriminate | intros _; split; eauto]|].
    destruct (Host.fileContent m _) as [text | msg]; simpl.
    + split; [intros _; eauto | discriminate].
    + split; [discriminate | intros _; split; eauto].
Qed.

End FileBridgeHost.

(** The bridge's [readFile] against the host's handler. *)
Lemma readFile_bridge :
  forall (pathTypeError : Js.Value -> string) (m : Host.Machine)
         (filePath : Js.Value),
    let answer :=
      PreloadFiles.readFile (PreloadFiles.hostInvoke pathTypeError) filePath m in
    (invalidPathInput filePath ->
       exists message, message <> "" /\
         fst (fst answer)
           = {| PreloadFiles.success := Js.Boolean false;
                PreloadFiles.content := Js.Str "";
                PreloadFiles.error := Js.Str message |} /\
         snd answer = [] /\ snd (fst answer) = m) /\
    (~ invalidPathInput filePath ->
       exists path,
         filePath = Js.Str path /\
         let r := fst (Host.readSystemFile path m) in
         fst (fst answer)
           = {| PreloadFiles.success := Js.Boolean (Host.success r);
                PreloadFiles.content :=
                  Js.Str (match Host.content r with Some t => t | None => "" end);
                PreloadFiles.error :=
                  Js.Str (match Host.error r with Some e => e | None => "" end) |} /\
         snd (fst answer) = snd (Host.readSystemFile path m) /\
         snd answer = [("read-file", [filePath])]).
Proof.
  intros pathTypeError m filePath. cbv zeta. split.
  - intros Hbad.
    destruct (validateFilePath_invalid filePath Hbad) as (message & Hne & Hv).
    exists message. unfold PreloadFiles.readFile. rewrite Hv. simpl.
    unfold PreloadFiles.caught, Js.or. simpl.
    destruct (String.eqb message "") eqn:E.
    + apply String.eqb_eq in E. contradiction.
    + simpl. repeat split; assumption.
  - intros Hok.
    destruct (validateFilePath_valid filePath Hok) as (path & -> & Hv).
    exists path. split; [reflexivity|].
    unfold PreloadFiles.readFile. rewrite Hv.
    unfold PreloadFiles.hostInvoke. simpl String.eqb. cbv iota.
    cbn [nth PreloadFiles.readFileHandler].
    pose proof (readSystemFile_shape path m) as Hshape. cbv zeta in Hshape.
    destruct (Host.readSystemFile path m) as [r m'] eqn:Hread.
    cbn [fst snd] in *.
    assert (Hyes : Host.success r = true -> exists text, Host.content r = Some text).
    { intros H. destruct (proj1 Hshape H) as (text & Ht & _). eauto. }
    assert (Hno : Host.success r = false -> Host.content r = None).
    { intros H. exact (proj1 (proj2 Hshape H)). }
    pose proof (bridged_result r Hyes Hno) as Hb.
    destruct (Js.get (PreloadFiles.readResultValue r) "success") as [ok|];
      [|contradiction].
    destruct (Js.get (PreloadFiles.readResultValue r) "content") as [text|];
      [|contradiction].
    destruct (Js.get (PreloadFiles.readResultValue r) "error") as [err|];
      [|contradiction].
    destruct Hb as (-> & -> & ->). repeat split.
Qed.

(** The test of [readSystemFile] on the normalised path. *)
Lemma protectedPath_iff (m : Host.Machine) (path : string) :
  existsb (fun dangerous =>
             Js.includes (Js.toLowerCase (Host.normalize m path)) dangerous)
          Host.dangerousPaths = true
  <-> protectedPath m path.
Proof.
  unfold protectedPath. rewrite existsb_exists.
  split; intros (d & Hin & H); exists d; (split; [exact Hin|]).
  - apply includes_lower_iff. rewrite (dangerousPaths_lower d Hin). exact H.
  - apply includes_lower_iff in H.
    rewrite (dangerousPaths_lower d Hin) in H. exact H.
Qed.

(** A dangerous path stops [readSystemFile] before any access. *)
Lemma readSystemFile_dangerous (m : Host.Machine) (path : string) :
  (exists d, In d Host.dangerousPaths /\
             Js.containsIgnoringCase (Host.normalize m path) d) ->
  Host.readSystemFile path m = (Host.failure Host.accessDenied, m).
Proof.
  intros (d & Hin & Hci). unfold Host.readSystemFile.
  rewrite (existsb_includes _ _ d Hin
             (includes_lower _ _ (dangerousPaths_lower d Hin) Hci)).
  reflexivity.
Qed.

(** Any other path goes to [stat], and to [readFile] after a [stat] that
    answers with a size of at most 1 MiB. *)
Lemma readSystemFile_allowed (m : Host.Machine) (path : string) :
  ~ protectedPath m path ->
  let np := Host.normalize m path in
  Host.readSystemFile path m
    = match Host.statSize m np with
      | Host.FsError message =>
          (Host.failure message, Host.record (Host.Stat np) m)
      | Host.FsOk size =>
          if size >? 1024 * 1024
          then (Host.failure Host.tooLarge, Host.record (Host.Stat np) m)
          else
            let m2 := Host.record (Host.ReadFile np)
                                  (Host.record (Host.Stat np) m) in
            match Host.fileContent m np with
            | Host.FsError message => (Host.failure message, m2)
            | Host.FsOk text =>
                ({| Host.success := true; Host.content := Some text;
                    Host.error := None |}, m2)
            end
      end.
Proof.
  intros Hfree. cbv zeta. unfold Host.readSystemFile.
  destruct (existsb _ Host.dangerousPaths) eqn:E; [|reflexivity].
  exfalso. apply Hfree. apply protectedPath_iff. exact E.
Qed.

Lemma validateFilePath_complaint (v : Js.Value) :
  invalidPathInput v ->
  PreloadFiles.validateFilePath v = inl (pathComplaint v).
Proof.
  destruct v; simpl; intros H; try reflexivity.
  destruct H as [H | H].
  - rewrite H. reflexivity.
  - apply Nat.ltb_lt in H. rewrite H, orb_true_r. reflexivity.
Qed.

(** The bridge's [readFile], whatever is at the other end of the channel. *)
Lemma readFile_any_host :
  forall (T : Type) (invoke : string -> list Js.Value -> T -> Preload.Reply * T)
         (host : T) (filePath : Js.Value),
    let answer := PreloadFiles.readFile invoke filePath host in
    let object := fst (fst answer) in
    (invalidPathInput filePath ->
       object = fileRefused (pathComplaint filePath) /\
       snd answer = [] /\ snd (fst answer) = host) /\
    (~ invalidPathInput filePath ->
       snd answer = [("read-file", [filePath])] /\
       snd (fst answer) = snd (invoke "read-file" [filePath] host) /\
       settled (PreloadFiles.success object) (Js.Boolean false) /\
       settled (PreloadFiles.content object) (Js.Str "") /\
       settled (PreloadFiles.error object) (Js.Str "") /\
       match fst (invoke "read-file" [filePath] host) with
       | Preload.Rejected message =>
           object
             = {| PreloadFiles.success := Js.Boolean false;
                  PreloadFiles.content := Js.Str "";
                  PreloadFiles.error :=
                    Js.or message (Js.Str "Erro desconhecido") |}
       | Preload.Resolved result =>
           (result = Js.Undefined \/ result = Js.Null ->
              object = fileRefused (PreloadFiles.cannotRead result)) /\
           (result <> Js.Undefined -> result <> Js.Null ->
              exists ok text err,
                Js.get result "success" = Some ok /\
                Js.get result "content" = Some text /\
                Js.get result "error" = Some err /\
                object
                  = {| PreloadFiles.success := Js.or ok (Js.Boolean false);
                       PreloadFiles.content := Js.or text (Js.Str "");
                       PreloadFiles.error := Js.or err (Js.Str "") |})
       end).
Proof.
  intros T invoke host filePath. cbv zeta. split.
  - intros Hbad. unfold PreloadFiles.readFile.
    rewrite (validateFilePath_complaint filePath Hbad).
    destruct filePath; repeat split.
  - intros Hok.
    destruct (validateFilePath_valid filePath Hok) as (path & -> & Hv).
    unfold PreloadFiles.readFile. rewrite Hv.
    destruct (invoke "read-file" [Js.Str path] host) as [[result | message] host'].
    + assert (Hor : forall a b, settled (Js.or a b) b).
      { intros a b. unfold settled, Js.or.
        destruct (Js.truthy a) eqn:E; [left; exact E | right; reflexivity]. }
      destruct result as [| | b | n | s | props | items | name c];
        cbn [Js.get fst snd];
        try (repeat split; try apply Hor;
             try (intros [H | H]; discriminate H);
             try (intros _ _; eexists _, _, _; repeat split);
             fail).
      * repeat split; try (left; reflexivity); try (right; reflexivity).
        intros H _. contradiction.
      * repeat split; try (left; reflexivity); try (right; reflexivity).
        intros _ H. contradiction.
    + cbn [fst snd PreloadFiles.caught PreloadFiles.success
           PreloadFiles.content PreloadFiles.error].
      repeat split; try (right; reflexivity).
      left. unfold Js.or. destruct (Js.truthy message) eqn:E; [exact E | reflexivity].
Qed.

(** X7. The bridge's [readFile] sends nothing for a path that is not a
    string, is empty or is longer than 500 units, and resolves to success
    false, empty content and the validator's message for that fault. For
    any other path it
    sends exactly one ['read-file'] invocation with the path and, whatever
    is at the other end of the channel and however it settles, resolves to
    an object whose [success] is truthy or [false], whose [content] is
    truthy or the empty string and whose [error] is truthy or the empty
    string: after a rejection, success false, empty content and the
    rejection's message, or ['Erro desconhecido'] for a falsy one; after a
    result that is [undefined] or [null], the same with the message of the
    TypeError; after any other result, its three fields, each with its
    [||] default. *)
Theorem X7_readFile_bridge :
  forall (T : Type) (invoke : string -> list Js.Value -> T -> Preload.Reply * T)
         (host : T) (filePath : Js.Value),
    let answer := PreloadFiles.readFile invoke filePath host in
    let object := fst (fst answer) in
    (invalidPathInput filePath ->
       object = fileRefused (pathComplaint filePath) /\
       snd answer = [] /\ snd (fst answer) = host) /\
    (~ invalidPathInput filePath ->
       snd answer = [("read-file", [filePath])] /\
       snd (fst answer) = snd (invoke "read-file" [filePath] host) /\
       settled (PreloadFiles.success object) (Js.Boolean false) /\
       settled (PreloadFiles.content object) (Js.Str "") /\
       settled (PreloadFiles.error object) (Js.Str "") /\
       match fst (invoke "read-file" [filePath] host) with
       | Preload.Rejected message =>
           object
             = {| PreloadFiles.success := Js.Boolean false;
                  PreloadFiles.content := Js.Str "";
                  PreloadFiles.error :=
                    Js.or message (Js.Str "Erro desconhecido") |}
       | Preload.Resolved result =>
           (result = Js.Undefined \/ result = Js.Null ->
              object = fileRefused (PreloadFiles.cannotRead result)) /\
           (result <> Js.Undefined -> result <> Js.Null ->
              exists ok text err,
                Js.get result "success" = Some ok /\
                Js.get result "content" = Some text /\
                Js.get result "error" = Some err /\
                object
                  = {| PreloadFiles.success := Js.or ok (Js.Boolean false);
                       PreloadFiles.content := Js.or text (Js.Str "");
                       PreloadFiles.error := Js.or err (Js.Str "") |})
       end).
Proof. exact readFile_any_host. Qed.

(** The witness of X7: a number in place of the path; a host that rejects
    with an empty message; a host that resolves to [null]. *)
Lemma X7_witness :
  fst (fst (PreloadFiles.readFile (PreloadFiles.hostInvoke (fun _ => "TypeError"))
              (Js.Number (Js.ofZ 7)) windowsBox))
    = fileRefused "Caminho do arquivo deve ser uma string" /\
  fst (fst (PreloadFiles.readFile
              (fun _ _ (n : nat) => (Preload.Rejected (Js.Str ""), S n))
              (Js.Str "D:\notes.txt") 0%nat))
    = fileRefused "Erro desconhecido" /\
  fst (fst (PreloadFiles.readFile
              (fun _ _ (n : nat) => (Preload.Resolved Js.Null, S n))
              (Js.Str "D:\notes.txt") 0%nat))
    = fileRefused "Cannot read properties of null (reading 'success')".
Proof.
  assert (Hok : ~ invalidPathInput (Js.Str "D:\notes.txt")).
  { simpl. intros [H | H]; [discriminate | lia]. }
  split; [|split].
  - exact (proj1 (proj1 (X7_readFile_bridge _
                           (PreloadFiles.hostInvoke (fun _ => "TypeError"))
                           windowsBox (Js.Number (Js.ofZ 7))) I)).
  - exact (proj2 (proj2 (proj2 (proj2 (proj2
             (proj2 (X7_readFile_bridge _
                       (fun _ _ (n : nat) => (Preload.Rejected (Js.Str ""), S n))
                       0%nat (Js.Str "D:\notes.txt")) Hok)))))).
  - exact (proj1 (proj2 (proj2 (proj2 (proj2 (proj2
             (proj2 (X7_readFile_bridge _
                       (fun _ _ (n : nat) => (Preload.Resolved Js.Null, S n))
                       0%nat (Js.Str "D:\notes.txt")) Hok))))))
             (or_intror eq_refl)).
Defined.

(** The bridge over the host of [main.js], stage by stage. *)
Lemma readFile_stages :
  forall (pathTypeError : Js.Value -> string) (m : Host.Machine) (path : string),
    ~ invalidPathInput (Js.Str path) ->
    let answer :=
      PreloadFiles.readFile (PreloadFiles.hostInvoke pathTypeError)
                            (Js.Str path) m in
    let object := fst (fst answer) in
    let host := snd (fst answer) in
    let np := Host.normalize m path in
    (protectedPath m path ->
       object = fileRefused Host.accessDenied /\ host = m) /\
    (~ protectedPath m path ->
       match Host.statSize m np with
       | Host.FsError message =>
           object = fileRefused message /\
           Host.events host = (Host.events m ++ [Host.Stat np])%list
       | Host.FsOk size =>
           if size >? 1048576 then
             object = fileRefused Host.tooLarge /\
             Host.events host = (Host.events m ++ [Host.Stat np])%list
           else
             match Host.fileContent m np with
             | Host.FsError message =>
                 object = fileRefused message /\
                 Host.events host
                   = (Host.events m ++ [Host.Stat np; Host.ReadFile np])%list
             | Host.FsOk text =>
                 object = fileRead text /\
                 Host.events host
                   = (Host.events m ++ [Host.Stat np; Host.ReadFile np])%list
             end
       end) /\
    (PreloadFiles.success object = Js.Boolean true <->
       ~ protectedPath m path /\
       exists size text,
         Host.statSize m np = Host.FsOk size /\ size <= 1048576 /\
         Host.fileContent m np = Host.FsOk text).
Proof.
  intros pathTypeError m path Hok. cbv zeta.
  destruct (proj2 (readFile_bridge pathTypeError m (Js.Str path)) Hok)
    as (p & Hp & Hobj & Hhost & _).
  injection Hp as <-. cbv zeta in Hobj. rewrite Hobj, Hhost.
  clear Hobj Hhost.
  assert (Hdenied : protectedPath m path ->
                    Host.readSystemFile path m = (Host.failure Host.accessDenied, m))
    by apply readSystemFile_dangerous.
  pose proof (readSystemFile_allowed m path) as Hallowed. cbv zeta in Hallowed.
  split; [|split].
  - intros Hprot. rewrite (Hdenied Hprot). split; reflexivity.
  - intros Hfree. rewrite (Hallowed Hfree).
    destruct (Host.statSize m _) as [size | message].
    + change (1024 * 1024) with 1048576.
      destruct (size >? 1048576).
      * split; [reflexivity|]. simpl. reflexivity.
      * destruct (Host.fileContent m _) as [text | message];
          (split; [reflexivity|]); simpl; rewrite <- app_assoc; reflexivity.
    + split; [reflexivity|]. simpl. reflexivity.
  - split.
    + intros Hyes.
      assert (Hfree : ~ protectedPath m path).
      { intros Hprot. rewrite (Hdenied Hprot) in Hyes. discriminate Hyes. }
      split; [exact Hfree|]. rewrite (Hallowed Hfree) in Hyes.
      destruct (Host.statSize m _) as [size | message]; [|discriminate Hyes].
      change (1024 * 1024) with 1048576 in Hyes.
      destruct (size >? 1048576) eqn:Esize; [discriminate Hyes|].
      destruct (Host.fileContent m _) as [text | message]; [|discriminate Hyes].
      exists size, text. repeat split.
      rewrite Z.gtb_ltb in Esize. apply Z.ltb_ge in Esize. exact Esize.
    + intros (Hfree & size & text & Hstat & Hsize & Hread).
      rewrite (Hallowed Hfree), Hstat, Hread.
      change (1024 * 1024) with 1048576.
      assert (Esize : (size >? 1048576) = false)
        by (rewrite Z.gtb_ltb; apply Z.ltb_ge; exact Hsize).
      rewrite Esize. reflexivity.
Qed.

(** X8. End to end over the host of [main.js], [readFile] on a path that
    is a string of 1 to 500 units resolves stage by stage. A path whose
    normalised form contains a protected segment in any letter case gives
    success false, empty content and the access-denied message, and the
    host is left untouched. Any other path is handed to [stat]: its error
    gives success false, empty content and that error's message; a size
    above 1 MiB gives the too-large message; in both cases nothing is read.
    Otherwise the file is read once: an error gives its message, and a
    text gives success true, that text as content and an empty error. So
    success is true exactly when the path is not protected, [stat] answers
    with a size of at most 1 MiB and the read answers with a text. *)
Theorem X8_readFile_end_to_end :
  forall (pathTypeError : Js.Value -> string) (m : Host.Machine) (path : string),
    ~ invalidPathInput (Js.Str path) ->
    let answer :=
      PreloadFiles.readFile (PreloadFiles.hostInvoke pathTypeError)
                            (Js.Str path) m in
    let object := fst (fst answer) in
    let host := snd (fst answer) in
    let np := Host.normalize m path in
    (protectedPath m path ->
       object = fileRefused Host.accessDenied /\ host = m) /\
    (~ protectedPath m path ->
       match Host.statSize m np with
       | Host.FsError message =>
           object = fileRefused message /\
           Host.events host = (Host.events m ++ [Host.Stat np])%list
       | Host.FsOk size =>
           if size >? 1048576 then
             object = fileRefused Host.tooLarge /\
             Host.events host = (Host.events m ++ [Host.Stat np])%list
           else
             match Host.fileContent m np with
             | Host.FsError message =>
                 object = fileRefused message /\
                 Host.events host
                   = (Host.events m ++ [Host.Stat np; Host.ReadFile np])%list
             | Host.FsOk text =>
                 object = fileRead text /\
                 Host.events host
                   = (Host.events m ++ [Host.Stat np; Host.ReadFile np])%list
             end
       end) /\
    (PreloadFiles.success object = Js.Boolean true <->
       ~ protectedPath m path /\
       exists size text,
         Host.statSize m np = Host.FsOk size /\ size <= 1048576 /\
         Host.fileContent m np = Host.FsOk text).
Proof. exact readFile_stages. Qed.

(** The witness of X8: a path under [C:\Windows] is refused, a 2 MB file
    is too large, and a small file on another drive is read. *)
Lemma X8_witness :
  fst (fst (PreloadFiles.readFile (PreloadFiles.hostInvoke (fun _ => "TypeError"))
              (Js.Str "C:\Windows\win.ini") windowsBox))
    = fileRefused Host.accessDenied /\
  fst (fst (PreloadFiles.readFile (PreloadFiles.hostInvoke (fun _ => "TypeError"))
              (Js.Str "D:\notes.txt") bigFileBox))
    = fileRefused Host.tooLarge /\
  fst (fst (PreloadFiles.readFile (PreloadFiles.hostInvoke (fun _ => "TypeError"))
              (Js.Str "D:\notes.txt") windowsBox))
    = fileRead "hello".
Proof.
  assert (Hwin : ~ invalidPathInput (Js.Str "C:\Windows\win.ini")).
  { simpl. intros [H | H]; [discriminate | lia]. }
  assert (Hok : ~ invalidPathInput (Js.Str "D:\notes.txt")).
  { simpl. intros [H | H]; [discriminate | lia]. }
  assert (Hfree : forall m, Host.normalize m "D:\notes.txt" = "D:\notes.txt" ->
                            ~ protectedPath m "D:\notes.txt").
  { intros m Hn Hprot. apply protectedPath_iff in Hprot. rewrite Hn in Hprot.
    vm_compute in Hprot. discriminate Hprot. }
  split; [|split].
  - apply (X8_readFile_end_to_end (fun _ => "TypeError") windowsBox
             "C:\Windows\win.ini" Hwin).
    exists "windows". split; [simpl; auto|].
    exists "C:\", "Windows", "\win.ini". split; reflexivity.
  - exact (proj1 (proj1 (proj2 (X8_readFile_end_to_end (fun _ => "TypeError")
                                  bigFileBox "D:\notes.txt" Hok))
                        (Hfree bigFileBox eq_refl))).
  - exact (proj1 (proj1 (proj2 (X8_readFile_end_to_end (fun _ => "TypeError")
                                  windowsBox "D:\notes.txt" Hok))
                        (Hfree windowsBox eq_refl))).
Defined.

(** ** The saved profile *)
Section SavedProfileFacts.

Variable toText : Js.Value -> string.

Lemma legacyNameMap_values (saved v : string) :
  Js.ownProperty Hooks.legacyNameMap saved = Some v ->
  Presets.isPresetKey v = true /\ Js.truthy (Js.Str v) = true /\
  String.eqb v saved = false.
Proof.
  intros H. apply ownProperty_In in H. unfold Hooks.legacyNameMap in H.
  simpl in H.
  repeat (destruct H as [H | H];
          [injection H as <- <-; repeat split; reflexivity|]).
  contradiction.
Qed.

(** The text of a built-in is never a key: not of the preset table, not of
    [Object.prototype]. *)
Lemma native_text_no_preset (name : string) (callable : bool) :
  Js.lookup Presets.toValue Presets.presets
            (Hooks.keyOf toText (Js.Native name callable)) = Js.Undefined.
Proof.
  unfold Hooks.keyOf. destruct callable.
  - reflexivity.
  - reflexivity.
Qed.

Lemma inherited_native (key : string) (v : Js.Value) :
  Js.inherited key = Some v -> exists name callable, v = Js.Native name callable.
Proof.
  unfold Js.inherited.
  destruct (String.eqb key "constructor"); [intros [= <-]; eauto|].
  destruct (String.eqb key "__proto__"); [intros [= <-]; eauto|].
  destruct (existsb _ _); [intros [= <-]; eauto | discriminate].
Qed.

Lemma preset_key_not_inherited (key : string) :
  Presets.isPresetKey key = true -> Js.inherited key = None.
Proof.
  intros H. apply existsb_exists in H. destruct H as (k & Hin & Hk).
  apply String.eqb_eq in Hk. subst k.
  unfold Presets.presetKeys, Presets.presets in Hin. simpl in Hin.
  repeat (destruct Hin as [<- | Hin]; [reflexivity|]). contradiction.
Qed.

(** The three ways the effect can end for a non-empty saved value. *)
Lemma loadSavedProfile_cases (st : Hooks.State) (saved : string) :
  Hooks.storage st !! "gb.profile" = Some saved ->
  saved <> "" ->
  (exists k,
      Js.ownProperty Hooks.legacyNameMap saved = Some k /\
      Presets.isPresetKey k = true /\
      Hooks.loadSavedProfile toText st
        = {| Hooks.activeProfile := Js.Str k;
             Hooks.storage := <["gb.profile" := k]> (Hooks.storage st) |}) \/
  (Js.ownProperty Hooks.legacyNameMap saved = None /\
   Presets.isPresetKey saved = true /\
   Hooks.loadSavedProfile toText st
     = {| Hooks.activeProfile := Js.Str saved;
          Hooks.storage := Hooks.storage st |}) \/
  (Js.ownProperty Hooks.legacyNameMap saved = None /\
   Presets.isPresetKey saved = false /\
   Hooks.loadSavedProfile toText st
     = {| Hooks.activeProfile := Hooks.activeProfile st;
          Hooks.storage := delete "gb.profile" (Hooks.storage st) |}).
Proof.
  intros Hsaved Hne. unfold Hooks.loadSavedProfile. rewrite Hsaved.
  assert (E : String.eqb saved "" = false) by (apply String.eqb_neq; exact Hne).
  rewrite E.
  assert (Hlegacy : Js.lookup Js.Str Hooks.legacyNameMap saved
                    = match Js.ownProperty Hooks.legacyNameMap saved with
                      | Some v => Js.Str v
                      | None => match Js.inherited saved with
                                | Some v => v
                                | None => Js.Undefined
                                end
                      end) by reflexivity.
  rewrite Hlegacy. clear Hlegacy.
  destruct (Js.ownProperty Hooks.legacyNameMap saved) as [k|] eqn:Hown.
  - left. exists k. destruct (legacyNameMap_values saved k Hown) as (Hkey & Ht & Hdiff).
    split; [reflexivity|]. split; [exact Hkey|].
    unfold Js.or. rewrite Ht. cbn [Hooks.keyOf Hooks.differs].
    destruct (preset_lookup_own k Hkey) as (cfg & _ & ->).
    rewrite Hdiff. reflexivity.
  - right. destruct (Js.inherited saved) as [v|] eqn:Hinh.
    + right. destruct (inherited_native saved v Hinh) as (name & callable & ->).
      split; [reflexivity|]. split.
      * destruct (Presets.isPresetKey saved) eqn:Hk; [|reflexivity].
        rewrite (preset_key_not_inherited saved Hk) in Hinh. discriminate.
      * unfold Js.or. cbn [Js.truthy]. rewrite native_text_no_preset. reflexivity.
    + unfold Js.or. cbn [Js.truthy Hooks.keyOf].
      destruct (Presets.isPresetKey saved) eqn:Hk.
      * left. split; [reflexivity|]. split; [reflexivity|].
        destruct (preset_lookup_own saved Hk) as (cfg & _ & ->).
        cbn [Js.truthy Presets.toValue Hooks.differs].
        rewrite String.eqb_refl. reflexivity.
      * right. split; [reflexivity|]. split; [reflexivity|].
        unfold Js.lookup. rewrite (ownProperty_None Presets.presets saved Hk), Hinh.
        reflexivity.
Qed.

Lemma legacy_name_not_inherited (saved k : string) :
  Js.ownProperty Hooks.legacyNameMap saved = Some k -> Js.inherited saved = None.
Proof.
  intros H. apply ownProperty_In in H.
  unfold Hooks.legacyNameMap in H. simpl in H.
  repeat (destruct H as [[= <- <-] | H]; [reflexivity|]). contradiction.
Qed.

End SavedProfileFacts.

(** X9. After the effect that loads the saved profile, the storage key
    [gb.profile] is absent, empty, or a key of the preset table, and in the
    last case [activeProfile] is that key; otherwise [activeProfile] is as
    before. No other storage key changes, and running the effect again
    changes nothing. *)
Theorem X9_saved_profile_settles :
  forall (toText : Js.Value -> string) (st : Hooks.State),
    let st' := Hooks.loadSavedProfile toText st in
    ((Hooks.storage st' !! "gb.profile" = None /\
      Hooks.activeProfile st' = Hooks.activeProfile st) \/
     (Hooks.storage st' !! "gb.profile" = Some "" /\
      Hooks.activeProfile st' = Hooks.activeProfile st) \/
     (exists k, Presets.isPresetKey k = true /\
                Hooks.storage st' !! "gb.profile" = Some k /\
                Hooks.activeProfile st' = Js.Str k)) /\
    (forall key, key <> "gb.profile" ->
                 Hooks.storage st' !! key = Hooks.storage st !! key) /\
    Hooks.loadSavedProfile toText st' = st'.
Proof.
  intros toText st. cbv zeta.
  destruct (Hooks.storage st !! "gb.profile") as [saved|] eqn:Hsaved.
  - destruct (String.eqb saved "") eqn:E.
    + apply String.eqb_eq in E. subst saved.
      assert (Hst : Hooks.loadSavedProfile toText st = st).
      { unfold Hooks.loadSavedProfile. rewrite Hsaved. reflexivity. }
      rewrite !Hst. split; [right; left; split; [exact Hsaved | reflexivity]|].
      split; reflexivity.
    + apply String.eqb_neq in E.
      destruct (loadSavedProfile_cases toText st saved Hsaved E)
        as [(k & _ & Hk & ->) | [(_ & Hk & ->) | (_ & _ & ->)]].
      * split; [|split].
        -- right. right. exists k. cbn [Hooks.storage Hooks.activeProfile].
           rewrite lookup_insert_eq. repeat split. exact Hk.
        -- intros key Hkey. cbn [Hooks.storage].
           rewrite lookup_insert_ne by congruence. reflexivity.
        -- assert (Hne : k <> "").
           { intros ->. discriminate Hk. }
           destruct (loadSavedProfile_cases toText
                       {| Hooks.activeProfile := Js.Str k;
                          Hooks.storage := <["gb.profile" := k]> (Hooks.storage st) |}
                       k (lookup_insert_eq _ _ _) Hne)
             as [(k' & Hown & _) | [(_ & _ & ->) | (_ & Hk' & _)]].
           ++ exfalso. apply existsb_exists in Hk. destruct Hk as (x & Hin & Hx).
              apply String.eqb_eq in Hx. subst x.
              unfold Presets.presetKeys, Presets.presets in Hin. simpl in Hin.
              repeat (destruct Hin as [<- | Hin]; [discriminate Hown|]).
              contradiction.
           ++ reflexivity.
           ++ congruence.
      * split; [|split].
        -- right. right. exists saved. cbn [Hooks.storage Hooks.activeProfile].
           repeat split; assumption.
        -- intros key _. reflexivity.
        -- destruct (loadSavedProfile_cases toText
                       {| Hooks.activeProfile := Js.Str saved;
                          Hooks.storage := Hooks.storage st |}
                       saved Hsaved E)
             as [(k' & Hown & _) | [(_ & _ & ->) | (_ & Hk' & _)]].
           ++ exfalso. apply existsb_exists in Hk. destruct Hk as (x & Hin & Hx).
              apply String.eqb_eq in Hx. subst x.
              unfold Presets.presetKeys, Presets.presets in Hin. simpl in Hin.
              repeat (destruct Hin as [<- | Hin]; [discriminate Hown|]).
              contradiction.
           ++ reflexivity.
           ++ congruence.
      * split; [|split].
        -- left. cbn [Hooks.storage Hooks.activeProfile].
           rewrite lookup_delete_eq. split; reflexivity.
        -- intros key Hkey. cbn [Hooks.storage].
           rewrite lookup_delete_ne by congruence. reflexivity.
        -- unfold Hooks.loadSavedProfile. cbn [Hooks.storage].
           rewrite lookup_delete_eq. reflexivity.
  - assert (Hst : Hooks.loadSavedProfile toText st = st).
    { unfold Hooks.loadSavedProfile. rewrite Hsaved. reflexivity. }
    rewrite !Hst. split; [left; split; [exact Hsaved | reflexivity]|].
    split; reflexivity.
Qed.

(** X10. A saved value that is a name of [legacyNameMap] is migrated: the
    effect stores its preset key and makes it the active profile. A saved
    value that names a property of [Object.prototype], such as
    [constructor], is removed and the active profile is left as it was: the
    inherited value is never taken for a preset. *)
Theorem X10_legacy_names_migrate :
  forall (toText : Js.Value -> string) (st : Hooks.State) (saved : string),
    Hooks.storage st !! "gb.profile" = Some saved ->
    (forall k, Js.ownProperty Hooks.legacyNameMap saved = Some k ->
               Presets.isPresetKey k = true /\
               Hooks.loadSavedProfile toText st
                 = {| Hooks.activeProfile := Js.Str k;
                      Hooks.storage :=
                        <["gb.profile" := k]> (Hooks.storage st) |}) /\
    (Js.inherited saved <> None ->
     Hooks.loadSavedProfile toText st
       = {| Hooks.activeProfile := Hooks.activeProfile st;
            Hooks.storage := delete "gb.profile" (Hooks.storage st) |}).
Proof.
  intros toText st saved Hsaved.
  assert (Hcases : saved <> "" -> _) by exact (loadSavedProfile_cases toText st saved Hsaved).
  split.
  - intros k Hown.
    assert (Hne : saved <> "") by (intros ->; discriminate Hown).
    destruct (Hcases Hne) as [(k' & Hown' & Hk & ->) | [(Hown' & _) | (Hown' & _)]];
      try congruence.
    assert (k' = k) as -> by congruence. split; [exact Hk | reflexivity].
  - intros Hinh.
    assert (Hne : saved <> "") by (intros ->; apply Hinh; reflexivity).
    destruct (Hcases Hne) as [(k' & Hown' & _) | [(_ & Hk & _) | (_ & _ & ->)]].
    + exfalso. apply Hinh. exact (legacy_name_not_inherited saved k' Hown').
    + exfalso. apply Hinh. exact (preset_key_not_inherited saved Hk).
    + reflexivity.
Qed.

Lemma X10_witness :
  let st := {| Hooks.activeProfile := Js.Null;
               Hooks.storage := {[ "gb.profile" := "Silencioso" ]} |} in
  Hooks.loadSavedProfile (fun _ => EmptyString) st
    = {| Hooks.activeProfile := Js.Str "silent";
         Hooks.storage := <["gb.profile" := "silent"]> (Hooks.storage st) |}.
Proof.
  intros st.
  apply (X10_legacy_names_migrate (fun _ => EmptyString) st "Silencioso").
  - reflexivity.
  - reflexivity.
Defined.

(** ** What the bridge reports of a run *)
Section BridgeReports.

Lemma effectiveTimeout_kept_by_host (timeout : Js.Value) :
  match Preload.effectiveTimeout timeout with
  | Js.Undefined => Js.Number (Js.ofZ 30000)
  | _ => Preload.effectiveTimeout timeout
  end = Preload.effectiveTimeout timeout.
Proof.
  destruct timeout as [| | b | n | s | props | items | name c]; try reflexivity.
  unfold Preload.effectiveTimeout.
  destruct (Js.lt n (Js.ofZ 1000) || Js.gt n (Js.ofZ 120000)); reflexivity.
Qed.

Lemma or_str_default (s : string) :
  Js.or (Js.Str s) (Js.Str "") = Js.Str s.
Proof.
  unfold Js.or. simpl. destruct (String.eqb s "") eqn:E; [|reflexivity].
  apply String.eqb_eq in E. now subst.
Qed.

(** The object the bridge makes of a result of the host. *)
Lemma runPS_of_host_result (r : Host.PSResult) :
  match Js.get (Host.resultValue r) "stdout", Js.get (Host.resultValue r) "stderr",
        Js.get (Host.resultValue r) "code", Js.get (Host.resultValue r) "duration"
  with
  | Some out, Some err, Some c, Some d =>
      Js.or out (Js.Str "") = Js.Str (Host.stdout r) /\
      Js.or err (Js.Str "") = Js.Str (Host.stderr r) /\
      c = Js.Number (Js.ofZ (Host.code r)) /\
      d = Js.Number (Js.ofZ (Host.duration r))
  | _, _, _, _ => False
  end.
Proof.
  destruct r as [out err c d]. cbn. rewrite !or_str_default. repeat split.
Qed.

Lemma ofZ_inj (a b : Z) : Js.Number (Js.ofZ a) = Js.Number (Js.ofZ b) -> a = b.
Proof. unfold Js.ofZ, inject_Z. now intros [= ->]. Qed.

(** The bridge on the host of [main.js], for a command it lets through. *)
Lemma runPS_over_host (m : Host.Machine) (s : string) (timeout : Js.Value) :
  Preload.validateCommand (Js.Str s) = inr true ->
  let answer := Host.runPowershellHandler (Js.Str s)
                  (Preload.effectiveTimeout timeout) m in
  fst (fst (Preload.runPS Preload.hostInvoke (Js.Str s) timeout m))
    = {| Preload.stdout := Js.Str (Host.stdout (fst answer));
         Preload.stderr := Js.Str (Host.stderr (fst answer));
         Preload.code := Js.Number (Js.ofZ (Host.code (fst answer)));
         Preload.duration := Js.Number (Js.ofZ (Host.duration (fst answer))) |}.
Proof.
  intros Hv. cbv zeta. unfold Preload.runPS. rewrite Hv.
  unfold Preload.hostInvoke. simpl String.eqb. cbv iota. cbn [nth].
  destruct (Host.runPowershellHandler (Js.Str s)
              (Preload.effectiveTimeout timeout) m) as [r m'].
  pose proof (runPS_of_host_result r) as H.
  destruct (Js.get (Host.resultValue r) "stdout") as [out|]; [|contradiction].
  destruct (Js.get (Host.resultValue r) "stderr") as [err|]; [|contradiction].
  destruct (Js.get (Host.resultValue r) "code") as [c|]; [|contradiction].
  destruct (Js.get (Host.resultValue r) "duration") as [d|]; [|contradiction].
  destruct H as (-> & -> & -> & ->). reflexivity.
Qed.

End BridgeReports.

(** X11. On a Windows host, [runPS] reports code 0 only for a run that
    took place: the command reached the interpreter and the process exited
    with code 0 or without a code; the stdout and the duration reported are
    those of that process. A command that is refused on the way is
    reported with empty stdout, code 1 and duration 0. *)
Theorem X11_zero_code_is_genuine :
  forall (m : Host.Machine) (command timeout : Js.Value),
    Host.isWindows m = true ->
    let r := fst (fst (Preload.runPS Preload.hostInvoke command timeout m)) in
    match reachesShell command m with
    | Some s =>
        let child := Host.powershell m s (Preload.effectiveTimeout timeout) in
        Preload.stdout r = Js.Str (Host.out child) /\
        Preload.duration r = Js.Number (Js.ofZ (Host.elapsed child)) /\
        (Preload.code r = Js.Number (Js.ofZ 0) <->
         Host.ending child = Host.Exited (Some 0) \/
         Host.ending child = Host.Exited None)
    | None =>
        Preload.stdout r = Js.Str "" /\
        Preload.code r = Js.Number (Js.ofZ 1) /\
        Preload.duration r = Js.Number (Js.ofZ 0)
    end.
Proof.
  intros m command timeout Hwin. cbv zeta.
  destruct (reachesShell command m) as [s|] eqn:Hr.
  - destruct (reachesShell_some _ _ _ Hr) as (-> & Hv & Hlen & Hsafe & _).
    rewrite (runPS_over_host m s timeout Hv).
    cbn [Preload.stdout Preload.code Preload.duration].
    unfold Host.runPowershellHandler.
    rewrite effectiveTimeout_kept_by_host, Hlen, Hsafe.
    unfold Host.runPowerShellCommand. rewrite Hwin. cbn [negb].
    destruct (Host.ending (Host.powershell m s (Preload.effectiveTimeout timeout)))
      as [[c|] | message |] eqn:Hend; cbn [fst Host.stdout Host.code Host.duration].
    + split; [reflexivity|]. split; [reflexivity|].
      destruct (c =? 0) eqn:E.
      * apply Z.eqb_eq in E. subst c. split; [left; reflexivity | reflexivity].
      * apply Z.eqb_neq in E. split.
        -- intros H. apply ofZ_inj in H. contradiction.
        -- intros [[= Hc] | [=]]. contradiction.
    + split; [reflexivity|]. split; [reflexivity|].
      split; [right; reflexivity | reflexivity].
    + split; [reflexivity|]. split; [reflexivity|].
      split; [intros H; apply ofZ_inj in H; discriminate | intros [[=] | [=]]].
    + split; [reflexivity|]. split; [reflexivity|].
      split; [intros H; apply ofZ_inj in H; discriminate | intros [[=] | [=]]].
  - unfold Preload.runPS.
    destruct (Preload.validateCommand command) as [msg | ok] eqn:Hv;
      [repeat split|].
    destruct command as [| | b | n | s | props | items | name c];
      try discriminate Hv.
    assert (Hv' : Preload.validateCommand (Js.Str s) = inr true).
    { destruct ok; [exact Hv|]. simpl in Hv.
      destruct (_ || _) in Hv; discriminate Hv. }
    pose proof (runPS_over_host m s timeout Hv') as Hrun.
    cbv zeta in Hrun. unfold Preload.runPS in Hrun. rewrite Hv in Hrun.
    rewrite Hrun. clear Hrun.
    cbn [Preload.stdout Preload.code Preload.duration].
    simpl in Hv.
    destruct ((String.length s =? 0)%nat) eqn:E0; [discriminate Hv|].
    destruct ((1000 <? String.length s)%nat) eqn:E1; [discriminate Hv|].
    unfold Host.runPowershellHandler.
    rewrite effectiveTimeout_kept_by_host, E1.
    unfold reachesShell in Hr.
    assert (H1 : (1 <=? String.length s)%nat = true).
    { apply Nat.leb_le. apply Nat.eqb_neq in E0. lia. }
    assert (H2 : (String.length s <=? 1000)%nat = true).
    { apply Nat.leb_le. apply Nat.ltb_ge in E1. lia. }
    rewrite H1, H2, Hwin in Hr. cbn [andb] in Hr.
    destruct (existsb _ Host.dangerousCommands) eqn:E3; [repeat split|].
    discriminate Hr.
Qed.


Lemma X11_witness :
  Host.isWindows windowsBox = true /\
  Preload.stdout
    (fst (fst (Preload.runPS Preload.hostInvoke (Js.Str "dir") Js.Undefined
                 windowsBox))) = Js.Str "done".
Proof.
  split; [reflexivity|].
  exact (proj1 (X11_zero_code_is_genuine windowsBox (Js.Str "dir") Js.Undefined
                  eq_refl)).
Defined.

(** ** The cooldown of the Turbo button *)
Section CooldownFacts.

Lemma sub_ofZ (a b : Z) : JsNum.sub (Js.ofZ a) (Js.ofZ b) = Js.ofZ (a - b).
Proof.
  unfold JsNum.sub, Js.ofZ, inject_Z, Qminus, Qplus, Qopp. simpl.
  f_equal. f_equal. ring.
Qed.

Lemma floor_div_1000 (a : Z) :
  JsNum.floor (JsNum.div (Js.ofZ a) (Js.ofZ 1000)) = Js.ofZ (a / 1000).
Proof.
  unfold JsNum.floor, JsNum.div, Js.ofZ, inject_Z. simpl Qeq_bool.
  cbv iota. unfold Qdiv, Qmult, Qinv, Qfloor. simpl.
  now rewrite Z.mul_1_r.
Qed.

Lemma gt_ofZ (a b : Z) : Js.gt (Js.ofZ a) (Js.ofZ b) = (b <? a).
Proof.
  unfold Js.gt, Js.lt, Js.ofZ.
  destruct (Qlt_le_dec (inject_Z b) (inject_Z a)) as [H | H].
  - symmetry. apply Z.ltb_lt. unfold Qlt in H. simpl in H. lia.
  - symmetry. apply Z.ltb_ge. unfold Qle in H. simpl in H. lia.
Qed.

Lemma max_ofZ (a b : Z) : JsNum.max (Js.ofZ a) (Js.ofZ b) = Js.ofZ (Z.max a b).
Proof.
  unfold JsNum.max. change (Js.lt (Js.ofZ a) (Js.ofZ b)) with (Js.gt (Js.ofZ b) (Js.ofZ a)).
  unfold Js.ofZ at 1 2. cbv iota. fold (Js.ofZ a). fold (Js.ofZ b).
  rewrite gt_ofZ. destruct (a <? b) eqn:E.
  - apply Z.ltb_lt in E. now rewrite Z.max_r by lia.
  - apply Z.ltb_ge in E. now rewrite Z.max_l by lia.
Qed.

Lemma tick_ofZ (c : Z) :
  TurboHook.tick (Js.ofZ c) = Js.ofZ (if 0 <? c then c - 1 else c).
Proof.
  unfold TurboHook.tick. rewrite gt_ofZ. destruct (0 <? c); [apply sub_ofZ | reflexivity].
Qed.

Lemma ticks_ofZ (n : nat) (c : Z) :
  0 <= c -> ticks n (Js.ofZ c) = Js.ofZ (Z.max 0 (c - Z.of_nat n)).
Proof.
  intros Hc. unfold ticks. induction n as [|n IH].
  - simpl. f_equal. lia.
  - rewrite Nat.iter_succ, IH, tick_ofZ. f_equal.
    destruct (0 <? Z.max 0 (c - Z.of_nat n)) eqn:E.
    + apply Z.ltb_lt in E. lia.
    + apply Z.ltb_ge in E. lia.
Qed.

End CooldownFacts.

(** X12. When the storage holds the data of a Turbo run stored at time
    [t0], the effect that [useTurbo] runs on mount [d] milliseconds later
    sets the cooldown to [60 - floor(d / 1000)] seconds if [d] is below
    60000 and leaves it alone otherwise. For [d] from 0 on, that is a whole
    number between 1 and 60; the countdown then reaches zero after as many
    ticks, stays there, and only then is the button idle again. *)
Theorem X12_cooldown_after_reload :
  forall (coerce : Js.Value -> Js.Num) (w : Browser.World) (t0 : Z)
         (k : string) (cooldown : Js.Num),
    Browser.localStorage w !! "gb.turbo" = Some (JSON.stringifyTurboData t0 k) ->
    let d := Browser.clock w (Browser.clockReads w) - t0 in
    let remaining := 60 - d / 1000 in
    fst (TurboHook.loadCooldown coerce cooldown w)
      = Browser.Normal (if d <? 60000 then Js.ofZ remaining else cooldown) /\
    (0 <= d < 60000 ->
     1 <= remaining <= 60 /\
     forall n : nat,
       ticks n (Js.ofZ remaining) = Js.ofZ (Z.max 0 (remaining - Z.of_nat n)) /\
       (TurboHook.getButtonState false (ticks n (Js.ofZ remaining))
          = TurboHook.Idle <-> remaining <= Z.of_nat n)).
Proof.
  intros coerce w t0 k cooldown Hstored. cbv zeta.
  set (d := Browser.clock w (Browser.clockReads w) - t0).
  split.
  - unfold TurboHook.loadCooldown, Browser.bind.
    pose proof (getLastTurboData_stored w t0 k Hstored) as Hdata.
    destruct (Turbo.getLastTurboData w) as [c w1] eqn:Hget.
    assert (Hw1 : w1 = w).
    { unfold Turbo.getLastTurboData, Browser.bind, Browser.getItem in Hget.
      rewrite Hstored in Hget.
      rewrite stringifyTurboData_not_empty, parse_stringifyTurboData in Hget.
      now injection Hget as _ <-. }
    simpl in Hdata. subst c w1.
    cbn [Js.truthy JSON.turboDataValue Browser.now].
    change (Js.get (JSON.turboDataValue t0 k) "lastTurboAt")
      with (Some (Js.Number (Js.ofZ t0))).
    cbn [JsNum.toNumber]. rewrite sub_ofZ. fold d.
    rewrite floor_div_1000, sub_ofZ, max_ofZ, gt_ofZ.
    unfold Browser.ret. cbn [fst].
    destruct (d <? 60000) eqn:E.
    + apply Z.ltb_lt in E.
      assert (Hq : d / 1000 < 60) by (apply Z.div_lt_upper_bound; lia).
      replace (0 <? Z.max 0 (60 - d / 1000)) with true
        by (symmetry; apply Z.ltb_lt; lia).
      rewrite Z.max_r by lia. reflexivity.
    + apply Z.ltb_ge in E.
      assert (Hq : 60 <= d / 1000) by (apply Z.div_le_lower_bound; lia).
      replace (0 <? Z.max 0 (60 - d / 1000)) with false
        by (symmetry; apply Z.ltb_ge; lia).
      reflexivity.
  - intros [Hd0 Hd1].
    assert (Hq0 : 0 <= d / 1000) by (apply Z.div_pos; lia).
    assert (Hq1 : d / 1000 < 60) by (apply Z.div_lt_upper_bound; lia).
    split; [lia|]. intros n.
    rewrite ticks_ofZ by lia. split; [reflexivity|].
    unfold TurboHook.getButtonState. rewrite gt_ofZ.
    destruct (0 <? Z.max 0 (60 - d / 1000 - Z.of_nat n)) eqn:E.
    + apply Z.ltb_lt in E. split; [discriminate | lia].
    + apply Z.ltb_ge in E. split; [lia | reflexivity].
Qed.

Lemma X12_witness :
  fst (TurboHook.loadCooldown (fun _ => Js.NaN) (Js.ofZ 0) reloadedWorld)
    = Browser.Normal (Js.ofZ 59).
Proof.
  exact (proj1 (X12_cooldown_after_reload (fun _ => Js.NaN) reloadedWorld 1000
                  "esports" (Js.ofZ 0) eq_refl)).
Defined.

(** ** The optimizer functions that go to the shell *)
Section ShellFacts.

Lemma whitelisted_iff (options : WinOptShell.ProcessPriorityOptions) :
  WinOptShell.whitelisted options = true <-> systemProcess options.
Proof.
  unfold WinOptShell.whitelisted, WinOptShell.nameGiven, WinOptShell.nameText,
    systemProcess.
  split.
  - intros H. apply andb_true_iff in H. destruct H as [Hname Hsome].
    destruct (WinOptShell.name options) as [n|]; [|discriminate].
    apply existsb_exists in Hsome. destruct Hsome as (sys & Hin & Hinc).
    exists n, sys. split; [reflexivity|]. split; [exact Hin|].
    now apply includes_lower_iff.
  - intros (n & sys & -> & Hin & Hc).
    apply andb_true_iff. split.
    + destruct n as [|c n]; [|reflexivity].
      destruct Hc as (pre & mid & post & Hn & Hmid).
      destruct pre; [|discriminate]. destruct mid; [|discriminate].
      exfalso. unfold WinOptShell.SYSTEM_WHITELIST in Hin. simpl in Hin.
      repeat (destruct Hin as [<- | Hin]; [discriminate Hmid|]). contradiction.
    + apply existsb_exists. exists sys. split; [exact Hin|].
      now apply includes_lower_iff.
Qed.

End ShellFacts.

(** X13. [setProcessPriority] answers false and sends nothing to the
    backend for a process whose name contains a name of the system
    whitelist in any letter case, and also when neither a name nor a
    process id is given. In every other case it sends exactly one command,
    with the timeout of 20 seconds. *)
Theorem X13_system_processes_left_alone :
  forall (B : Type)
         (runPS : Js.Value -> Js.Value -> B -> Preload.Reply * B)
         (callFn : Js.Value -> Js.Value -> list Js.Value -> option Js.Value)
         (numText : Js.Num -> string)
         (options : WinOptShell.ProcessPriorityOptions)
         (p : WinOptShell.Page B),
    let answer := WinOptShell.setProcessPriority runPS callFn numText options p in
    let missing := WinOptShell.nameGiven options = false /\
                   WinOptShell.pidGiven options = false in
    (systemProcess options \/ missing -> answer = (Js.Boolean false, p)) /\
    (~ systemProcess options -> ~ missing ->
     WinOptShell.sent (snd answer)
       = (WinOptShell.sent p
          ++ [(WinOptShell.priorityCommand numText options,
               WinOptShell.PS_TIMEOUT)])%list /\
     WinOptShell.storage (snd answer) = WinOptShell.storage p).
Proof.
  intros B runPS callFn numText options p. cbv zeta.
  unfold WinOptShell.setProcessPriority, WinOptShell.orFalse.
  split.
  - intros [Hsys | [Hname Hpid]].
    + apply whitelisted_iff in Hsys. rewrite Hsys.
      destruct (negb _ && negb _); reflexivity.
    + rewrite Hname, Hpid. reflexivity.
  - intros Hsys Hmissing.
    destruct (WinOptShell.whitelisted options) eqn:Hw.
    { exfalso. apply Hsys. now apply whitelisted_iff. }
    destruct (negb (WinOptShell.nameGiven options)
              && negb (WinOptShell.pidGiven options)) eqn:Hg.
    { exfalso. apply Hmissing. apply andb_true_iff in Hg.
      destruct Hg as [H1 H2]. apply negb_true_iff in H1, H2. now split. }
    unfold WinOptShell.bind, WinOptShell.await.
    destruct (runPS _ _ (WinOptShell.backend p)) as [[v | e] b]; [|split; reflexivity].
    unfold WinOptShell.andIncludes, WinOptShell.lift, WinOptShell.ret.
    destruct (Js.truthy v); [|split; reflexivity].
    destruct (WinOptShell.callIncludes callFn v "alterada para");
      split; reflexivity.
Qed.

Lemma X13_witness :
  WinOptShell.setProcessPriority balancedBackend (fun _ _ _ => None)
    (fun _ => "0")
    {| WinOptShell.name := Some "C:\Windows\Explorer.EXE";
       WinOptShell.pid := None;
       WinOptShell.level := WinOptShell.High |}
    freshPage
  = (Js.Boolean false, freshPage).
Proof.
  apply (X13_system_processes_left_alone unit balancedBackend).
  left. exists "C:\Windows\Explorer.EXE", "explorer".
  split; [reflexivity|]. split; [simpl; auto|].
  exists "C:\Windows\", "Explorer", ".EXE". split; reflexivity.
Defined.

(** ** Saving and restoring the power plan *)
Section PowerPlanFacts.

Context {B : Type}.
Variable runPS : Js.Value -> Js.Value -> B -> Preload.Reply * B.
Variable callFn : Js.Value -> Js.Value -> list Js.Value -> option Js.Value.
Variable toText : Js.Value -> string.
Hypothesis Htext : answersText runPS.

(** One call of a backend that answers with text. *)
Lemma await_text (command : string) (p : WinOptShell.Page B) :
  exists s b,
    runPS (Js.Str command) WinOptShell.PS_TIMEOUT (WinOptShell.backend p)
      = (Preload.Resolved (Js.Str s), b) /\
    WinOptShell.await runPS command p
      = (Some (Js.Str s),
         WinOptShell.mkPage (WinOptShell.storage p) b
           (WinOptShell.sent p ++ [(command, WinOptShell.PS_TIMEOUT)])%list).
Proof.
  destruct (Htext (Js.Str command) WinOptShell.PS_TIMEOUT (WinOptShell.backend p))
    as [s Hs].
  unfold WinOptShell.await.
  destruct (runPS _ _ (WinOptShell.backend p)) as [reply b].
  simpl in Hs. subst reply. exists s, b. split; reflexivity.
Qed.

Lemma andIncludes_text (s marker : string) (p : WinOptShell.Page B) :
  exists v, WinOptShell.andIncludes callFn (Js.Str s) marker p = (Some v, p).
Proof.
  unfold WinOptShell.andIncludes. destruct (Js.truthy (Js.Str s)); eexists; reflexivity.
Qed.

Lemma applyPowerPlan_text (mode : WinOptShell.PowerMode) (p : WinOptShell.Page B) :
  exists plan b v p1,
    runPS (Js.Str WinOptShell.getCurrentPlan) WinOptShell.PS_TIMEOUT
          (WinOptShell.backend p)
      = (Preload.Resolved (Js.Str plan), b) /\
    WinOptShell.applyPowerPlan runPS callFn toText mode p = (v, p1) /\
    WinOptShell.sent p1
      = (WinOptShell.sent p
         ++ [(WinOptShell.getCurrentPlan, WinOptShell.PS_TIMEOUT);
             (WinOptShell.applyCommand mode, WinOptShell.PS_TIMEOUT)])%list /\
    WinOptShell.storage p1
      = if String.eqb (WinOptShell.trim plan) ""
        then WinOptShell.storage p
        else <["gb.prevPowerPlan" := WinOptShell.trim plan]> (WinOptShell.storage p).
Proof.
  destruct (await_text WinOptShell.getCurrentPlan p) as (plan & b & Hrun & Hawait).
  exists plan, b.
  unfold WinOptShell.applyPowerPlan, WinOptShell.orFalse.
  unfold WinOptShell.bind at 1. rewrite Hawait.
  unfold WinOptShell.bind at 1.
  set (p0 := WinOptShell.mkPage (WinOptShell.storage p) b
               (WinOptShell.sent p ++ [(WinOptShell.getCurrentPlan,
                                        WinOptShell.PS_TIMEOUT)])%list).
  assert (Hsave :
    exists p0',
      (if Js.truthy (Js.Str plan)
       then WinOptShell.bind (WinOptShell.lift (WinOptShell.callTrim callFn (Js.Str plan)))
              (fun trimmed =>
                 if Js.truthy trimmed
                 then WinOptShell.bind
                        (WinOptShell.lift (WinOptShell.callTrim callFn (Js.Str plan)))
                        (fun again =>
                           WinOptShell.setItem "gb.prevPowerPlan"
                             (WinOptShell.textOf toText again))
                 else WinOptShell.ret tt)
       else WinOptShell.ret tt) p0 = (Some tt, p0') /\
      WinOptShell.sent p0' = WinOptShell.sent p0 /\
      WinOptShell.storage p0'
        = if String.eqb (WinOptShell.trim plan) ""
          then WinOptShell.storage p
          else <["gb.prevPowerPlan" := WinOptShell.trim plan]> (WinOptShell.storage p)).
  { cbn [Js.truthy WinOptShell.callTrim].
    destruct (String.eqb plan "") eqn:Eplan.
    - apply String.eqb_eq in Eplan. subst plan. exists p0. repeat split.
    - cbn [negb]. unfold WinOptShell.bind, WinOptShell.lift.
      cbn [Js.truthy].
      destruct (String.eqb (WinOptShell.trim plan) ""); cbn [negb].
      + exists p0. repeat split.
      + eexists. repeat split. }
  destruct Hsave as (p0' & -> & Hsent & Hstore).
  destruct (await_text (WinOptShell.applyCommand mode) p0')
    as (result & b' & _ & Hawait').
  unfold WinOptShell.bind. rewrite Hawait'.
  match goal with
  | |- context [WinOptShell.andIncludes callFn (Js.Str result) ?m ?q] =>
      destruct (andIncludes_text result m q) as (v & ->)
  end.
  eexists _, _. split; [exact Hrun|]. split; [reflexivity|].
  cbn [WinOptShell.sent WinOptShell.storage].
  rewrite Hsent, Hstore. subst p0. cbn [WinOptShell.sent].
  rewrite <- app_assoc. split; reflexivity.
Qed.

Lemma restoreStartup_text (p : WinOptShell.Page B) :
  exists v b,
    WinOptShell.restoreStartup runPS callFn p
      = (v, WinOptShell.mkPage (WinOptShell.storage p) b
              (WinOptShell.sent p
               ++ [(WinOptShell.restoreStartupCommand, WinOptShell.PS_TIMEOUT)])%list).
Proof.
  destruct (await_text WinOptShell.restoreStartupCommand p) as (s & b & _ & Hawait).
  unfold WinOptShell.restoreStartup, WinOptShell.orFalse, WinOptShell.bind.
  rewrite Hawait.
  match goal with
  | |- context [WinOptShell.andIncludes callFn (Js.Str s) ?m ?q] =>
      destruct (andIncludes_text s m q) as (v & ->)
  end.
  exists v, b. reflexivity.
Qed.

Lemma restoreAll_text (p : WinOptShell.Page B) :
  exists v p',
  WinOptShell.restoreAll runPS callFn p = (v, p') /\
  match WinOptShell.storage p !! "gb.prevPowerPlan" with
  | Some plan =>
      if String.eqb plan "" then
        WinOptShell.sent p'
          = (WinOptShell.sent p
             ++ [(WinOptShell.restoreStartupCommand, WinOptShell.PS_TIMEOUT)])%list /\
        WinOptShell.storage p' = WinOptShell.storage p
      else
        WinOptShell.sent p'
          = (WinOptShell.sent p
             ++ [(WinOptShell.restorePowerCommand plan, WinOptShell.PS_TIMEOUT);
                 (WinOptShell.restoreStartupCommand, WinOptShell.PS_TIMEOUT)])%list /\
        WinOptShell.storage p' = delete "gb.prevPowerPlan" (WinOptShell.storage p)
  | None =>
      WinOptShell.sent p'
        = (WinOptShell.sent p
           ++ [(WinOptShell.restoreStartupCommand, WinOptShell.PS_TIMEOUT)])%list /\
      WinOptShell.storage p' = WinOptShell.storage p
  end.
Proof.
  unfold WinOptShell.restoreAll, WinOptShell.orFalse.
  unfold WinOptShell.bind at 1. unfold WinOptShell.getItem.
  destruct (WinOptShell.storage p !! "gb.prevPowerPlan") as [plan|] eqn:Hprev.
  - destruct (String.eqb plan "") eqn:Eplan; cbn [negb].
    + unfold WinOptShell.bind, WinOptShell.ret.
      destruct (restoreStartup_text p) as (v & b & ->).
      eexists _, _. split; [reflexivity|]. split; reflexivity.
    + unfold WinOptShell.bind at 1. unfold WinOptShell.bind at 1.
      destruct (await_text (WinOptShell.restorePowerCommand plan) p)
        as (s & b & _ & ->).
      unfold WinOptShell.removeItem. unfold WinOptShell.bind, WinOptShell.ret.
      match goal with
      | |- context [WinOptShell.restoreStartup runPS callFn ?q] =>
          destruct (restoreStartup_text q) as (v & b' & ->)
      end.
      eexists _, _. split; [reflexivity|].
      cbn [WinOptShell.sent WinOptShell.storage].
      rewrite <- app_assoc. split; reflexivity.
  - unfold WinOptShell.bind, WinOptShell.ret.
    destruct (restoreStartup_text p) as (v & b & ->).
    eexists _, _. split; [reflexivity|]. split; reflexivity.
Qed.

End PowerPlanFacts.

(** X14. Over a backend that answers with text, [applyPowerPlan] sends the
    query for the current plan and then the command that applies the mode,
    and stores the trimmed answer to the query under [gb.prevPowerPlan]
    unless it is blank. [restoreAll] then sends the command that sets that
    stored plan active, followed by the command that restores the startup
    entries, and removes the key, so that a second [restoreAll] sends the
    startup command alone. *)
Theorem X14_power_plan_round_trip :
  forall (B : Type)
         (runPS : Js.Value -> Js.Value -> B -> Preload.Reply * B)
         (callFn : Js.Value -> Js.Value -> list Js.Value -> option Js.Value)
         (toText : Js.Value -> string)
         (mode : WinOptShell.PowerMode) (p : WinOptShell.Page B),
    answersText runPS ->
    exists plan b,
      runPS (Js.Str WinOptShell.getCurrentPlan) WinOptShell.PS_TIMEOUT
            (WinOptShell.backend p)
        = (Preload.Resolved (Js.Str plan), b) /\
      let p1 := snd (WinOptShell.applyPowerPlan runPS callFn toText mode p) in
      let p2 := snd (WinOptShell.restoreAll runPS callFn p1) in
      let p3 := snd (WinOptShell.restoreAll runPS callFn p2) in
      WinOptShell.sent p1
        = (WinOptShell.sent p
           ++ [(WinOptShell.getCurrentPlan, WinOptShell.PS_TIMEOUT);
               (WinOptShell.applyCommand mode, WinOptShell.PS_TIMEOUT)])%list /\
      (WinOptShell.trim plan = "" ->
       WinOptShell.storage p1 = WinOptShell.storage p) /\
      (WinOptShell.trim plan <> "" ->
       WinOptShell.storage p1 !! "gb.prevPowerPlan" = Some (WinOptShell.trim plan) /\
       WinOptShell.sent p2
         = (WinOptShell.sent p1
            ++ [(WinOptShell.restorePowerCommand (WinOptShell.trim plan),
                 WinOptShell.PS_TIMEOUT);
                (WinOptShell.restoreStartupCommand, WinOptShell.PS_TIMEOUT)])%list /\
       WinOptShell.storage p2 !! "gb.prevPowerPlan" = None /\
       WinOptShell.sent p3
         = (WinOptShell.sent p2
            ++ [(WinOptShell.restoreStartupCommand, WinOptShell.PS_TIMEOUT)])%list).
Proof.
  intros B runPS callFn toText mode p Htext.
  destruct (applyPowerPlan_text runPS callFn toText Htext mode p)
    as (plan & b & v1 & p1 & Hrun & Happly & Hsent & Hstore).
  exists plan, b. split; [exact Hrun|]. cbv zeta.
  rewrite Happly. cbn [snd].
  split; [exact Hsent|]. split.
  - intros Hblank. rewrite Hblank in Hstore. exact Hstore.
  - intros Hplan. apply String.eqb_neq in Hplan. rewrite Hplan in Hstore.
    assert (Hprev : WinOptShell.storage p1 !! "gb.prevPowerPlan"
                    = Some (WinOptShell.trim plan)).
    { rewrite Hstore. apply lookup_insert_eq. }
    split; [exact Hprev|].
    destruct (restoreAll_text runPS callFn Htext p1) as (v2 & p2 & -> & H2).
    rewrite Hprev, Hplan in H2. destruct H2 as [Hsent2 Hstore2]. cbn [snd].
    split; [exact Hsent2|].
    assert (Hgone : WinOptShell.storage p2 !! "gb.prevPowerPlan" = None).
    { rewrite Hstore2. apply lookup_delete_eq. }
    split; [exact Hgone|].
    destruct (restoreAll_text runPS callFn Htext p2) as (v3 & p3 & -> & H3).
    rewrite Hgone in H3. exact (proj1 H3).
Qed.

Lemma X14_witness :
  WinOptShell.storage
    (snd (WinOptShell.applyPowerPlan balancedBackend (fun _ _ _ => None)
            (fun _ => EmptyString) WinOptShell.performance freshPage))
    !! "gb.prevPowerPlan"
  = Some "381b4222-f694-41f0-9685-ff5bb260df2e".
Proof.
  destruct (X14_power_plan_round_trip unit balancedBackend (fun _ _ _ => None)
              (fun _ => EmptyString) WinOptShell.performance freshPage)
    as (plan & b & Hrun & _ & _ & Hsaved).
  - intros command timeout b. eexists. reflexivity.
  - injection Hrun as <- _. apply Hsaved. discriminate.
Defined.

(** ** The optimizer over the bridge of the preload script *)
Section OverPreload.

Variable callFn : Js.Value -> Js.Value -> list Js.Value -> option Js.Value.

(** The bridge always answers, and with its object. *)
Lemma preloadBackend_object (command timeout : Js.Value) (m : Host.Machine) :
  exists o m',
    WinOptShell.preloadBackend command timeout m
      = (Preload.Resolved (WinOptShell.psObjectValue o), m').
Proof.
  unfold WinOptShell.preloadBackend.
  destruct (Preload.runPS Preload.hostInvoke command timeout m) as [[o m'] sent].
  exists o, m'. reflexivity.
Qed.

(** That object is truthy and has neither [trim] nor [includes]. *)
Lemma psObject_no_methods (o : Preload.PSObject) (marker : string) :
  Js.truthy (WinOptShell.psObjectValue o) = true /\
  WinOptShell.callTrim callFn (WinOptShell.psObjectValue o) = None /\
  WinOptShell.callIncludes callFn (WinOptShell.psObjectValue o) marker = None.
Proof. repeat split. Qed.

Lemma await_preload (command : string) (p : WinOptShell.Page Host.Machine) :
  exists o m',
    WinOptShell.await WinOptShell.preloadBackend command p
      = (Some (WinOptShell.psObjectValue o),
         WinOptShell.mkPage (WinOptShell.storage p) m'
           (WinOptShell.sent p ++ [(command, WinOptShell.PS_TIMEOUT)])%list).
Proof.
  unfold WinOptShell.await.
  destruct (preloadBackend_object (Js.Str command) WinOptShell.PS_TIMEOUT
              (WinOptShell.backend p)) as (o & m' & ->).
  exists o, m'. reflexivity.
Qed.

Lemma andIncludes_preload (o : Preload.PSObject) (marker : string)
      (p : WinOptShell.Page Host.Machine) :
  WinOptShell.andIncludes callFn (WinOptShell.psObjectValue o) marker p = (None, p).
Proof. reflexivity. Qed.

End OverPreload.

(** X15. With [window.backend] as [public/electron/preload.js] exposes it,
    whose [runPS] is fulfilled with an object and never with text, the
    functions of the optimizer that read the answer as text all answer
    false, whatever the host does: [applyPowerPlan] stops after its query,
    stores no previous plan and never sends the command that applies the
    mode; [freeRam], [restoreStartup] and [restoreAll] answer false after
    their command, and so does [setProcessPriority]. *)
Theorem X15_object_bridge_fails_every_step :
  forall (callFn : Js.Value -> Js.Value -> list Js.Value -> option Js.Value)
         (toText : Js.Value -> string) (numText : Js.Num -> string)
         (mode : WinOptShell.PowerMode)
         (options : WinOptShell.ProcessPriorityOptions)
         (p : WinOptShell.Page Host.Machine),
    let applied :=
      WinOptShell.applyPowerPlan WinOptShell.preloadBackend callFn toText mode p in
    fst applied = Js.Boolean false /\
    WinOptShell.storage (snd applied) = WinOptShell.storage p /\
    WinOptShell.sent (snd applied)
      = (WinOptShell.sent p
         ++ [(WinOptShell.getCurrentPlan, WinOptShell.PS_TIMEOUT)])%list /\
    fst (WinOptShell.freeRam WinOptShell.preloadBackend callFn p)
      = Js.Boolean false /\
    fst (WinOptShell.restoreStartup WinOptShell.preloadBackend callFn p)
      = Js.Boolean false /\
    fst (WinOptShell.restoreAll WinOptShell.preloadBackend callFn p)
      = Js.Boolean false /\
    fst (WinOptShell.setProcessPriority WinOptShell.preloadBackend callFn numText
           options p)
      = Js.Boolean false.
Proof.
  intros callFn toText numText mode options p. cbv zeta.
  assert (Hstartup : forall q,
             fst (WinOptShell.restoreStartup WinOptShell.preloadBackend callFn q)
             = Js.Boolean false).
  { intros q. unfold WinOptShell.restoreStartup, WinOptShell.orFalse, WinOptShell.bind.
    destruct (await_preload WinOptShell.restoreStartupCommand q) as (o & m' & ->).
    rewrite andIncludes_preload. reflexivity. }
  repeat split.
  - unfold WinOptShell.applyPowerPlan, WinOptShell.orFalse, WinOptShell.bind.
    destruct (await_preload WinOptShell.getCurrentPlan p) as (o & m' & ->).
    reflexivity.
  - unfold WinOptShell.applyPowerPlan, WinOptShell.orFalse, WinOptShell.bind.
    destruct (await_preload WinOptShell.getCurrentPlan p) as (o & m' & ->).
    reflexivity.
  - unfold WinOptShell.applyPowerPlan, WinOptShell.orFalse, WinOptShell.bind.
    destruct (await_preload WinOptShell.getCurrentPlan p) as (o & m' & ->).
    reflexivity.
  - unfold WinOptShell.freeRam, WinOptShell.orFalse, WinOptShell.bind.
    destruct (await_preload WinOptShell.freeRamCommand p) as (o & m' & ->).
    rewrite andIncludes_preload. reflexivity.
  - apply Hstartup.
  - unfold WinOptShell.restoreAll, WinOptShell.orFalse.
    unfold WinOptShell.bind at 1. unfold WinOptShell.getItem.
    assert (Hrest : forall q,
      fst (match WinOptShell.bind
                   (fun p0 => let '(v, p') :=
                                WinOptShell.restoreStartup
                                  WinOptShell.preloadBackend callFn p0 in
                              (Some v, p'))
                   (fun startupRestored =>
                      WinOptShell.ret (Js.Boolean (Js.truthy startupRestored))) q
           with
           | (Some v, p') => (v, p')
           | (None, p') => (Js.Boolean false, p')
           end) = Js.Boolean false).
    { intros q. unfold WinOptShell.bind, WinOptShell.ret.
      pose proof (Hstartup q) as Hq.
      destruct (WinOptShell.restoreStartup WinOptShell.preloadBackend callFn q)
        as [v q']. simpl in Hq. subst v. reflexivity. }
    destruct (WinOptShell.storage p !! "gb.prevPowerPlan") as [plan|].
    + destruct (String.eqb plan ""); cbn [negb].
      * unfold WinOptShell.bind at 1. unfold WinOptShell.ret at 1. apply Hrest.
      * unfold WinOptShell.bind at 1. unfold WinOptShell.bind at 1.
        destruct (await_preload (WinOptShell.restorePowerCommand plan) p)
          as (o & m' & ->).
        unfold WinOptShell.removeItem. apply Hrest.
    + unfold WinOptShell.bind at 1. unfold WinOptShell.ret at 1. apply Hrest.
  - unfold WinOptShell.setProcessPriority, WinOptShell.orFalse.
    destruct (negb _ && negb _); [reflexivity|].
    destruct (WinOptShell.whitelisted options); [reflexivity|].
    unfold WinOptShell.bind.
    destruct (await_preload (WinOptShell.priorityCommand numText options) p)
      as (o & m' & ->).
    rewrite andIncludes_preload. reflexivity.
Qed.

(** ** A Turbo run by the key of its profile *)
Section TurboByKey.
Import Browser Turbo.

(** Outside the desktop shell every step of the sequence is simulated and
    succeeds. *)
Lemma runOperations_preview (preset : Js.Value) (s e : Z) (w : World) :
  isDesktop w = false ->
  exists w',
    runOperations (operations preset) s e w = (Normal (s + 7, e), w') /\
    isDesktop w' = false.
Proof.
  intros Hp. unfold operations. cbv zeta.
  cbn [runOperations]. unfold step.
  repeat (cbn [isDesktop withTrace]; rewrite Hp).
  unfold ret.
  replace (s + 1 + 1 + 1 + 1 + 1 + 1 + 1) with (s + 7) by lia.
  eexists. split; [reflexivity|]. exact Hp.
Qed.

Lemma runTurbo_preview (w : World) (id : string) :
  isDesktop w = false ->
  Js.truthy (Js.lookup Presets.toValue Presets.presets (normalizedKey id)) = true ->
  exists r w', runTurbo id w = (Normal r, w') /\ steps r = 7 /\ errors r = 0.
Proof.
  intros Hp Htruthy. unfold runTurbo.
  unfold bind at 1. unfold now at 1. rewrite Htruthy. cbv [negb].
  destruct (runOperations_preview
              (Js.lookup Presets.toValue Presets.presets (normalizedKey id))
              0 0 (withClockReads (S (clockReads w)) w) Hp)
    as (w1 & Hrun & _).
  unfold bind at 1. rewrite Hrun.
  destruct (String.eqb (normalizedKey id) "battlefield6");
    (eexists _, _; split; [reflexivity|]; split; reflexivity).
Qed.

End TurboByKey.

(** X16. For an identifier whose normalised form is a key of the preset
    table, [runTurbo] ends normally after the seven steps in their order,
    counts as errors the steps that reported a failure, and sets
    [tempGuard] exactly for [battlefield6]; outside the desktop shell no
    step fails. For an identifier whose normalised form is neither a key
    nor one of the names [constructor] and [__proto__], it throws the
    not-found error that quotes the identifier as given, and leaves the
    log of steps, the storage and the telemetry as they were. *)
Theorem X16_runTurbo_by_key :
  forall (w : Browser.World) (id : string),
    (Presets.isPresetKey (Turbo.normalizedKey id) = true ->
     exists r w' evs,
       Turbo.runTurbo id w = (Browser.Normal r, w') /\
       Browser.trace w' = (Browser.trace w ++ evs)%list /\
       map Browser.label_of evs = Browser.turboSequence /\
       Turbo.steps r = 7 /\
       Turbo.errors r = failures evs /\
       0 <= Turbo.errors r <= 7 /\
       (Turbo.tempGuard r = true <-> Turbo.normalizedKey id = "battlefield6") /\
       (Browser.isDesktop w = false -> Turbo.errors r = 0)) /\
    (Presets.isPresetKey (Turbo.normalizedKey id) = false ->
     Turbo.normalizedKey id <> "constructor" ->
     Turbo.normalizedKey id <> "__proto__" ->
     Turbo.runTurbo id w
       = (Browser.Throw (Turbo.notFound id),
          Browser.withClockReads (S (Browser.clockReads w)) w)).
Proof.
  intros w id. split.
  - intros Hkey.
    destruct (runTurbo_preset_key w id Hkey)
      as (r & w' & evs & Hrun & Htrace & Hlabels & Hsteps & Herrors & Hbound & Hguard).
    exists r, w', evs. repeat split; try assumption; try lia.
    + apply Hguard.
    + apply Hguard.
    + intros Hp. destruct (preset_lookup_own _ Hkey) as (cfg & _ & Hlook).
      assert (Htruthy : Js.truthy (Js.lookup Presets.toValue Presets.presets
                                     (Turbo.normalizedKey id)) = true)
        by (rewrite Hlook; reflexivity).
      destruct (runTurbo_preview w id Hp Htruthy) as (r0 & w0 & Hrun0 & _ & H0).
      rewrite Hrun in Hrun0. now injection Hrun0 as <- _.
  - intros Hkey Hc Hproto. unfold Turbo.runTurbo, Browser.bind, Browser.now.
    rewrite (preset_lookup_falsy id Hkey Hc Hproto). reflexivity.
Qed.

Lemma X16_witness :
  (exists r w' evs,
      Turbo.runTurbo "E-Sports" previewWorld = (Browser.Normal r, w') /\
      Browser.trace w' = (Browser.trace previewWorld ++ evs)%list /\
      map Browser.label_of evs = Browser.turboSequence /\
      Turbo.steps r = 7 /\
      Turbo.errors r = failures evs /\
      0 <= Turbo.errors r <= 7 /\
      (Turbo.tempGuard r = true <-> Turbo.normalizedKey "E-Sports" = "battlefield6") /\
      (Browser.isDesktop previewWorld = false -> Turbo.errors r = 0)) /\
  Turbo.runTurbo "Tetris" previewWorld
    = (Browser.Throw (Turbo.notFound "Tetris"),
       Browser.withClockReads 1 previewWorld).
Proof.
  split.
  - apply (X16_runTurbo_by_key previewWorld "E-Sports"). reflexivity.
  - apply (X16_runTurbo_by_key previewWorld "Tetris");
      [reflexivity | discriminate | discriminate].
Defined.

(** X17. [normalizeProfileName] answers [null], a key of the preset table,
    or, for the names that strip to [constructor], the [Object] function.
    Every key and every display name of the table is normalised to its
    key, and every legacy name that the profile hook migrates is
    normalised to the key the hook migrates it to. *)
Theorem X17_names_agree :
  (forall name : string,
      Presets.normalizeProfileName name = Js.Null \/
      (exists k, Presets.normalizeProfileName name = Js.Str k /\
                 Presets.isPresetKey k = true) \/
      (Js.removeAll Presets.nameNoise (Js.toLowerCase name) = "constructor" /\
       Presets.normalizeProfileName name = Js.Native "Object" true)) /\
  Forall (fun k => Presets.normalizeProfileName k = Js.Str k) Presets.presetKeys /\
  Forall (fun kd => Presets.normalizeProfileName (snd kd) = Js.Str (fst kd))
         Presets.presetDisplayNames /\
  Forall (fun entry => Presets.normalizeProfileName (fst entry) = Js.Str (snd entry))
         Hooks.legacyNameMap.
Proof.
  split; [exact normalizeProfileName_range|].
  split; [exact normalizeProfileName_key|].
  split; [exact (proj2 normalizeProfileName_display)|].
  repeat constructor.
Qed.

(** ** The timeout that crosses the bridge *)

Lemma out_of_range_default (v : Js.Value) :
  timeoutInRange v = false -> v <> Js.Number Js.NaN ->
  Preload.effectiveTimeout v = Js.Number (Js.ofZ 30000).
Proof.
  intros Hout Hnan. apply effectiveTimeout_default.
  destruct v as [| | b | n | s | props | items | name c]; try exact I.
  destruct n as [q | | neg].
  - simpl in Hout. unfold Js.gt. simpl.
    destruct (Qlt_le_dec q (inject_Z 1000)) as [Hlt | Hge]; [left; reflexivity|].
    destruct (Qlt_le_dec (inject_Z 120000) q) as [Hgt | Hle]; [right; reflexivity|].
    exfalso. apply andb_false_iff in Hout. destruct Hout as [H | H].
    + apply Qle_bool_iff in Hge. congruence.
    + apply Qle_bool_iff in Hle. congruence.
  - contradiction.
  - destruct neg; [left | right]; reflexivity.
Qed.

(** X18. For a command that passes its validation and a timeout other
    than [NaN], [runPS] sends exactly one invocation to the host, and the
    timeout in it lies in the range from 1000 to 120000: it is the given
    one when that is a number in the range, and 30000 otherwise, also when
    none was given. *)
Theorem X18_timeout_sent_in_range :
  forall (S : Type) (invoke : string -> list Js.Value -> S -> Preload.Reply * S)
         (command timeout : Js.Value) (host : S),
    ~ invalidCommandInput command ->
    timeout <> Js.Number Js.NaN ->
    exists t,
      snd (Preload.runPS invoke command timeout host)
        = [("run-powershell", [command; t])] /\
      timeoutInRange t = true /\
      t = (if timeoutInRange timeout then timeout else Js.Number (Js.ofZ 30000)).
Proof.
  intros S invoke command timeout host Hok Hnan.
  exists (Preload.effectiveTimeout timeout). split; [|split].
  - unfold Preload.runPS. rewrite (validateCommand_valid command Hok).
    destruct (invoke _ _ host) as [[result | message] host']; [|reflexivity].
    destruct (Js.get result "stdout"), (Js.get result "stderr"),
      (Js.get result "code"), (Js.get result "duration"); reflexivity.
  - apply effectiveTimeout_in_range. exact Hnan.
  - destruct (timeoutInRange timeout) eqn:Hin.
    + destruct timeout as [| | b | n | s | props | items | name c];
        try discriminate Hin.
      apply effectiveTimeout_keeps. exact Hin.
    + apply out_of_range_default; assumption.
Qed.

Lemma X18_witness :
  snd (Preload.runPS Preload.hostInvoke (Js.Str "dir") (Js.Number (Js.ofZ 5))
         windowsBox)
    = [("run-powershell", [Js.Str "dir"; Js.Number (Js.ofZ 30000)])].
Proof.
  destruct (X18_timeout_sent_in_range Host.Machine Preload.hostInvoke
              (Js.Str "dir") (Js.Number (Js.ofZ 5)) windowsBox)
    as (t & Hsent & _ & Ht).
  - simpl. intros [H | H]; [discriminate | lia].
  - discriminate.
  - rewrite Hsent, Ht. reflexivity.
Defined.
